(** * Sales performance trend analysis and RFM customer segmentation

    A shallow embedding of [salesperformancetrendanalysis.py]: the
    loader/cleaner ([clean_and_prepare_data]), the RFM engine
    ([perform_rfm_analysis] with its inner [segment_customer]), the
    reporter ([plot_and_save_analysis]) and the main block.

    Conventions of the embedding.
    - A data frame is the list of its rows, in row order.
    - Numeric columns hold exact rationals ([Q]); the rounding of float64
      is not modelled.  Integer columns (customer ids after the cast,
      day counts, ranks, scores) are [Z]; the int64 range is modelled
      where the code casts into it, in [astype_int].
    - A timestamp is a number of nanoseconds since the epoch ([Z]); the
      [InvoiceDate] column is taken after [pd.to_datetime].
    - Of the six input columns only [CustomerID] may be missing: it is the
      one column the code tests for missing values.
    - A raised exception is a value of [result].  Of the console output
      only the loader's is modelled. *)

From Stdlib Require Import String DecimalString.
From Stdlib Require Import List ZArith QArith Qround Bool Lia Lqa.
From Stdlib Require Import Permutation Sorted.
Import ListNotations.

Local Open Scope Z_scope.

(** ** Exceptions *)

Inductive exn : Type :=
| ValueError (msg : string).

Inductive result (A : Type) : Type :=
| Ok (a : A)
| Raise (e : exn).

Arguments Ok {A} a.
Arguments Raise {A} e.

Definition bind {A B : Type} (m : result A) (k : A -> result B) : result B :=
  match m with
  | Ok a => k a
  | Raise e => Raise e
  end.

Notation "x <- m ;; k" := (bind m (fun x => k))
  (at level 61, m at next level, right associativity).

(** ** Rows *)

(** A row of the input file, as [pd.read_csv] delivers it. *)
Record RawRecord : Type := mkRaw {
  raw_InvoiceNo : string;
  raw_Description : string;
  raw_Quantity : Q;
  raw_UnitPrice : Q;
  raw_InvoiceDate : Z;
  raw_CustomerID : option Q
}.

(** A row of [df_cleaned]: the customer id is an integer and the [Sales]
    column has been added. *)
Record Transaction : Type := mkTransaction {
  InvoiceNo : string;
  Description : string;
  Quantity : Q;
  UnitPrice : Q;
  InvoiceDate : Z;
  CustomerID : Z;
  Sales : Q
}.

(** ** Scalar helpers *)

(** [x > 0] on a numeric column. *)
Definition Qpositive (x : Q) : bool := negb (Qle_bool x 0).

(** The range of int64. *)
Definition int64_min : Z := -9223372036854775808.
Definition int64_max : Z := 9223372036854775807.

(** [astype(int)] on a float: the cast to int64, which truncates towards
    zero; a value whose integer part does not fit gives the least int64
    (the result of the conversion on x86-64). *)
Definition astype_int (x : Q) : Z :=
  let t := Z.quot (Qnum x) (Zpos (Qden x)) in
  if (int64_min <=? t) && (t <=? int64_max) then t else int64_min.

(** ** 1. Data cleaning and feature engineering *)

(** Lines 30-31: [dropna(subset=['CustomerID'])], then the cast of the
    surviving ids to integers. *)
Fixpoint dropna_CustomerID (df : list RawRecord) : list (RawRecord * Z) :=
  match df with
  | [] => []
  | r :: rest =>
      match raw_CustomerID r with
      | None => dropna_CustomerID rest
      | Some c => (r, astype_int c) :: dropna_CustomerID rest
      end
  end.

(** Line 34: the mask [(Quantity > 0) & (UnitPrice > 0)]. *)
Definition valid_entry (rc : RawRecord * Z) : bool :=
  Qpositive (raw_Quantity (fst rc)) && Qpositive (raw_UnitPrice (fst rc)).

(** Line 37: the [Sales] column. *)
Definition add_Sales (rc : RawRecord * Z) : Transaction :=
  let r := fst rc in
  {| InvoiceNo := raw_InvoiceNo r;
     Description := raw_Description r;
     Quantity := raw_Quantity r;
     UnitPrice := raw_UnitPrice r;
     InvoiceDate := raw_InvoiceDate r;
     CustomerID := snd rc;
     Sales := (raw_Quantity r * raw_UnitPrice r)%Q |}.

(** The cleaning of a loaded frame (lines 26-37). *)
Definition clean_frame (df : list RawRecord) : list Transaction :=
  let df := dropna_CustomerID df in
  let df_cleaned := filter valid_entry df in
  map add_Sales df_cleaned.

(** The file system seen by [pd.read_csv]: a path holds a frame or does
    not exist. *)
Definition FileSystem : Type := string -> option (list RawRecord).

(** [str(n)] for a row count. *)
Definition str_of_nat (n : nat) : string :=
  NilEmpty.string_of_uint (Nat.to_uint n).

(** [clean_and_prepare_data]: the lines it prints and the value it
    returns.  [None] is Python's [None], returned when [read_csv] raises
    [FileNotFoundError]. *)
Definition clean_and_prepare_data (fs : FileSystem) (file_path : string)
  : list string * option (list Transaction) :=
  let started := "--- Starting Data Loading and Cleaning ---"%string in
  match fs file_path with
  | None =>
      ([started;
        ("Error: File not found at " ++ file_path
           ++ ". Please check the path.")%string],
       None)
  | Some df =>
      let df_cleaned := clean_frame df in
      ([started;
        ("Data successfully cleaned. Rows remaining: "
           ++ str_of_nat (length df_cleaned))%string],
       Some df_cleaned)
  end.

(** ** 2c. Segmentation mapping *)

Definition segment_customer (score : Z) : string :=
  if score >=? 13 then "Best Customers"%string
  else if score >=? 10 then "Loyal Customers"%string
  else if score >=? 6 then "Potential/At-Risk"%string
  else "Lost Customers"%string.

(** ** The pandas operations the program calls *)

Module pd.

(** [unique]: the distinct values of a column, in order of first
    appearance. *)
Fixpoint unique_from {A : Type} (eqb : A -> A -> bool) (seen l : list A)
  : list A :=
  match l with
  | [] => []
  | x :: rest =>
      if existsb (eqb x) seen then unique_from eqb seen rest
      else x :: unique_from eqb (x :: seen) rest
  end.

Definition unique {A : Type} (eqb : A -> A -> bool) (l : list A) : list A :=
  unique_from eqb [] l.

(** [nunique]: the number of distinct values. *)
Definition nunique (l : list string) : Z :=
  Z.of_nat (length (unique String.eqb l)).

(** Ascending sort of a column, by insertion. *)
Fixpoint insert_sorted {A : Type} (leb : A -> A -> bool) (x : A) (l : list A)
  : list A :=
  match l with
  | [] => [x]
  | y :: rest =>
      if leb x y then x :: y :: rest else y :: insert_sorted leb x rest
  end.

Fixpoint sort_values {A : Type} (leb : A -> A -> bool) (l : list A) : list A :=
  match l with
  | [] => []
  | x :: rest => insert_sorted leb x (sort_values leb rest)
  end.

(** [max] of a column; [None] (NaT) on an empty one. *)
Definition series_max (l : list Z) : option Z :=
  match l with
  | [] => None
  | x :: rest => Some (fold_left Z.max rest x)
  end.

(** [sum] of a column, accumulated in row order. *)
Definition series_sum (l : list Q) : Q := fold_left Qplus l 0%Q.

(** One day, in nanoseconds: [pd.Timedelta(days=1)]. *)
Definition Timedelta_day : Z := 86400000000000.

(** [Timedelta.days]: whole days, rounded down. *)
Definition Timedelta_days (delta : Z) : Z := delta / Timedelta_day.

(** [rank(method='first')]: one plus the number of strictly smaller
    values, plus the number of equal values met earlier in the column. *)
Definition count_lt (x : Z) (l : list Z) : Z :=
  Z.of_nat (length (filter (fun y => y <? x) l)).

Definition count_eq (x : Z) (l : list Z) : Z :=
  Z.of_nat (length (filter (fun y => y =? x) l)).

Fixpoint rank_first_from (seen l all : list Z) : list Z :=
  match l with
  | [] => []
  | x :: rest =>
      (1 + count_lt x all + count_eq x seen)
        :: rank_first_from (x :: seen) rest all
  end.

Definition rank_first (l : list Z) : list Z := rank_first_from [] l l.

(** [np.linspace(0, 1, q + 1)]. *)
Definition linspace01 (q : nat) : list Q :=
  map (fun k => Z.of_nat k # Pos.of_nat q) (seq 0 (S q)).

(** [quantile] with linear interpolation, on the sorted values [v] of a
    non-empty column: the virtual index is [(n - 1) * p]. *)
Definition quantile (v : list Q) (p : Q) : Q :=
  let n := Z.of_nat (length v) in
  let h := (inject_Z (n - 1) * p)%Q in
  let lo := Qfloor h in
  let hi := Z.min (lo + 1) (n - 1) in
  let gamma := (h - inject_Z lo)%Q in
  let a := nth (Z.to_nat lo) v 0%Q in
  let b := nth (Z.to_nat hi) v 0%Q in
  (a + (b - a) * gamma)%Q.

Definition Qlt_bool (x y : Q) : bool := negb (Qle_bool y x).

(** [bins.searchsorted(x, side='left')] on ascending [bins]: the number
    of edges strictly below [x]. *)
Fixpoint searchsorted_left (bins : list Q) (x : Q) : nat :=
  match bins with
  | [] => 0%nat
  | b :: rest => if Qlt_bool b x then S (searchsorted_left rest x) else 0%nat
  end.

(** The bin index of [x] in [_bins_to_cuts] with [include_lowest=True]:
    [None] where the NaN mask is set. *)
Definition bin_id (bins : list Q) (x : Q) : option nat :=
  let ids := searchsorted_left bins x in
  let ids :=
    match bins with
    | b0 :: _ => if Qeq_bool x b0 then 1%nat else ids
    | [] => ids
    end in
  if (ids =? length bins)%nat || (ids =? 0)%nat then None else Some ids.

Definition take_label (labels : list Z) (id : option nat) : option Z :=
  match id with
  | None => None
  | Some i => nth_error labels (i - 1)
  end.

Definition bin_edges_msg : string := "Bin edges must be unique".
Definition bin_labels_msg : string :=
  "Bin labels must be one fewer than the number of bin edges".
Definition nan_to_int_msg : string := "Cannot convert float NaN to integer".

(** The bin edges of [pd.qcut(x, q)]: the quantiles of [x] at
    [np.linspace(0, 1, q + 1)], computed exactly.  The code computes them
    in float64: its outer edges are the same minimum and maximum, its
    inner edges can differ from these in the last place. *)
Definition qcut_bins (x : list Q) (q : nat) : list Q :=
  map (quantile (sort_values Qle_bool x)) (linspace01 q).

(** [pd.qcut(x, q, labels=labels)], with the default
    [duplicates='raise'].  On an empty column every edge is NaN, so the
    edges are not unique. *)
Definition qcut (x : list Q) (q : nat) (labels : list Z)
  : result (list (option Z)) :=
  match x with
  | [] => Raise (ValueError bin_edges_msg)
  | _ :: _ =>
      let bins := qcut_bins x q in
      let unique_bins := unique Qeq_bool bins in
      if (length unique_bins <? length bins)%nat
         && negb (length bins =? 2)%nat
      then Raise (ValueError bin_edges_msg)
      else if negb (length labels =? length bins - 1)%nat
      then Raise (ValueError bin_labels_msg)
      else Ok (map (fun xi => take_label labels (bin_id bins xi)) x)
  end.

(** [_bins_to_cuts(x, bins, labels=labels, include_lowest=True)]: what
    [pd.qcut] does once it has its edges. *)
Definition bins_to_cuts (bins x : list Q) (labels : list Z)
  : result (list (option Z)) :=
  let unique_bins := unique Qeq_bool bins in
  if (length unique_bins <? length bins)%nat
     && negb (length bins =? 2)%nat
  then Raise (ValueError bin_edges_msg)
  else if negb (length labels =? length bins - 1)%nat
  then Raise (ValueError bin_labels_msg)
  else Ok (map (fun xi => take_label labels (bin_id bins xi)) x).

(** [astype(int)] on a categorical column: NaN cannot be converted. *)
Fixpoint astype_int_column (col : list (option Z)) : result (list Z) :=
  match col with
  | [] => Ok []
  | None :: _ => Raise (ValueError nan_to_int_msg)
  | Some v :: rest =>
      rest' <- astype_int_column rest ;;
      Ok (v :: rest')
  end.

End pd.

(** ** 2. RFM analysis and segmentation *)

(** One row of the aggregated frame [rfm] (lines 52-56). *)
Record RfmMetrics : Type := mkMetrics {
  rfm_CustomerID : Z;
  Recency : Z;
  Frequency : Z;
  Monetary : Q
}.

(** One row of the frame [perform_rfm_analysis] returns. *)
Record RfmRecord : Type := mkRfm {
  metrics : RfmMetrics;
  R_Score : Z;
  F_Score : Z;
  M_Score : Z;
  RFM_Total_Score : Z;
  Segment : string
}.

(** Line 50: [None] is NaT, the maximum of an empty column. *)
Definition snapshot_date (df_cleaned : list Transaction) : option Z :=
  option_map (fun m => m + pd.Timedelta_day)
             (pd.series_max (map InvoiceDate df_cleaned)).

(** The keys of [groupby('CustomerID')]: distinct and ascending. *)
Definition group_keys (df_cleaned : list Transaction) : list Z :=
  pd.sort_values Z.leb (pd.unique Z.eqb (map CustomerID df_cleaned)).

(** The rows of one group, in row order. *)
Definition group_of (df_cleaned : list Transaction) (c : Z)
  : list Transaction :=
  filter (fun t => CustomerID t =? c) df_cleaned.

(** Line 53: [lambda x: (snapshot_date - x.max()).days]. *)
Definition recency_lambda (snapshot : option Z) (x : list Z) : Z :=
  match snapshot, pd.series_max x with
  | Some s, Some m => pd.Timedelta_days (s - m)
  | _, _ => 0 (* NaT arises on an empty frame only, which has no group *)
  end.

(** Lines 52-56: [groupby('CustomerID').agg(...).reset_index()]. *)
Definition rfm_agg (df_cleaned : list Transaction) : list RfmMetrics :=
  let snapshot := snapshot_date df_cleaned in
  map (fun c =>
         let g := group_of df_cleaned c in
         {| rfm_CustomerID := c;
            Recency := recency_lambda snapshot (map InvoiceDate g);
            Frequency := pd.nunique (map InvoiceNo g);
            Monetary := pd.series_sum (map Sales g) |})
      (group_keys df_cleaned).

(** Line 65: the sum of the three integer columns, row by row. *)
Fixpoint add_columns (R F M : list Z) : list Z :=
  match R, F, M with
  | r :: R', f :: F', m :: M' => (r + f + m) :: add_columns R' F' M'
  | _, _, _ => []
  end.

(** The rows of the frame, from its columns. *)
Fixpoint frame_rows (rfm : list RfmMetrics) (R F M total : list Z)
         (segment : list string) : list RfmRecord :=
  match rfm, R, F, M, total, segment with
  | x :: rfm', r :: R', f :: F', m :: M', t :: total', s :: segment' =>
      {| metrics := x; R_Score := r; F_Score := f; M_Score := m;
         RFM_Total_Score := t; Segment := s |}
        :: frame_rows rfm' R' F' M' total' segment'
  | _, _, _, _, _, _ => []
  end.

Definition R_labels : list Z := [5; 4; 3; 2; 1].
Definition FM_labels : list Z := [1; 2; 3; 4; 5].

(** The three categorical score columns (lines 59-62). *)
Definition recency_scores (rfm : list RfmMetrics) : result (list (option Z)) :=
  pd.qcut (map (fun x => inject_Z (Recency x)) rfm) 5 R_labels.

Definition frequency_scores (rfm : list RfmMetrics)
  : result (list (option Z)) :=
  pd.qcut (map inject_Z (pd.rank_first (map Frequency rfm))) 5 FM_labels.

Definition monetary_scores (rfm : list RfmMetrics) : result (list (option Z)) :=
  pd.qcut (map Monetary rfm) 5 FM_labels.

Definition perform_rfm_analysis (df_cleaned : list Transaction)
  : result (list RfmRecord) :=
  let rfm := rfm_agg df_cleaned in
  R_Score <- recency_scores rfm ;;
  F_Score <- frequency_scores rfm ;;
  M_Score <- monetary_scores rfm ;;
  R <- pd.astype_int_column R_Score ;;
  F <- pd.astype_int_column F_Score ;;
  M <- pd.astype_int_column M_Score ;;
  let total := add_columns R F M in
  let segment := map segment_customer total in
  Ok (frame_rows rfm R F M total segment).

(** ** 3. Visualization *)

(** [dt.to_period('M')]: the calendar month of a timestamp, as the number
    of months since January 1970 (the ordinal of the period). *)
Definition to_period_M (t : Z) : Z :=
  let z := t / pd.Timedelta_day + 719468 in
  let era := z / 146097 in
  let doe := z - era * 146097 in
  let yoe := (doe - doe / 1460 + doe / 36524 - doe / 146096) / 365 in
  let doy := doe - (365 * yoe + yoe / 4 - yoe / 100) in
  let mp := (5 * doy + 2) / 153 in
  let m := if mp <? 10 then mp + 3 else mp - 9 in
  let y := yoe + era * 400 + (if m <=? 2 then 1 else 0) in
  (y - 1970) * 12 + (m - 1).

(** [groupby(key)['Sales'].sum().reset_index()]: one row per distinct key,
    keys ascending. *)
Definition groupby_Sales_sum {K : Type} (eqb leb : K -> K -> bool)
           (key : Transaction -> K) (df : list Transaction) : list (K * Q) :=
  map (fun k =>
         (k, pd.series_sum (map Sales (filter (fun t => eqb (key t) k) df))))
      (pd.sort_values leb (pd.unique eqb (map key df))).

(** Lines 96-97. *)
Definition monthly_sales (df_cleaned : list Transaction) : list (Z * Q) :=
  groupby_Sales_sum Z.eqb Z.leb (fun t => to_period_M (InvoiceDate t))
                    df_cleaned.

(** Line 114. *)
Definition product_sales (df_cleaned : list Transaction)
  : list (string * Q) :=
  groupby_Sales_sum String.eqb String.leb Description df_cleaned.

(** Line 115: descending by [Sales], first ten rows.  The order of rows
    with equal sales is left open by pandas; here they keep the order
    of an insertion sort. *)
Definition top_10_products (df_cleaned : list Transaction)
  : list (string * Q) :=
  firstn 10 (pd.sort_values (fun a b => Qle_bool (snd b) (snd a))
                            (product_sales df_cleaned)).

(** Lines 129-130: [value_counts()], most frequent segment first. *)
Definition segment_counts (rfm_data : list RfmRecord) : list (string * Z) :=
  let col := map Segment rfm_data in
  pd.sort_values (fun a b => snd b <=? snd a)
    (map (fun s => (s, Z.of_nat (length (filter (String.eqb s) col))))
         (pd.unique String.eqb col)).

(** What a written file holds: the data of a chart, or the table. *)
Inductive Artifact : Type :=
| LinePlot (data : list (Z * Q))
| BarPlot (data : list (string * Q))
| PieChart (data : list (string * Z))
| CsvTable (rows : list RfmRecord).

(** [plot_and_save_analysis]: the files it saves, in order.  The column
    [InvoiceMonth] it adds to the caller's frame is read by nothing
    later. *)
Definition plot_and_save_analysis (df_cleaned : list Transaction)
           (rfm_data : list RfmRecord) : list (string * Artifact) :=
  [ ("monthly_sales_trend.png"%string, LinePlot (monthly_sales df_cleaned));
    ("top_10_products.png"%string, BarPlot (top_10_products df_cleaned));
    ("rfm_segmentation_pie.png"%string, PieChart (segment_counts rfm_data)) ].

(** ** 4. Main execution *)

Definition FILE_NAME : string := "Online_Retail.csv".

(** How a run ends. *)
Inductive Exit : Type :=
| Completed            (* the workflow ran to its last line *)
| NoData               (* [clean_data is None]: nothing is done *)
| Uncaught (e : exn).  (* an exception left the program *)

Record Run : Type := mkRun {
  written : list (string * Artifact);
  exit : Exit
}.

Definition main (fs : FileSystem) : Run :=
  match snd (clean_and_prepare_data fs FILE_NAME) with
  | Some clean_data =>
      match perform_rfm_analysis clean_data with
      | Ok rfm_results =>
          {| written :=
               plot_and_save_analysis clean_data rfm_results
                 ++ [("rfm_segmentation_data.csv"%string,
                      CsvTable rfm_results)];
             exit := Completed |}
      | Raise e => {| written := []; exit := Uncaught e |}
      end
  | None => {| written := []; exit := NoData |}
  end.

(** ** The order of the four segments, lowest value first *)

Definition segment_labels : list string :=
  [ "Lost Customers"; "Potential/At-Risk"; "Loyal Customers";
    "Best Customers" ]%string.

Definition segment_level (s : string) : Z :=
  if String.eqb s "Best Customers" then 3
  else if String.eqb s "Loyal Customers" then 2
  else if String.eqb s "Potential/At-Risk" then 1
  else 0.

(** A row that the cleaning step discards, in the words of the
    specification: no customer id, or a quantity or a unit price that is
    not positive. *)
Definition discarded (r : RawRecord) : Prop :=
  raw_CustomerID r = None
  \/ (raw_Quantity r <= 0)%Q
  \/ (raw_UnitPrice r <= 0)%Q.

(** The F_Score column, customer by customer. *)
Definition F_Score_by_customer (rfm : list RfmRecord) : list (Z * Z) :=
  map (fun row => (rfm_CustomerID (metrics row), F_Score row)) rfm.

(** The integers 1..n, ascending. *)
Definition ordinals (n : nat) : list Z := map Z.of_nat (seq 1 n).

(** ** A small input file

    Five customers with one invoice each, a return (quantity [-3]) and a
    row without customer id.  Day [d] stands for midnight of the [d]-th
    day after the epoch. *)

Definition at_day (d : Z) : Z := d * pd.Timedelta_day.

Definition sample_return : RawRecord :=
  mkRaw "C536383" "HAND WARMER" (-3) 1 (at_day 14949) (Some 17850%Q).

Definition sample_anonymous : RawRecord :=
  mkRaw "536414" "LANTERN" 1 1 (at_day 14949) None.

Definition sample_file : list RawRecord :=
  [ mkRaw "536365" "LANTERN" 1 2 (at_day 14944) (Some 12346%Q);
    mkRaw "536366" "HAND WARMER" 2 2 (at_day 14945) (Some 12347%Q);
    mkRaw "536367" "LANTERN" 3 2 (at_day 14946) (Some 13047%Q);
    sample_return;
    mkRaw "536368" "TEA SET" 1 5 (at_day 14947) (Some 15100%Q);
    sample_anonymous;
    mkRaw "536369" "TEA SET" 1 (1 # 2) (at_day 14948) (Some 17850%Q) ].

Definition sample_fs : FileSystem :=
  fun path => if String.eqb path FILE_NAME then Some sample_file else None.

Definition empty_fs : FileSystem := fun _ => None.

Definition sample_cleaned : list Transaction := clean_frame sample_file.

Definition sample_table : list RfmRecord :=
  Eval vm_compute in
    match perform_rfm_analysis sample_cleaned with
    | Ok table => table
    | Raise _ => []
    end.

(** Eleven customers with one invoice each; customers 3 and 4 bought on
    the same day for the same amount. *)
Definition one_purchase (c d : Z) (amount : Q) : Transaction :=
  {| InvoiceNo := str_of_nat (Z.to_nat (540000 + c));
     Description := "TEA SET";
     Quantity := 1; UnitPrice := amount; InvoiceDate := at_day d;
     CustomerID := c; Sales := (1 * amount)%Q |}.

Definition tied_cleaned : list Transaction :=
  [ one_purchase 1 100 10; one_purchase 2 99 20; one_purchase 3 98 50;
    one_purchase 4 98 50; one_purchase 5 97 30; one_purchase 6 96 40;
    one_purchase 7 95 45; one_purchase 8 94 60; one_purchase 9 93 70;
    one_purchase 10 92 80; one_purchase 11 91 90 ].

Definition tied_table : list RfmRecord :=
  Eval vm_compute in
    match perform_rfm_analysis tied_cleaned with
    | Ok table => table
    | Raise _ => []
    end.

Definition sample_transaction : Transaction :=
  add_Sales (mkRaw "536365" "LANTERN" 1 2 (at_day 14944) (Some 12346%Q),
             12346).

Definition sample_row : RfmRecord :=
  Eval vm_compute in
    nth 0 sample_table (mkRfm (mkMetrics 0 0 0 0) 0 0 0 0 "").

(** ** Totals *)

(** The sum of an integer column. *)
Definition Zsum (l : list Z) : Z := fold_right Z.add 0 l.

(** The values of a column are pairwise different. *)
Definition all_different (x : list Q) : Prop :=
  ForallOrdPairs (fun a b => ~ (a == b)%Q) x.

(** ** Two customers *)

Definition two_customers_cleaned : list Transaction :=
  [ one_purchase 1 100 10; one_purchase 2 99 20 ].

Definition two_customers_table : list RfmRecord :=
  Eval vm_compute in
    match perform_rfm_analysis two_customers_cleaned with
    | Ok table => table
    | Raise _ => []
    end.

(** ** Two degenerate inputs *)

(** Two customers who both bought on the same day. *)
Definition same_day_cleaned : list Transaction :=
  [ one_purchase 1 100 10; one_purchase 2 100 20 ].

(** A file in which no row is valid. *)
Definition invalid_file : list RawRecord :=
  [ sample_return; sample_anonymous ].

(** * Properties *)

(** ** The error monad *)

Lemma bind_Ok {A B : Type} (m : result A) (k : A -> result B) (b : B) :
  bind m k = Ok b -> exists a, m = Ok a /\ k a = Ok b.
Proof.
  destruct m as [a | e]; simpl; intros H.
  - exists a; split; [reflexivity | exact H].
  - discriminate H.
Qed.

(** ** Scalars *)

Lemma Qpositive_iff (x : Q) : Qpositive x = true <-> (0 < x)%Q.
Proof.
  unfold Qpositive. rewrite negb_true_iff.
  split; intros H.
  - apply Qnot_le_lt. intros Hle. apply Qle_bool_iff in Hle. congruence.
  - destruct (Qle_bool x 0) eqn:E; [ | reflexivity].
    apply Qle_bool_iff in E. exfalso. exact (Qlt_not_le _ _ H E).
Qed.

Lemma Qlt_bool_iff (x y : Q) : pd.Qlt_bool x y = true <-> (x < y)%Q.
Proof.
  unfold pd.Qlt_bool. rewrite negb_true_iff.
  split; intros H.
  - apply Qnot_le_lt. intros Hle. apply Qle_bool_iff in Hle. congruence.
  - destruct (Qle_bool y x) eqn:E; [ | reflexivity].
    apply Qle_bool_iff in E. exfalso. exact (Qlt_not_le _ _ H E).
Qed.

Lemma Qlt_bool_false_iff (x y : Q) : pd.Qlt_bool x y = false <-> (y <= x)%Q.
Proof.
  unfold pd.Qlt_bool. rewrite negb_false_iff. apply Qle_bool_iff.
Qed.

(** ** Segmentation *)

Lemma segment_customer_cases (score : Z) :
  (13 <= score /\ segment_customer score = "Best Customers"%string)
  \/ (10 <= score <= 12 /\ segment_customer score = "Loyal Customers"%string)
  \/ (6 <= score <= 9 /\ segment_customer score = "Potential/At-Risk"%string)
  \/ (score < 6 /\ segment_customer score = "Lost Customers"%string).
Proof.
  unfold segment_customer.
  rewrite !Z.geb_leb.
  destruct (13 <=? score) eqn:E13;
    [left; split; [lia | reflexivity] | ].
  destruct (10 <=? score) eqn:E10;
    [right; left; split; [lia | reflexivity] | ].
  destruct (6 <=? score) eqn:E6;
    [right; right; left; split; [lia | reflexivity] | ].
  right; right; right; split; [lia | reflexivity].
Qed.

Lemma segment_level_monotone (s1 s2 : Z) :
  s1 <= s2 ->
  segment_level (segment_customer s1) <= segment_level (segment_customer s2).
Proof.
  intros Hle.
  destruct (segment_customer_cases s1) as [[H1 ->] | [[H1 ->] | [[H1 ->] | [H1 ->]]]];
    destruct (segment_customer_cases s2) as [[H2 ->] | [[H2 ->] | [[H2 ->] | [H2 ->]]]];
    try lia; vm_compute; discriminate.
Qed.

(** ** Cleaning *)

Lemma dropna_CustomerID_app (l1 l2 : list RawRecord) :
  dropna_CustomerID (l1 ++ l2) = dropna_CustomerID l1 ++ dropna_CustomerID l2.
Proof.
  induction l1 as [ | r l1 IH]; simpl; [reflexivity | ].
  destruct (raw_CustomerID r); simpl; now rewrite IH.
Qed.

Lemma clean_frame_app (l1 l2 : list RawRecord) :
  clean_frame (l1 ++ l2) = clean_frame l1 ++ clean_frame l2.
Proof.
  unfold clean_frame.
  now rewrite dropna_CustomerID_app, filter_app, map_app.
Qed.

Lemma clean_frame_discarded (r : RawRecord) :
  discarded r -> clean_frame [r] = [].
Proof.
  unfold clean_frame, discarded; simpl.
  destruct (raw_CustomerID r) as [c | ]; [ | reflexivity].
  intros [Hc | [Hq | Hp]]; [discriminate Hc | | ]; simpl; unfold valid_entry; simpl.
  - destruct (Qpositive (raw_Quantity r)) eqn:E; [ | reflexivity].
    apply Qpositive_iff in E. exfalso. exact (Qlt_not_le _ _ E Hq).
  - destruct (Qpositive (raw_UnitPrice r)) eqn:E;
      [ | now rewrite andb_false_r].
    apply Qpositive_iff in E. exfalso. exact (Qlt_not_le _ _ E Hp).
Qed.

Lemma clean_frame_In (df : list RawRecord) (t : Transaction) :
  In t (clean_frame df) ->
  exists r c, In r df /\ raw_CustomerID r = Some c
              /\ valid_entry (r, astype_int c) = true
              /\ t = add_Sales (r, astype_int c).
Proof.
  unfold clean_frame. rewrite in_map_iff.
  intros [[r z] [Ht Hin]]. apply filter_In in Hin. destruct Hin as [Hin Hv].
  assert (Hd : forall l, In (r, z) (dropna_CustomerID l) ->
               exists c, In r l /\ raw_CustomerID r = Some c /\ z = astype_int c).
  { induction l as [ | r0 l IH]; simpl; [intros [] | ].
    destruct (raw_CustomerID r0) as [c0 | ] eqn:E0.
    - intros [Heq | Hl].
      + inversion Heq; subst. exists c0. auto.
      + destruct (IH Hl) as [c [H1 H2]]. exists c. auto.
    - intros Hl. destruct (IH Hl) as [c [H1 H2]]. exists c. auto. }
  destruct (Hd df Hin) as [c [H1 [H2 H3]]]. subst z.
  exists r, c. auto.
Qed.

(** ** Score columns *)

Lemma astype_int_column_Ok (col : list (option Z)) (l : list Z) :
  pd.astype_int_column col = Ok l -> col = map Some l.
Proof.
  revert l. induction col as [ | [v | ] col IH]; simpl; intros l H.
  - inversion H. reflexivity.
  - apply bind_Ok in H. destruct H as [l' [H1 H2]].
    inversion H2; subst. simpl. now rewrite (IH l' H1).
  - discriminate H.
Qed.

Lemma astype_int_column_Some (l : list Z) :
  pd.astype_int_column (map Some l) = Ok l.
Proof.
  induction l as [ | v l IH]; simpl; [reflexivity | ].
  now rewrite IH.
Qed.

Lemma qcut_Ok (x : list Q) (q : nat) (labels : list Z) (col : list (option Z)) :
  pd.qcut x q labels = Ok col ->
  x <> []
  /\ col = map (fun xi => pd.take_label labels
                            (pd.bin_id (pd.qcut_bins x q) xi)) x.
Proof.
  unfold pd.qcut. destruct x as [ | x0 x]; [discriminate | ].
  destruct (_ && _); [discriminate | ].
  destruct (negb _); [discriminate | ].
  intros H. inversion H. split; [discriminate | reflexivity].
Qed.

Lemma take_label_In (labels : list Z) (id : option nat) (v : Z) :
  pd.take_label labels id = Some v -> In v labels.
Proof.
  destruct id as [i | ]; simpl; [ | discriminate].
  apply nth_error_In.
Qed.

Lemma qcut_Ok_labels (x : list Q) (q : nat) (labels : list Z) (l : list Z) :
  pd.qcut x q labels = Ok (map Some l) ->
  length l = length x /\ Forall (fun v => In v labels) l.
Proof.
  intros H. apply qcut_Ok in H. destruct H as [_ H].
  split.
  - apply (f_equal (@length _)) in H. now rewrite !length_map in H.
  - apply Forall_forall. intros v Hv.
    assert (Hin : In (Some v) (map Some l)) by now apply in_map.
    rewrite H in Hin. apply in_map_iff in Hin.
    destruct Hin as [xi [Hxi _]]. now apply take_label_In in Hxi.
Qed.

(** ** The rows of the scored frame *)

Lemma frame_rows_Forall (rfm : list RfmMetrics) (R F M : list Z) :
  Forall (fun row =>
            In (metrics row) rfm
            /\ In (R_Score row) R /\ In (F_Score row) F /\ In (M_Score row) M
            /\ RFM_Total_Score row = R_Score row + F_Score row + M_Score row
            /\ Segment row = segment_customer (RFM_Total_Score row))
         (frame_rows rfm R F M (add_columns R F M)
                     (map segment_customer (add_columns R F M))).
Proof.
  revert R F M.
  induction rfm as [ | x rfm IH]; intros R F M; [constructor | ].
  destruct R as [ | r R]; [constructor | ].
  destruct F as [ | f F]; [constructor | ].
  destruct M as [ | m M]; [constructor | ].
  simpl. constructor.
  - simpl. intuition.
  - eapply Forall_impl; [ | apply IH].
    simpl. intros row H. intuition.
Qed.

Lemma frame_rows_columns (rfm : list RfmMetrics) (R F M : list Z) :
  length R = length rfm -> length F = length rfm -> length M = length rfm ->
  let table := frame_rows rfm R F M (add_columns R F M)
                          (map segment_customer (add_columns R F M)) in
  map metrics table = rfm /\ map R_Score table = R
  /\ map F_Score table = F /\ map M_Score table = M.
Proof.
  revert R F M.
  induction rfm as [ | x rfm IH]; intros R F M HR HF HM.
  - destruct R, F, M; try discriminate. simpl. auto.
  - destruct R as [ | r R]; [discriminate | ].
    destruct F as [ | f F]; [discriminate | ].
    destruct M as [ | m M]; [discriminate | ].
    simpl in HR, HF, HM.
    destruct (IH R F M) as [H1 [H2 [H3 H4]]]; try lia.
    simpl. repeat split; f_equal; assumption.
Qed.

Lemma perform_rfm_analysis_Ok (df : list Transaction) (table : list RfmRecord) :
  perform_rfm_analysis df = Ok table ->
  exists R F M,
    recency_scores (rfm_agg df) = Ok (map Some R)
    /\ frequency_scores (rfm_agg df) = Ok (map Some F)
    /\ monetary_scores (rfm_agg df) = Ok (map Some M)
    /\ table = frame_rows (rfm_agg df) R F M (add_columns R F M)
                          (map segment_customer (add_columns R F M)).
Proof.
  unfold perform_rfm_analysis. intros H.
  apply bind_Ok in H. destruct H as [Rc [HR H]].
  apply bind_Ok in H. destruct H as [Fc [HF H]].
  apply bind_Ok in H. destruct H as [Mc [HM H]].
  apply bind_Ok in H. destruct H as [R [HR' H]].
  apply bind_Ok in H. destruct H as [F [HF' H]].
  apply bind_Ok in H. destruct H as [M [HM' H]].
  apply astype_int_column_Ok in HR', HF', HM'. subst Rc Fc Mc.
  inversion H. exists R, F, M. auto.
Qed.

Lemma rank_first_from_length (seen l all : list Z) :
  length (pd.rank_first_from seen l all) = length l.
Proof.
  revert seen. induction l as [ | x l IH]; simpl; intros seen;
    [ | rewrite IH]; reflexivity.
Qed.

Lemma rank_first_length (l : list Z) : length (pd.rank_first l) = length l.
Proof. apply rank_first_from_length. Qed.

(** The columns of the returned frame are the aggregated metrics and the
    three score columns, row for row. *)
Lemma perform_rfm_analysis_columns (df : list Transaction)
      (table : list RfmRecord) :
  perform_rfm_analysis df = Ok table ->
  map metrics table = rfm_agg df
  /\ recency_scores (rfm_agg df) = Ok (map Some (map R_Score table))
  /\ frequency_scores (rfm_agg df) = Ok (map Some (map F_Score table))
  /\ monetary_scores (rfm_agg df) = Ok (map Some (map M_Score table)).
Proof.
  intros H. apply perform_rfm_analysis_Ok in H.
  destruct H as [R [F [M [HR [HF [HM ->]]]]]].
  pose proof (qcut_Ok_labels _ _ _ _ HR) as [HlR _].
  pose proof (qcut_Ok_labels _ _ _ _ HF) as [HlF _].
  pose proof (qcut_Ok_labels _ _ _ _ HM) as [HlM _].
  rewrite length_map in HlR, HlF, HlM.
  rewrite rank_first_length, length_map in HlF.
  destruct (frame_rows_columns (rfm_agg df) R F M HlR HlF HlM)
    as [H1 [H2 [H3 H4]]].
  rewrite H1, H2, H3, H4. auto.
Qed.

Lemma perform_rfm_analysis_metrics (df : list Transaction)
      (table : list RfmRecord) :
  perform_rfm_analysis df = Ok table -> map metrics table = rfm_agg df.
Proof. intros H. now apply perform_rfm_analysis_columns in H. Qed.

(** ** Sorting *)

Section Sorting.

Context {A : Type} (leb : A -> A -> bool).

Hypothesis leb_total : forall a b, leb a b = false -> leb b a = true.
Hypothesis leb_trans :
  forall a b c, leb a b = true -> leb b c = true -> leb a c = true.

Lemma insert_sorted_Permutation (x : A) (l : list A) :
  Permutation (pd.insert_sorted leb x l) (x :: l).
Proof.
  induction l as [ | y l IH]; simpl; [reflexivity | ].
  destruct (leb x y); [reflexivity | ].
  rewrite IH. apply perm_swap.
Qed.

Lemma sort_values_Permutation (l : list A) :
  Permutation (pd.sort_values leb l) l.
Proof.
  induction l as [ | x l IH]; simpl; [reflexivity | ].
  rewrite insert_sorted_Permutation. now apply perm_skip.
Qed.

Lemma sort_values_length (l : list A) :
  length (pd.sort_values leb l) = length l.
Proof. apply Permutation_length, sort_values_Permutation. Qed.

Lemma insert_sorted_StronglySorted (x : A) (l : list A) :
  StronglySorted (fun a b => leb a b = true) l ->
  StronglySorted (fun a b => leb a b = true) (pd.insert_sorted leb x l).
Proof.
  induction l as [ | y l IH]; simpl; intros Hs.
  - repeat constructor.
  - inversion Hs as [ | ? ? Hl Hy]; subst.
    destruct (leb x y) eqn:E.
    + constructor; [assumption | ].
      constructor; [assumption | ].
      eapply Forall_impl; [ | exact Hy].
      intros z Hz. now apply (leb_trans x y z).
    + constructor; [now apply IH | ].
      apply (Permutation_Forall
               (Permutation_sym (insert_sorted_Permutation x l))).
      constructor; [now apply leb_total | assumption].
Qed.

Lemma sort_values_StronglySorted (l : list A) :
  StronglySorted (fun a b => leb a b = true) (pd.sort_values leb l).
Proof.
  induction l as [ | x l IH]; simpl; [constructor | ].
  now apply insert_sorted_StronglySorted.
Qed.

Hypothesis leb_antisym :
  forall a b, leb a b = true -> leb b a = true -> a = b.

Lemma StronglySorted_Permutation_eq (l1 l2 : list A) :
  StronglySorted (fun a b => leb a b = true) l1 ->
  StronglySorted (fun a b => leb a b = true) l2 ->
  Permutation l1 l2 -> l1 = l2.
Proof.
  revert l2. induction l1 as [ | x l1 IH]; intros l2 H1 H2 Hp.
  - apply Permutation_nil in Hp. now subst.
  - destruct l2 as [ | y l2];
      [apply Permutation_sym, Permutation_nil in Hp; discriminate | ].
    inversion H1 as [ | ? ? Hs1 Hx]; subst.
    inversion H2 as [ | ? ? Hs2 Hy]; subst.
    assert (Hxy : x = y).
    { assert (Hin1 : In x (y :: l2))
        by (apply (Permutation_in _ Hp); now left).
      assert (Hin2 : In y (x :: l1))
        by (apply (Permutation_in _ (Permutation_sym Hp)); now left).
      destruct Hin1 as [-> | Hin1]; [reflexivity | ].
      destruct Hin2 as [-> | Hin2]; [reflexivity | ].
      rewrite Forall_forall in Hx, Hy.
      apply leb_antisym; auto. }
    subst y. f_equal. apply IH; try assumption.
    now apply Permutation_cons_inv in Hp.
Qed.

Lemma sort_values_Permutation_eq (l1 l2 : list A) :
  Permutation l1 l2 -> pd.sort_values leb l1 = pd.sort_values leb l2.
Proof.
  intros Hp. apply StronglySorted_Permutation_eq.
  - apply sort_values_StronglySorted.
  - apply sort_values_StronglySorted.
  - rewrite !sort_values_Permutation. exact Hp.
Qed.

End Sorting.

(** ** Distinct values *)

Section Unique.

Context {A : Type} (eqb : A -> A -> bool).

Lemma unique_from_incl (seen l : list A) (x : A) :
  In x (pd.unique_from eqb seen l) -> In x l.
Proof.
  revert seen. induction l as [ | y l IH]; simpl; intros seen; [tauto | ].
  destruct (existsb (eqb y) seen).
  - intros H. right. now apply (IH seen).
  - intros [-> | H]; [now left | right; now apply (IH (y :: seen))].
Qed.

Lemma unique_from_length_le (seen l : list A) :
  (length (pd.unique_from eqb seen l) <= length l)%nat.
Proof.
  revert seen. induction l as [ | y l IH]; simpl; intros seen; [lia | ].
  destruct (existsb (eqb y) seen); simpl.
  - specialize (IH seen). lia.
  - specialize (IH (y :: seen)). lia.
Qed.

(** The column loses no row exactly when no value meets an earlier one. *)
Lemma unique_from_full (seen l : list A) :
  length (pd.unique_from eqb seen l) = length l ->
  ForallOrdPairs (fun a b => eqb b a = false) l
  /\ Forall (fun x => Forall (fun s => eqb x s = false) seen) l.
Proof.
  revert seen. induction l as [ | y l IH]; simpl; intros seen H.
  - split; constructor.
  - destruct (existsb (eqb y) seen) eqn:E.
    + pose proof (unique_from_length_le seen l). lia.
    + simpl in H. injection H as H.
      destruct (IH (y :: seen) H) as [H1 H2].
      split.
      * constructor; [ | assumption].
        eapply Forall_impl; [ | exact H2].
        intros z Hz. now inversion Hz.
      * constructor.
        -- apply Forall_forall. intros s Hs.
           destruct (eqb y s) eqn:Ey; [ | reflexivity].
           assert (existsb (eqb y) seen = true)
             by (apply existsb_exists; eauto).
           congruence.
        -- eapply Forall_impl; [ | exact H2].
           intros z Hz. now inversion Hz.
Qed.

Lemma unique_from_id (seen l : list A) :
  ForallOrdPairs (fun a b => eqb b a = false) l ->
  Forall (fun x => Forall (fun s => eqb x s = false) seen) l ->
  pd.unique_from eqb seen l = l.
Proof.
  revert seen. induction l as [ | y l IH]; simpl; intros seen H1 H2;
    [reflexivity | ].
  inversion H1 as [ | ? ? Hy Hl]; subst.
  inversion H2 as [ | ? ? Hys Hls]; subst.
  assert (E : existsb (eqb y) seen = false).
  { destruct (existsb (eqb y) seen) eqn:E; [ | reflexivity].
    apply existsb_exists in E. destruct E as [s [Hs Hes]].
    rewrite Forall_forall in Hys. rewrite (Hys s Hs) in Hes. discriminate. }
  rewrite E. f_equal. apply IH; [assumption | ].
  apply Forall_forall. intros z Hz. constructor.
  - rewrite Forall_forall in Hy. now apply Hy.
  - rewrite Forall_forall in Hls. now apply Hls.
Qed.

Hypothesis eqb_spec : forall a b, eqb a b = true <-> a = b.

Lemma unique_from_In (seen l : list A) (x : A) :
  In x (pd.unique_from eqb seen l) <-> In x l /\ ~ In x seen.
Proof.
  revert seen. induction l as [ | y l IH]; simpl; intros seen; [tauto | ].
  destruct (existsb (eqb y) seen) eqn:E.
  - rewrite IH. apply existsb_exists in E. destruct E as [s [Hs Hys]].
    apply eqb_spec in Hys. subst s.
    split; [tauto | ].
    intros [[-> | H] Hn]; [contradiction | tauto].
  - simpl. rewrite IH. simpl.
    assert (Hy : ~ In y seen).
    { intros Hy. assert (existsb (eqb y) seen = true).
      { apply existsb_exists. exists y. split; [assumption | now apply eqb_spec]. }
      congruence. }
    split.
    + intros [-> | [H1 H2]]; [tauto | tauto].
    + intros [[-> | H1] H2]; [now left | ].
      destruct (eqb y x) eqn:Eyx.
      * apply eqb_spec in Eyx. now left.
      * right. split; [assumption | ].
        intros [-> | H3]; [ | contradiction].
        assert (eqb x x = true) by now apply eqb_spec. congruence.
Qed.

Lemma unique_from_NoDup (seen l : list A) :
  NoDup (pd.unique_from eqb seen l).
Proof.
  revert seen. induction l as [ | y l IH]; simpl; intros seen;
    [constructor | ].
  destruct (existsb (eqb y) seen); [apply IH | ].
  constructor; [ | apply IH].
  rewrite unique_from_In. simpl. tauto.
Qed.

Lemma unique_In (l : list A) (x : A) : In x (pd.unique eqb l) <-> In x l.
Proof. unfold pd.unique. rewrite unique_from_In. simpl. tauto. Qed.

Lemma unique_NoDup (l : list A) : NoDup (pd.unique eqb l).
Proof. apply unique_from_NoDup. Qed.

Lemma unique_Permutation (l1 l2 : list A) :
  Permutation l1 l2 -> Permutation (pd.unique eqb l1) (pd.unique eqb l2).
Proof.
  intros Hp. apply NoDup_Permutation; try apply unique_NoDup.
  intros x. rewrite !unique_In.
  split; apply Permutation_in; [assumption | now apply Permutation_sym].
Qed.

End Unique.

(** ** Group keys *)

Lemma Zleb_total (a b : Z) : (a <=? b) = false -> (b <=? a) = true.
Proof. rewrite Z.leb_gt, Z.leb_le. lia. Qed.

Lemma Zleb_trans (a b c : Z) :
  (a <=? b) = true -> (b <=? c) = true -> (a <=? c) = true.
Proof. rewrite !Z.leb_le. lia. Qed.

Lemma Zleb_antisym (a b : Z) :
  (a <=? b) = true -> (b <=? a) = true -> a = b.
Proof. rewrite !Z.leb_le. lia. Qed.

Lemma group_keys_In (df : list Transaction) (c : Z) :
  In c (group_keys df) <-> In c (map CustomerID df).
Proof.
  unfold group_keys.
  rewrite <- (unique_In Z.eqb Z.eqb_eq (map CustomerID df) c).
  split; apply Permutation_in;
    [ | apply Permutation_sym]; apply sort_values_Permutation.
Qed.

Lemma group_keys_NoDup (df : list Transaction) : NoDup (group_keys df).
Proof.
  unfold group_keys.
  apply (Permutation_NoDup
           (Permutation_sym (sort_values_Permutation Z.leb _))).
  apply (unique_NoDup Z.eqb Z.eqb_eq).
Qed.

Lemma group_keys_Permutation (df1 df2 : list Transaction) :
  Permutation df1 df2 -> group_keys df1 = group_keys df2.
Proof.
  intros Hp. unfold group_keys.
  apply (sort_values_Permutation_eq Z.leb Zleb_total Zleb_trans Zleb_antisym).
  apply (unique_Permutation Z.eqb Z.eqb_eq).
  now apply Permutation_map.
Qed.

Lemma group_of_In (df : list Transaction) (c : Z) (t : Transaction) :
  In t (group_of df c) <-> In t df /\ CustomerID t = c.
Proof. unfold group_of. rewrite filter_In, Z.eqb_eq. tauto. Qed.

Lemma group_of_nonempty (df : list Transaction) (c : Z) :
  In c (group_keys df) -> group_of df c <> [].
Proof.
  rewrite group_keys_In, in_map_iff. intros [t [Hc Ht]] Hnil.
  assert (Hin : In t (group_of df c)) by (apply group_of_In; auto).
  rewrite Hnil in Hin. exact Hin.
Qed.

Lemma rfm_agg_CustomerID (df : list Transaction) :
  map rfm_CustomerID (rfm_agg df) = group_keys df.
Proof.
  unfold rfm_agg. rewrite map_map. simpl. apply map_id.
Qed.

(** ** The latest timestamp *)

Lemma fold_left_max_spec (l : list Z) (x : Z) :
  let m := fold_left Z.max l x in
  In m (x :: l) /\ x <= m /\ Forall (fun y => y <= m) l.
Proof.
  revert x. induction l as [ | y l IH]; intros x; simpl.
  - repeat split; [now left | lia | constructor].
  - destruct (IH (Z.max x y)) as [H1 [H2 H3]].
    repeat split.
    + destruct H1 as [H1 | H1]; [ | now right; right].
      rewrite <- H1. destruct (Z.max_spec x y) as [[_ ->] | [_ ->]];
        [right; now left | now left].
    + lia.
    + constructor; [lia | assumption].
Qed.

Lemma series_max_spec (l : list Z) (m : Z) :
  pd.series_max l = Some m -> In m l /\ Forall (fun y => y <= m) l.
Proof.
  destruct l as [ | x l]; simpl; [discriminate | ].
  intros H. injection H as <-.
  destruct (fold_left_max_spec l x) as [H1 [H2 H3]].
  split; [exact H1 | constructor; assumption].
Qed.

Lemma series_max_nonempty (l : list Z) :
  l <> [] -> exists m, pd.series_max l = Some m.
Proof.
  destruct l as [ | x l]; [congruence | ]. intros _. simpl. eauto.
Qed.

Lemma series_max_Permutation (l1 l2 : list Z) :
  Permutation l1 l2 -> pd.series_max l1 = pd.series_max l2.
Proof.
  intros Hp.
  destruct l1 as [ | x1 l1].
  - apply Permutation_nil in Hp. now subst.
  - destruct l2 as [ | x2 l2];
      [apply Permutation_sym, Permutation_nil in Hp; discriminate | ].
    destruct (series_max_nonempty (x1 :: l1)) as [m1 E1]; [discriminate | ].
    destruct (series_max_nonempty (x2 :: l2)) as [m2 E2]; [discriminate | ].
    rewrite E1, E2. f_equal.
    apply series_max_spec in E1, E2.
    destruct E1 as [I1 F1], E2 as [I2 F2].
    rewrite Forall_forall in F1, F2.
    apply (Permutation_in _ Hp) in I1.
    apply (Permutation_in _ (Permutation_sym Hp)) in I2.
    specialize (F1 _ I2). specialize (F2 _ I1). lia.
Qed.

Lemma Recency_lower_bound (df : list Transaction) (x : RfmMetrics) :
  In x (rfm_agg df) -> 1 <= Recency x.
Proof.
  unfold rfm_agg. rewrite in_map_iff. intros [c [<- Hc]]. simpl.
  pose proof (group_of_nonempty df c Hc) as Hne.
  destruct (series_max_nonempty (map InvoiceDate (group_of df c))) as [m Em].
  { destruct (group_of df c); [congruence | discriminate]. }
  assert (Hdf : map InvoiceDate df <> []).
  { destruct df; [ | discriminate]. simpl in Hne. congruence. }
  destruct (series_max_nonempty _ Hdf) as [mx Emx].
  unfold recency_lambda, snapshot_date. rewrite Emx, Em. simpl.
  apply series_max_spec in Em, Emx.
  destruct Em as [Im _], Emx as [_ Fmx].
  rewrite Forall_forall in Fmx.
  assert (Hle : m <= mx).
  { apply Fmx. apply in_map_iff in Im. destruct Im as [t [<- Ht]].
    apply in_map. now apply group_of_In in Ht. }
  unfold pd.Timedelta_days.
  apply Z.div_le_lower_bound; unfold pd.Timedelta_day; lia.
Qed.

(** * The claims *)

Lemma segment_customer_iff (score : Z) :
  (segment_customer score = "Best Customers"%string <-> 13 <= score)
  /\ (segment_customer score = "Loyal Customers"%string <-> 10 <= score <= 12)
  /\ (segment_customer score = "Potential/At-Risk"%string <-> 6 <= score <= 9)
  /\ (segment_customer score = "Lost Customers"%string <-> score < 6).
Proof.
  destruct (segment_customer_cases score)
    as [[H ->] | [[H ->] | [[H ->] | [H ->]]]];
    (split; [ | split; [ | split]]); split; intros H';
    try reflexivity; try lia; try discriminate H'.
Qed.

Lemma segment_customer_label (score : Z) :
  In (segment_customer score) segment_labels.
Proof.
  destruct (segment_customer_cases score)
    as [[H ->] | [[H ->] | [[H ->] | [H ->]]]]; simpl; auto.
Qed.

(** C1.  In the frame returned by the RFM engine, the segment of every
    customer is [segment_customer] of that customer's total score and of
    nothing else: 'Best Customers' exactly from 13 upwards,
    'Loyal Customers' exactly for 10 to 12, 'Potential/At-Risk' exactly
    for 6 to 9 and 'Lost Customers' exactly below 6; it is one of these
    four labels, and a customer with a total at least as high never sits
    in a lower segment. *)
Theorem segment_is_step_function_of_total_score
        (df_cleaned : list Transaction) (rfm : list RfmRecord)
        (row : RfmRecord) :
  perform_rfm_analysis df_cleaned = Ok rfm ->
  In row rfm ->
  Segment row = segment_customer (RFM_Total_Score row)
  /\ (Segment row = "Best Customers"%string <-> 13 <= RFM_Total_Score row)
  /\ (Segment row = "Loyal Customers"%string
      <-> 10 <= RFM_Total_Score row <= 12)
  /\ (Segment row = "Potential/At-Risk"%string
      <-> 6 <= RFM_Total_Score row <= 9)
  /\ (Segment row = "Lost Customers"%string <-> RFM_Total_Score row < 6)
  /\ In (Segment row) segment_labels
  /\ (forall row',
         In row' rfm ->
         (RFM_Total_Score row = RFM_Total_Score row' ->
          Segment row = Segment row')
         /\ (RFM_Total_Score row <= RFM_Total_Score row' ->
             segment_level (Segment row) <= segment_level (Segment row'))).
Proof.
  intros Hrun Hrow.
  apply perform_rfm_analysis_Ok in Hrun.
  destruct Hrun as [R [F [M [_ [_ [_ ->]]]]]].
  pose proof (frame_rows_Forall (rfm_agg df_cleaned) R F M) as Hall.
  rewrite Forall_forall in Hall.
  destruct (Hall row Hrow) as [_ [_ [_ [_ [_ Hseg]]]]].
  rewrite Hseg.
  destruct (segment_customer_iff (RFM_Total_Score row)) as [H1 [H2 [H3 H4]]].
  split; [reflexivity | ].
  split; [exact H1 | ]. split; [exact H2 | ].
  split; [exact H3 | ]. split; [exact H4 | ].
  split; [apply segment_customer_label | ].
  intros row' H. split.
  - destruct (Hall row' H) as [_ [_ [_ [_ [_ Hseg']]]]].
    rewrite Hseg'. intros ->. reflexivity.
  - destruct (Hall row' H) as [_ [_ [_ [_ [_ Hseg']]]]].
    rewrite Hseg'. apply segment_level_monotone.
Qed.

Lemma segment_is_step_function_of_total_score_witness :
  perform_rfm_analysis sample_cleaned = Ok sample_table
  /\ In sample_row sample_table
  /\ Segment sample_row = segment_customer (RFM_Total_Score sample_row)
  /\ (Segment sample_row = "Lost Customers"%string
      <-> RFM_Total_Score sample_row < 6).
Proof.
  assert (Hrun : perform_rfm_analysis sample_cleaned = Ok sample_table)
    by (vm_compute; reflexivity).
  assert (Hrow : In sample_row sample_table) by (left; reflexivity).
  split; [exact Hrun | ]. split; [exact Hrow | ].
  pose proof (segment_is_step_function_of_total_score
                sample_cleaned sample_table sample_row Hrun Hrow) as H.
  destruct H as [H1 [_ [_ [_ [H5 _]]]]].
  split; [exact H1 | exact H5].
Defined.

(** C10.  [segment_customer] is defined on every integer, not only on
    3..15: each score gets exactly one of the four labels, decided by the
    thresholds 13, 10 and 6, and every score below 6 (zero and the
    negative ones included) gets 'Lost Customers'. *)
Theorem segment_customer_total_on_integers :
  forall score : Z,
    In (segment_customer score) segment_labels
    /\ (segment_customer score = "Best Customers"%string <-> 13 <= score)
    /\ (segment_customer score = "Loyal Customers"%string
        <-> 10 <= score <= 12)
    /\ (segment_customer score = "Potential/At-Risk"%string
        <-> 6 <= score <= 9)
    /\ (segment_customer score = "Lost Customers"%string <-> score < 6)
    /\ NoDup segment_labels.
Proof.
  intros score. split; [apply segment_customer_label | ].
  destruct (segment_customer_iff score) as [H1 [H2 [H3 H4]]].
  split; [exact H1 | ]. split; [exact H2 | ].
  split; [exact H3 | ]. split; [exact H4 | ].
  unfold segment_labels.
  repeat constructor; simpl; intuition discriminate.
Qed.

(** C2.  Every record the cleaning step returns has a positive quantity
    and a positive unit price, and its [Sales] is the product of the
    two. *)
Theorem cleaned_records_are_valid
        (fs : FileSystem) (file_path : string)
        (df_cleaned : list Transaction) (t : Transaction) :
  snd (clean_and_prepare_data fs file_path) = Some df_cleaned ->
  In t df_cleaned ->
  (0 < Quantity t)%Q /\ (0 < UnitPrice t)%Q
  /\ Sales t = (Quantity t * UnitPrice t)%Q.
Proof.
  unfold clean_and_prepare_data.
  destruct (fs file_path) as [df | ]; simpl; [ | discriminate].
  intros H Ht. injection H as <-.
  apply clean_frame_In in Ht.
  destruct Ht as [r [c [_ [_ [Hv ->]]]]].
  unfold valid_entry in Hv. simpl in Hv.
  apply andb_true_iff in Hv. destruct Hv as [Hq Hp].
  apply Qpositive_iff in Hq, Hp.
  simpl. auto.
Qed.

Lemma cleaned_records_are_valid_witness :
  snd (clean_and_prepare_data sample_fs FILE_NAME) = Some sample_cleaned
  /\ In sample_transaction sample_cleaned
  /\ (0 < Quantity sample_transaction)%Q
  /\ (0 < UnitPrice sample_transaction)%Q
  /\ Sales sample_transaction
     = (Quantity sample_transaction * UnitPrice sample_transaction)%Q.
Proof.
  assert (H1 : snd (clean_and_prepare_data sample_fs FILE_NAME)
               = Some sample_cleaned) by reflexivity.
  assert (H2 : In sample_transaction sample_cleaned) by (left; reflexivity).
  split; [exact H1 | ]. split; [exact H2 | ].
  exact (cleaned_records_are_valid sample_fs FILE_NAME sample_cleaned
                                   sample_transaction H1 H2).
Defined.

(** C3.  On a non-empty cleaned data set the snapshot date is the latest
    transaction timestamp plus one day, and therefore the Recency computed
    for every customer is at least 1. *)
Theorem snapshot_is_day_after_latest (df_cleaned : list Transaction) :
  df_cleaned <> [] ->
  exists latest,
    In latest (map InvoiceDate df_cleaned)
    /\ (forall t, In t df_cleaned -> InvoiceDate t <= latest)
    /\ snapshot_date df_cleaned = Some (latest + pd.Timedelta_day)
    /\ (forall x, In x (rfm_agg df_cleaned) -> 1 <= Recency x)
    /\ (forall rfm row,
           perform_rfm_analysis df_cleaned = Ok rfm ->
           In row rfm -> 1 <= Recency (metrics row)).
Proof.
  intros Hne.
  assert (Hd : map InvoiceDate df_cleaned <> [])
    by (destruct df_cleaned; [congruence | discriminate]).
  destruct (series_max_nonempty _ Hd) as [latest E].
  exists latest.
  pose proof (series_max_spec _ _ E) as [Hin Hall].
  rewrite Forall_forall in Hall.
  split; [exact Hin | ].
  split; [intros t Ht; apply Hall; now apply in_map | ].
  split; [unfold snapshot_date; now rewrite E | ].
  split; [apply Recency_lower_bound | ].
  intros rfm row Hrun Hrow.
  apply (Recency_lower_bound df_cleaned).
  rewrite <- (perform_rfm_analysis_metrics df_cleaned rfm Hrun).
  now apply in_map.
Qed.

Lemma snapshot_is_day_after_latest_witness :
  sample_cleaned <> []
  /\ exists latest,
       In latest (map InvoiceDate sample_cleaned)
       /\ (forall t, In t sample_cleaned -> InvoiceDate t <= latest)
       /\ snapshot_date sample_cleaned = Some (latest + pd.Timedelta_day)
       /\ (forall x, In x (rfm_agg sample_cleaned) -> 1 <= Recency x)
       /\ (forall rfm row,
              perform_rfm_analysis sample_cleaned = Ok rfm ->
              In row rfm -> 1 <= Recency (metrics row)).
Proof.
  assert (H : sample_cleaned <> []) by (vm_compute; discriminate).
  split; [exact H | ].
  exact (snapshot_is_day_after_latest sample_cleaned H).
Defined.

(** C4.  In the frame returned by the RFM engine every customer has
    R_Score, F_Score and M_Score among the integers 1..5, and a total
    score that is their sum and lies in 3..15. *)
Theorem scores_are_in_range
        (df_cleaned : list Transaction) (rfm : list RfmRecord)
        (row : RfmRecord) :
  perform_rfm_analysis df_cleaned = Ok rfm ->
  In row rfm ->
  1 <= R_Score row <= 5
  /\ 1 <= F_Score row <= 5
  /\ 1 <= M_Score row <= 5
  /\ RFM_Total_Score row = R_Score row + F_Score row + M_Score row
  /\ 3 <= RFM_Total_Score row <= 15.
Proof.
  intros Hrun Hrow.
  apply perform_rfm_analysis_Ok in Hrun.
  destruct Hrun as [R [F [M [HR [HF [HM ->]]]]]].
  pose proof (frame_rows_Forall (rfm_agg df_cleaned) R F M) as Hall.
  rewrite Forall_forall in Hall.
  destruct (Hall row Hrow) as [_ [Hr [Hf [Hm [Ht _]]]]].
  apply qcut_Ok_labels in HR, HF, HM.
  destruct HR as [_ HR], HF as [_ HF], HM as [_ HM].
  rewrite Forall_forall in HR, HF, HM.
  specialize (HR _ Hr). specialize (HF _ Hf). specialize (HM _ Hm).
  assert (HRr : 1 <= R_Score row <= 5)
    by (unfold R_labels in HR; simpl in HR; lia).
  assert (HFr : 1 <= F_Score row <= 5)
    by (unfold FM_labels in HF; simpl in HF; lia).
  assert (HMr : 1 <= M_Score row <= 5)
    by (unfold FM_labels in HM; simpl in HM; lia).
  repeat split; lia.
Qed.

Lemma scores_are_in_range_witness :
  perform_rfm_analysis sample_cleaned = Ok sample_table
  /\ In sample_row sample_table
  /\ 1 <= R_Score sample_row <= 5
  /\ 1 <= F_Score sample_row <= 5
  /\ 1 <= M_Score sample_row <= 5
  /\ RFM_Total_Score sample_row
     = R_Score sample_row + F_Score sample_row + M_Score sample_row
  /\ 3 <= RFM_Total_Score sample_row <= 15.
Proof.
  assert (Hrun : perform_rfm_analysis sample_cleaned = Ok sample_table)
    by (vm_compute; reflexivity).
  assert (Hrow : In sample_row sample_table) by (left; reflexivity).
  split; [exact Hrun | ]. split; [exact Hrow | ].
  exact (scores_are_in_range sample_cleaned sample_table sample_row Hrun Hrow).
Defined.

(** C6.  When the input file is absent the loader prints the error and
    returns [None], and the run ends at once with no file written.  When
    the file is present and the run reaches its end, the three charts and
    the RFM table have been written. *)
Theorem outputs_follow_the_input_file (fs : FileSystem) :
  (fs FILE_NAME = None ->
   snd (clean_and_prepare_data fs FILE_NAME) = None
   /\ In ("Error: File not found at Online_Retail.csv. Please check the path.")%string
         (fst (clean_and_prepare_data fs FILE_NAME))
   /\ main fs = {| written := []; exit := NoData |})
  /\ (forall df,
         fs FILE_NAME = Some df ->
         exit (main fs) = Completed ->
         exists rfm,
           perform_rfm_analysis (clean_frame df) = Ok rfm
           /\ written (main fs)
              = [ ("monthly_sales_trend.png"%string,
                   LinePlot (monthly_sales (clean_frame df)));
                  ("top_10_products.png"%string,
                   BarPlot (top_10_products (clean_frame df)));
                  ("rfm_segmentation_pie.png"%string,
                   PieChart (segment_counts rfm));
                  ("rfm_segmentation_data.csv"%string, CsvTable rfm) ])
  /\ (exit (main fs) <> Completed -> written (main fs) = []).
Proof.
  split; [ | split].
  - intros Habsent. unfold main, clean_and_prepare_data.
    rewrite Habsent. simpl. repeat split. right. left. reflexivity.
  - intros df Hpresent. unfold main, clean_and_prepare_data.
    rewrite Hpresent. simpl.
    destruct (perform_rfm_analysis (clean_frame df)) as [rfm | e]; simpl.
    + intros _. exists rfm. split; reflexivity.
    + discriminate.
  - unfold main.
    destruct (snd (clean_and_prepare_data fs FILE_NAME)) as [df | ];
      [ | reflexivity].
    destruct (perform_rfm_analysis df); simpl; [congruence | reflexivity].
Qed.

Lemma outputs_follow_the_input_file_witness :
  (empty_fs FILE_NAME = None
   /\ main empty_fs = {| written := []; exit := NoData |})
  /\ (sample_fs FILE_NAME = Some sample_file
      /\ exit (main sample_fs) = Completed
      /\ map fst (written (main sample_fs))
         = [ "monthly_sales_trend.png"; "top_10_products.png";
             "rfm_segmentation_pie.png"; "rfm_segmentation_data.csv" ]%string).
Proof.
  split.
  - assert (H : empty_fs FILE_NAME = None) by reflexivity.
    split; [exact H | ].
    apply (proj1 (outputs_follow_the_input_file empty_fs) H).
  - assert (H1 : sample_fs FILE_NAME = Some sample_file) by reflexivity.
    assert (H2 : exit (main sample_fs) = Completed)
      by (vm_compute; reflexivity).
    split; [exact H1 | ]. split; [exact H2 | ].
    destruct (proj1 (proj2 (outputs_follow_the_input_file sample_fs))
                    sample_file H1 H2) as [rfm [_ Hw]].
    rewrite Hw. reflexivity.
Defined.

(** ** Frequency and Monetary of a group *)

Lemma nunique_spec (l : list string) :
  exists distinct,
    NoDup distinct
    /\ (forall i, In i distinct <-> In i l)
    /\ pd.nunique l = Z.of_nat (length distinct).
Proof.
  exists (pd.unique String.eqb l).
  split; [apply (unique_NoDup String.eqb String.eqb_eq) | ].
  split; [intros i; apply (unique_In String.eqb String.eqb_eq) | reflexivity].
Qed.

Lemma rfm_agg_row (df : list Transaction) (c : Z) :
  In c (map CustomerID df) ->
  In {| rfm_CustomerID := c;
        Recency := recency_lambda (snapshot_date df)
                                  (map InvoiceDate (group_of df c));
        Frequency := pd.nunique (map InvoiceNo (group_of df c));
        Monetary := pd.series_sum (map Sales (group_of df c)) |}
     (rfm_agg df).
Proof.
  intros Hc. apply group_keys_In in Hc.
  unfold rfm_agg. apply in_map_iff. exists c. split; [reflexivity | exact Hc].
Qed.

(** C7.  Every customer id carried by at least one cleaned transaction
    is the id of exactly one row of the RFM table; the Frequency of that
    row is the number of distinct invoice numbers among the customer's
    cleaned transactions and its Monetary is the sum of their [Sales].
    The frame returned by the engine has these rows, in this order. *)
Theorem one_rfm_row_per_customer (input : list RawRecord) (c : Z) :
  let df_cleaned := clean_frame input in
  In c (map CustomerID df_cleaned) ->
  count_occ Z.eq_dec (map rfm_CustomerID (rfm_agg df_cleaned)) c = 1%nat
  /\ (exists x invoices,
         In x (rfm_agg df_cleaned)
         /\ rfm_CustomerID x = c
         /\ NoDup invoices
         /\ (forall i,
                In i invoices
                <-> exists t, In t df_cleaned /\ CustomerID t = c
                              /\ InvoiceNo t = i)
         /\ Frequency x = Z.of_nat (length invoices)
         /\ Monetary x
            = fold_left Qplus
                        (map Sales
                             (filter (fun t => CustomerID t =? c) df_cleaned))
                        0%Q)
  /\ (forall rfm,
         perform_rfm_analysis df_cleaned = Ok rfm ->
         map metrics rfm = rfm_agg df_cleaned).
Proof.
  intros df_cleaned Hc.
  split; [ | split].
  - rewrite rfm_agg_CustomerID.
    apply NoDup_count_occ'; [apply group_keys_NoDup | now apply group_keys_In].
  - destruct (nunique_spec (map InvoiceNo (group_of df_cleaned c)))
      as [invoices [Hnd [Hin Hlen]]].
    eexists. exists invoices.
    split; [apply (rfm_agg_row df_cleaned c Hc) | ].
    simpl. split; [reflexivity | ]. split; [exact Hnd | ].
    split; [ | split; [exact Hlen | reflexivity]].
    intros i. rewrite Hin, in_map_iff.
    split.
    + intros [t [Hi Ht]]. apply group_of_In in Ht. exists t. tauto.
    + intros [t [Ht [Hct Hi]]]. exists t. split; [exact Hi | ].
      apply group_of_In. tauto.
  - apply perform_rfm_analysis_metrics.
Qed.

Lemma one_rfm_row_per_customer_witness :
  In 17850 (map CustomerID (clean_frame sample_file))
  /\ count_occ Z.eq_dec
               (map rfm_CustomerID (rfm_agg (clean_frame sample_file)))
               17850 = 1%nat.
Proof.
  assert (H : In 17850 (map CustomerID (clean_frame sample_file)))
    by (vm_compute; tauto).
  split; [exact H | ].
  exact (proj1 (one_rfm_row_per_customer sample_file 17850 H)).
Defined.

Lemma clean_frame_kept (r : RawRecord) :
  ~ discarded r -> clean_frame [r] <> [].
Proof.
  unfold clean_frame, discarded; simpl. intros Hnot.
  destruct (raw_CustomerID r) as [c | ]; [ | tauto].
  simpl. unfold valid_entry. simpl.
  assert (Hq : Qpositive (raw_Quantity r) = true).
  { apply Qpositive_iff, Qnot_le_lt. tauto. }
  assert (Hp : Qpositive (raw_UnitPrice r) = true).
  { apply Qpositive_iff, Qnot_le_lt. tauto. }
  rewrite Hq, Hp. simpl. discriminate.
Qed.

(** C8.  The rows that cleaning drops are those without customer id or
    with a quantity or unit price that is not positive, and such a row
    leaves no trace: with or without it the cleaned frame is the same,
    and so are the RFM metrics, the scored table, the monthly and the
    per-product revenue sums, and everything the run prints about the
    data and writes. *)
Theorem discarded_row_leaves_no_trace
        (before after : list RawRecord) (r : RawRecord)
        (fs fs' : FileSystem) :
  (clean_frame [r] = [] -> discarded r)
  /\ (discarded r ->
      fs FILE_NAME = Some (before ++ r :: after) ->
      fs' FILE_NAME = Some (before ++ after) ->
      clean_frame [r] = []
      /\ clean_frame (before ++ r :: after) = clean_frame (before ++ after)
      /\ rfm_agg (clean_frame (before ++ r :: after))
         = rfm_agg (clean_frame (before ++ after))
      /\ perform_rfm_analysis (clean_frame (before ++ r :: after))
         = perform_rfm_analysis (clean_frame (before ++ after))
      /\ monthly_sales (clean_frame (before ++ r :: after))
         = monthly_sales (clean_frame (before ++ after))
      /\ product_sales (clean_frame (before ++ r :: after))
         = product_sales (clean_frame (before ++ after))
      /\ clean_and_prepare_data fs FILE_NAME
         = clean_and_prepare_data fs' FILE_NAME
      /\ main fs = main fs').
Proof.
  split.
  - intros Hdrop.
    destruct (raw_CustomerID r) as [c | ] eqn:Ec; [ | now left].
    destruct (Qlt_le_dec 0 (raw_Quantity r)) as [Hq | Hq];
      [ | right; now left].
    destruct (Qlt_le_dec 0 (raw_UnitPrice r)) as [Hp | Hp];
      [ | right; now right].
    exfalso. revert Hdrop. apply clean_frame_kept.
    unfold discarded. rewrite Ec.
    intros [Hc | [Hq' | Hp']]; [discriminate Hc | | ].
    + exact (Qlt_not_le _ _ Hq Hq').
    + exact (Qlt_not_le _ _ Hp Hp').
  - intros Hr Hfs Hfs'.
    assert (E : clean_frame (before ++ r :: after)
                = clean_frame (before ++ after)).
    { change (r :: after) with ([r] ++ after).
      rewrite !clean_frame_app, (clean_frame_discarded r Hr). reflexivity. }
    split; [now apply clean_frame_discarded | ].
    split; [exact E | ].
    unfold main, clean_and_prepare_data.
    rewrite Hfs, Hfs', E. repeat split; reflexivity.
Qed.

Lemma discarded_row_leaves_no_trace_witness :
  discarded sample_return
  /\ sample_fs FILE_NAME
     = Some (firstn 3 sample_file ++ sample_return :: skipn 4 sample_file)
  /\ clean_frame (firstn 3 sample_file ++ sample_return :: skipn 4 sample_file)
     = clean_frame (firstn 3 sample_file ++ skipn 4 sample_file)
  /\ main sample_fs
     = main (fun _ => Some (firstn 3 sample_file ++ skipn 4 sample_file)).
Proof.
  assert (H1 : discarded sample_return).
  { right. left. vm_compute. discriminate. }
  assert (H2 : sample_fs FILE_NAME
               = Some (firstn 3 sample_file
                         ++ sample_return :: skipn 4 sample_file))
    by reflexivity.
  split; [exact H1 | ]. split; [exact H2 | ].
  destruct (proj2 (discarded_row_leaves_no_trace
                     (firstn 3 sample_file) (skipn 4 sample_file)
                     sample_return sample_fs
                     (fun _ => Some (firstn 3 sample_file
                                       ++ skipn 4 sample_file)))
                  H1 H2 eq_refl) as [_ [E [_ [_ [_ [_ [_ Hmain]]]]]]].
  split; [exact E | exact Hmain].
Defined.

(** ** The order of the input rows *)

Lemma group_of_Permutation (df1 df2 : list Transaction) (c : Z) :
  Permutation df1 df2 -> Permutation (group_of df1 c) (group_of df2 c).
Proof.
  unfold group_of. induction 1; simpl.
  - constructor.
  - destruct (CustomerID x =? c); [now constructor | assumption].
  - destruct (CustomerID x =? c), (CustomerID y =? c);
      try reflexivity; apply perm_swap.
  - etransitivity; eassumption.
Qed.

Lemma nunique_Permutation (l1 l2 : list string) :
  Permutation l1 l2 -> pd.nunique l1 = pd.nunique l2.
Proof.
  intros Hp. unfold pd.nunique. f_equal.
  apply Permutation_length.
  now apply (unique_Permutation String.eqb String.eqb_eq).
Qed.

Lemma rfm_agg_Permutation (df1 df2 : list Transaction) :
  Permutation df1 df2 ->
  map rfm_CustomerID (rfm_agg df1) = map rfm_CustomerID (rfm_agg df2)
  /\ map Recency (rfm_agg df1) = map Recency (rfm_agg df2)
  /\ map Frequency (rfm_agg df1) = map Frequency (rfm_agg df2).
Proof.
  intros Hp. unfold rfm_agg. rewrite !map_map. simpl.
  rewrite (group_keys_Permutation df1 df2 Hp).
  split; [reflexivity | ].
  split; apply map_ext; intros c.
  - unfold recency_lambda, snapshot_date.
    rewrite (series_max_Permutation (map InvoiceDate df1)
                                    (map InvoiceDate df2))
      by now apply Permutation_map.
    rewrite (series_max_Permutation (map InvoiceDate (group_of df1 c))
                                    (map InvoiceDate (group_of df2 c)))
      by now apply Permutation_map, group_of_Permutation.
    reflexivity.
  - apply nunique_Permutation, Permutation_map.
    now apply group_of_Permutation.
Qed.

Lemma frequency_scores_Permutation (df1 df2 : list Transaction) :
  Permutation df1 df2 ->
  frequency_scores (rfm_agg df1) = frequency_scores (rfm_agg df2).
Proof.
  intros Hp. unfold frequency_scores.
  now destruct (rfm_agg_Permutation df1 df2 Hp) as [_ [_ ->]].
Qed.

Lemma map_Some_inj {A : Type} (l1 l2 : list A) :
  map Some l1 = map Some l2 -> l1 = l2.
Proof.
  revert l2. induction l1 as [ | a l1 IH]; intros [ | b l2] H;
    try discriminate; [reflexivity | ].
  simpl in H. injection H as -> H. f_equal. now apply IH.
Qed.

Lemma map_pair_eq {A B C : Type} (f : A -> B) (g : A -> C) (l1 l2 : list A) :
  map f l1 = map f l2 -> map g l1 = map g l2 ->
  map (fun a => (f a, g a)) l1 = map (fun a => (f a, g a)) l2.
Proof.
  revert l2. induction l1 as [ | a l1 IH]; intros [ | b l2] Hf Hg;
    try discriminate; [reflexivity | ].
  simpl in *. injection Hf as -> Hf. injection Hg as -> Hg.
  f_equal. now apply IH.
Qed.

Lemma NoDup_keys_functional {K V : Type} (l : list (K * V)) (k : K) (v v' : V) :
  NoDup (map fst l) -> In (k, v) l -> In (k, v') l -> v = v'.
Proof.
  induction l as [ | [k0 v0] l IH]; simpl; intros Hnd H1 H2; [contradiction | ].
  inversion Hnd as [ | ? ? Hnotin Hnd']; subst.
  destruct H1 as [H1 | H1], H2 as [H2 | H2].
  - congruence.
  - injection H1 as -> ->. exfalso. apply Hnotin.
    apply in_map_iff. exists (k, v'). auto.
  - injection H2 as -> ->. exfalso. apply Hnotin.
    apply in_map_iff. exists (k, v). auto.
  - now apply IH.
Qed.

Lemma F_Score_by_customer_Permutation
      (df1 df2 : list Transaction) (rfm1 rfm2 : list RfmRecord) :
  Permutation df1 df2 ->
  perform_rfm_analysis df1 = Ok rfm1 ->
  perform_rfm_analysis df2 = Ok rfm2 ->
  F_Score_by_customer rfm1 = F_Score_by_customer rfm2.
Proof.
  intros Hp H1 H2.
  apply perform_rfm_analysis_columns in H1, H2.
  destruct H1 as [Hm1 [_ [HF1 _]]], H2 as [Hm2 [_ [HF2 _]]].
  destruct (rfm_agg_Permutation df1 df2 Hp) as [Hc _].
  rewrite (frequency_scores_Permutation df1 df2 Hp), HF2 in HF1.
  injection HF1 as HF1. apply map_Some_inj in HF1.
  unfold F_Score_by_customer.
  apply (map_pair_eq (fun row => rfm_CustomerID (metrics row)) F_Score).
  - rewrite <- Hm1, <- Hm2, !map_map in Hc. exact Hc.
  - now symmetry.
Qed.

Lemma F_Score_by_customer_NoDup
      (df : list Transaction) (rfm : list RfmRecord) :
  perform_rfm_analysis df = Ok rfm ->
  NoDup (map fst (F_Score_by_customer rfm)).
Proof.
  intros H. apply perform_rfm_analysis_metrics in H.
  unfold F_Score_by_customer. rewrite map_map. simpl.
  rewrite <- (map_map metrics rfm_CustomerID), H, rfm_agg_CustomerID.
  apply group_keys_NoDup.
Qed.

Lemma F_Score_row_order_irrelevant
      (df1 df2 : list Transaction) (rfm1 rfm2 : list RfmRecord)
      (row1 row2 : RfmRecord) :
  Permutation df1 df2 ->
  perform_rfm_analysis df1 = Ok rfm1 ->
  perform_rfm_analysis df2 = Ok rfm2 ->
  In row1 rfm1 -> In row2 rfm2 ->
  rfm_CustomerID (metrics row1) = rfm_CustomerID (metrics row2) ->
  F_Score row1 = F_Score row2.
Proof.
  intros Hp H1 H2 Hr1 Hr2 Hc.
  pose proof (F_Score_by_customer_Permutation _ _ _ _ Hp H1 H2) as E.
  apply (NoDup_keys_functional (F_Score_by_customer rfm2)
                               (rfm_CustomerID (metrics row2))).
  - apply (F_Score_by_customer_NoDup df2 rfm2 H2).
  - rewrite <- E, <- Hc. unfold F_Score_by_customer.
    apply in_map_iff. exists row1. auto.
  - unfold F_Score_by_customer. apply in_map_iff. exists row2. auto.
Qed.

(** C9, as stated, does not hold: there are no two runs on the same
    transactions in different row orders that give one customer two
    different F_Scores. *)
Lemma row_order_never_changes_F_Score :
  ~ (exists (df1 df2 : list Transaction) (rfm1 rfm2 : list RfmRecord)
            (row1 row2 : RfmRecord),
        Permutation df1 df2
        /\ perform_rfm_analysis df1 = Ok rfm1
        /\ perform_rfm_analysis df2 = Ok rfm2
        /\ In row1 rfm1 /\ In row2 rfm2
        /\ rfm_CustomerID (metrics row1) = rfm_CustomerID (metrics row2)
        /\ F_Score row1 <> F_Score row2).
Proof.
  intros [df1 [df2 [rfm1 [rfm2 [row1 [row2 H]]]]]].
  destruct H as [Hp [H1 [H2 [Hr1 [Hr2 [Hc Hne]]]]]].
  apply Hne.
  exact (F_Score_row_order_irrelevant df1 df2 rfm1 rfm2 row1 row2
                                      Hp H1 H2 Hr1 Hr2 Hc).
Qed.

(** C9, amended.  The F_Score is not a function of the Frequency value
    alone: customers with the same Frequency can get different F_Scores,
    because ties are broken by the position of the customer in the RFM
    table.  That position is fixed by the customer id (the group keys are
    sorted), not by the order of the input rows: the same transactions in
    any other row order give the same customers, in the same order, with
    the same Frequency values and the same F_Scores. *)
Theorem F_Score_ties_follow_customer_order :
  (exists row1 row2,
      perform_rfm_analysis tied_cleaned = Ok tied_table
      /\ In row1 tied_table /\ In row2 tied_table
      /\ Recency (metrics row1) = Recency (metrics row2)
      /\ Frequency (metrics row1) = Frequency (metrics row2)
      /\ Monetary (metrics row1) = Monetary (metrics row2)
      /\ rfm_CustomerID (metrics row1) < rfm_CustomerID (metrics row2)
      /\ F_Score row1 < F_Score row2
      /\ RFM_Total_Score row1 < RFM_Total_Score row2
      /\ Segment row1 <> Segment row2)
  /\ (forall df1 df2 : list Transaction,
         Permutation df1 df2 ->
         map rfm_CustomerID (rfm_agg df1) = map rfm_CustomerID (rfm_agg df2)
         /\ map Frequency (rfm_agg df1) = map Frequency (rfm_agg df2)
         /\ frequency_scores (rfm_agg df1) = frequency_scores (rfm_agg df2)
         /\ (forall rfm1 rfm2,
                perform_rfm_analysis df1 = Ok rfm1 ->
                perform_rfm_analysis df2 = Ok rfm2 ->
                F_Score_by_customer rfm1 = F_Score_by_customer rfm2)).
Proof.
  split.
  - exists (nth 2 tied_table sample_row), (nth 3 tied_table sample_row).
    split; [vm_compute; reflexivity | ].
    split; [do 2 right; left; reflexivity | ].
    split; [do 3 right; left; reflexivity | ].
    repeat (split; [reflexivity | ]).
    vm_compute. discriminate.
  - intros df1 df2 Hp.
    destruct (rfm_agg_Permutation df1 df2 Hp) as [Hc [_ Hf]].
    split; [exact Hc | ]. split; [exact Hf | ].
    split; [now apply frequency_scores_Permutation | ].
    intros rfm1 rfm2. now apply F_Score_by_customer_Permutation.
Qed.

Lemma F_Score_ties_follow_customer_order_witness :
  Permutation sample_cleaned (rev sample_cleaned)
  /\ perform_rfm_analysis sample_cleaned = Ok sample_table
  /\ perform_rfm_analysis (rev sample_cleaned) = Ok sample_table
  /\ frequency_scores (rfm_agg sample_cleaned)
     = frequency_scores (rfm_agg (rev sample_cleaned)).
Proof.
  assert (Hp : Permutation sample_cleaned (rev sample_cleaned))
    by apply Permutation_rev.
  split; [exact Hp | ].
  split; [vm_compute; reflexivity | ].
  split; [vm_compute; reflexivity | ].
  apply (proj2 F_Score_ties_follow_customer_order
               sample_cleaned (rev sample_cleaned) Hp).
Defined.

(** ** Quintile cuts *)

Lemma Qle_bool_total (a b : Q) : Qle_bool a b = false -> Qle_bool b a = true.
Proof.
  intros H. apply Qle_bool_iff. apply Qlt_le_weak, Qnot_le_lt.
  intros Hle. apply Qle_bool_iff in Hle. congruence.
Qed.

Lemma Qle_bool_trans (a b c : Q) :
  Qle_bool a b = true -> Qle_bool b c = true -> Qle_bool a c = true.
Proof. rewrite !Qle_bool_iff. apply Qle_trans. Qed.

Lemma linspace01_5 :
  pd.linspace01 5 = [0 # 5; 1 # 5; 2 # 5; 3 # 5; 4 # 5; 5 # 5]%Q.
Proof. reflexivity. Qed.

(** The lowest edge is the minimum of the column, the highest edge its
    maximum. *)
Lemma quantile_0 (v : list Q) :
  (pd.quantile v (0 # 5) == nth 0 v 0)%Q.
Proof.
  unfold pd.quantile.
  set (n := Z.of_nat (length v)).
  assert (Hh : (inject_Z (n - 1) * (0 # 5) == 0)%Q)
    by (unfold Qeq; simpl; lia).
  assert (Hlo : Qfloor (inject_Z (n - 1) * (0 # 5)) = 0).
  { unfold Qfloor, Qmult, inject_Z. simpl.
    rewrite Z.mul_0_r. reflexivity. }
  rewrite Hlo. simpl (Z.to_nat 0). rewrite Hh.
  unfold inject_Z. ring.
Qed.

Lemma quantile_1 (v : list Q) :
  v <> [] ->
  (pd.quantile v (5 # 5) == nth (length v - 1) v 0)%Q.
Proof.
  intros Hne. unfold pd.quantile.
  set (n := Z.of_nat (length v)).
  assert (Hn : 1 <= n)
    by (subst n; destruct v; [congruence | simpl length; lia]).
  assert (Hlo : Qfloor (inject_Z (n - 1) * (5 # 5)) = n - 1).
  { unfold Qfloor, Qmult, inject_Z. simpl.
    apply Z.div_mul. lia. }
  rewrite Hlo.
  replace (Z.min (n - 1 + 1) (n - 1)) with (n - 1) by lia.
  replace (Z.to_nat (n - 1)) with (length v - 1)%nat by lia.
  ring.
Qed.

Lemma StronglySorted_nth_le (v : list Q) (i j : nat) :
  StronglySorted (fun a b => Qle_bool a b = true) v ->
  (i <= j < length v)%nat ->
  (nth i v 0 <= nth j v 0)%Q.
Proof.
  intros Hs. revert i j. induction Hs as [ | a v Hs IH Ha]; intros i j Hij.
  - simpl in Hij. lia.
  - destruct i as [ | i], j as [ | j]; simpl in *; try lia.
    + apply Qle_refl.
    + rewrite Forall_forall in Ha. apply Qle_bool_iff, Ha, nth_In. lia.
    + apply IH. lia.
Qed.

Lemma sorted_column_bounds (x : list Q) (xi : Q) :
  In xi x ->
  let v := pd.sort_values Qle_bool x in
  (nth 0 v 0 <= xi)%Q /\ (xi <= nth (length v - 1) v 0)%Q.
Proof.
  intros Hin v.
  assert (Hs : StronglySorted (fun a b => Qle_bool a b = true) v)
    by apply (sort_values_StronglySorted Qle_bool Qle_bool_total Qle_bool_trans).
  assert (Hv : In xi v).
  { apply (Permutation_in _ (Permutation_sym
                               (sort_values_Permutation Qle_bool x))).
    exact Hin. }
  destruct (In_nth v xi 0%Q Hv) as [i [Hi <-]].
  split; apply StronglySorted_nth_le; try assumption; lia.
Qed.

(** A value between the lowest and the highest of six edges falls in one
    of the five bins. *)
Lemma bin_id_in_range (b0 b1 b2 b3 b4 b5 xi : Q) :
  (b0 <= xi)%Q -> (xi <= b5)%Q ->
  exists i, pd.bin_id [b0; b1; b2; b3; b4; b5] xi = Some i
            /\ (1 <= i <= 5)%nat.
Proof.
  intros Hlo Hhi. unfold pd.bin_id.
  destruct (Qeq_bool xi b0) eqn:E0.
  - exists 1%nat. simpl. split; [reflexivity | lia].
  - assert (H0 : pd.Qlt_bool b0 xi = true).
    { apply Qlt_bool_iff. apply Qle_lteq in Hlo. destruct Hlo as [Hlt | Heq];
        [exact Hlt | ].
      assert (Qeq_bool xi b0 = true)
        by (apply Qeq_bool_iff; now symmetry).
      congruence. }
    assert (H5 : pd.Qlt_bool b5 xi = false)
      by now apply Qlt_bool_false_iff.
    simpl. rewrite H0, H5.
    destruct (pd.Qlt_bool b1 xi); [ | exists 1%nat; simpl; split; [reflexivity | lia]].
    destruct (pd.Qlt_bool b2 xi); [ | exists 2%nat; simpl; split; [reflexivity | lia]].
    destruct (pd.Qlt_bool b3 xi); [ | exists 3%nat; simpl; split; [reflexivity | lia]].
    destruct (pd.Qlt_bool b4 xi); [ | exists 4%nat; simpl; split; [reflexivity | lia]].
    exists 5%nat. simpl. split; [reflexivity | lia].
Qed.

Lemma qcut_bins_5 (x : list Q) :
  let v := pd.sort_values Qle_bool x in
  pd.qcut_bins x 5
  = [ pd.quantile v (0 # 5); pd.quantile v (1 # 5); pd.quantile v (2 # 5);
      pd.quantile v (3 # 5); pd.quantile v (4 # 5); pd.quantile v (5 # 5) ].
Proof. reflexivity. Qed.

Lemma all_Some {A : Type} (P : A -> Prop) (l : list (option A)) :
  Forall (fun o => exists a, o = Some a /\ P a) l ->
  exists l', l = map Some l' /\ Forall P l'.
Proof.
  induction 1 as [ | o l [a [-> Ha]] _ [l' [-> Hl']]].
  - exists []. split; [reflexivity | constructor].
  - exists (a :: l'). split; [reflexivity | now constructor].
Qed.

Lemma take_label_in_range (labels : list Z) (i : nat) :
  (1 <= i <= length labels)%nat ->
  exists s, pd.take_label labels (Some i) = Some s /\ In s labels.
Proof.
  intros Hi. simpl.
  destruct (nth_error labels (i - 1)) as [s | ] eqn:E.
  - exists s. split; [reflexivity | now apply nth_error_In in E].
  - apply nth_error_None in E. lia.
Qed.

(** The labels a successful cut hands out: each value of a non-empty
    column lies between the outer edges, so it gets one of the five
    labels and never NaN. *)
Lemma qcut_labels_every_value (x : list Q) (labels : list Z) :
  length labels = 5%nat ->
  exists scores,
    map (fun xi => pd.take_label labels (pd.bin_id (pd.qcut_bins x 5) xi)) x
    = map Some scores
    /\ length scores = length x
    /\ Forall (fun s => In s labels) scores.
Proof.
  intros Hl.
  assert (Hall : Forall (fun o => exists s, o = Some s /\ In s labels)
                        (map (fun xi => pd.take_label labels
                                          (pd.bin_id (pd.qcut_bins x 5) xi))
                             x)).
  { apply Forall_forall. intros o Ho. apply in_map_iff in Ho.
    destruct Ho as [xi [<- Hxi]].
    assert (Hne : pd.sort_values Qle_bool x <> []).
    { intros E. apply (f_equal (@length _)) in E.
      rewrite sort_values_length in E. destruct x; [contradiction | discriminate]. }
    destruct (sorted_column_bounds x xi Hxi) as [Hlo Hhi].
    rewrite <- quantile_0 in Hlo. rewrite <- (quantile_1 _ Hne) in Hhi.
    rewrite qcut_bins_5.
    set (v := pd.sort_values Qle_bool x) in *.
    destruct (bin_id_in_range _ (pd.quantile v (1 # 5)) (pd.quantile v (2 # 5))
                              (pd.quantile v (3 # 5)) (pd.quantile v (4 # 5))
                              _ xi Hlo Hhi) as [i [-> Hi]].
    apply take_label_in_range. lia. }
  apply all_Some in Hall. destruct Hall as [scores [E Hs]].
  exists scores. split; [exact E | ]. split; [ | exact Hs].
  apply (f_equal (@length _)) in E. now rewrite !length_map in E.
Qed.

(** Either the edges collide and [qcut] raises, or there are six distinct
    edges, hence five bins, and every value of the column gets the label
    of one of them. *)
Lemma qcut_5_raises_or_labels (x : list Q) (labels : list Z) :
  length labels = 5%nat ->
  pd.qcut x 5 labels = Raise (ValueError pd.bin_edges_msg)
  \/ (exists scores,
         pd.qcut x 5 labels = Ok (map Some scores)
         /\ length scores = length x
         /\ Forall (fun s => In s labels) scores
         /\ length (pd.qcut_bins x 5) = 6%nat
         /\ ForallOrdPairs (fun a b => ~ (a == b)%Q) (pd.qcut_bins x 5)).
Proof.
  intros Hl. unfold pd.qcut.
  destruct x as [ | x0 x]; [now left | ].
  set (col := x0 :: x).
  assert (Hlen : length (pd.qcut_bins col 5) = 6%nat) by reflexivity.
  rewrite Hlen, Hl. simpl (negb _). rewrite andb_true_r. simpl (if false then _ else _).
  destruct (Nat.ltb_spec (length (pd.unique Qeq_bool (pd.qcut_bins col 5))) 6)
    as [Hlt | Hge]; [now left | right].
  destruct (qcut_labels_every_value col labels Hl) as [scores [E [H1 H2]]].
  exists scores. rewrite E.
  split; [reflexivity | ]. split; [exact H1 | ]. split; [exact H2 | ].
  split; [exact Hlen | ].
  assert (Hfull : length (pd.unique_from Qeq_bool [] (pd.qcut_bins col 5))
                  = length (pd.qcut_bins col 5)).
  { pose proof (unique_from_length_le Qeq_bool [] (pd.qcut_bins col 5)).
    unfold pd.unique in Hge. lia. }
  apply unique_from_full in Hfull. destruct Hfull as [Hpairs _].
  clear -Hpairs. induction Hpairs as [ | a l Ha Hp IH]; constructor.
  - eapply Forall_impl; [ | exact Ha].
    intros b Hb Heq. apply Qeq_sym in Heq.
    apply Qeq_bool_iff in Heq. congruence.
  - exact IH.
Qed.

(** ** Ordinal ranks *)

Lemma count_eq_cons (z x : Z) (l : list Z) :
  pd.count_eq z (x :: l) = (if x =? z then 1 else 0) + pd.count_eq z l.
Proof.
  unfold pd.count_eq. simpl. destruct (x =? z); simpl length; lia.
Qed.

Lemma count_lt_cons (z x : Z) (l : list Z) :
  pd.count_lt z (x :: l) = (if x <? z then 1 else 0) + pd.count_lt z l.
Proof.
  unfold pd.count_lt. simpl. destruct (x <? z); simpl length; lia.
Qed.

Lemma count_eq_nonneg (z : Z) (l : list Z) : 0 <= pd.count_eq z l.
Proof. unfold pd.count_eq. lia. Qed.

Lemma count_lt_nonneg (z : Z) (l : list Z) : 0 <= pd.count_lt z l.
Proof. unfold pd.count_lt. lia. Qed.

Lemma count_lt_eq_length (z : Z) (l : list Z) :
  pd.count_lt z l + pd.count_eq z l <= Z.of_nat (length l).
Proof.
  induction l as [ | x l IH]; [unfold pd.count_lt, pd.count_eq; simpl; lia | ].
  rewrite count_lt_cons, count_eq_cons. simpl length.
  destruct (Z.ltb_spec x z), (Z.eqb_spec x z); lia.
Qed.

(** The values below [y] include those below [x] and those equal to [x],
    when [x < y]. *)
Lemma count_lt_step (x y : Z) (l : list Z) :
  x < y -> pd.count_lt x l + pd.count_eq x l <= pd.count_lt y l.
Proof.
  intros Hxy. induction l as [ | a l IH];
    [unfold pd.count_lt, pd.count_eq; simpl; lia | ].
  rewrite !count_lt_cons, count_eq_cons.
  destruct (Z.ltb_spec a x), (Z.eqb_spec a x), (Z.ltb_spec a y); lia.
Qed.

(** Each rank is one plus the number of smaller values plus an offset
    among the equal ones, which grows along the column. *)
Lemma rank_first_from_shape (seen l all : list Z) :
  (forall z, pd.count_eq z seen + pd.count_eq z l <= pd.count_eq z all) ->
  Forall (fun r => exists y e,
              r = 1 + pd.count_lt y all + e
              /\ pd.count_eq y seen <= e < pd.count_eq y all)
         (pd.rank_first_from seen l all).
Proof.
  revert seen. induction l as [ | x l IH]; intros seen Hincl;
    cbn [pd.rank_first_from]; [constructor | ].
  constructor.
  - exists x, (pd.count_eq x seen). split; [reflexivity | ].
    specialize (Hincl x). rewrite count_eq_cons, Z.eqb_refl in Hincl.
    pose proof (count_eq_nonneg x l). lia.
  - assert (Hincl' : forall z, pd.count_eq z (x :: seen) + pd.count_eq z l
                               <= pd.count_eq z all).
    { intros z. specialize (Hincl z). rewrite count_eq_cons in *. lia. }
    eapply Forall_impl; [ | apply (IH (x :: seen) Hincl')].
    intros r [y [e [Hr He]]]. exists y, e. split; [exact Hr | ].
    rewrite count_eq_cons in He.
    destruct (x =? y); lia.
Qed.

Lemma rank_first_from_NoDup (seen l all : list Z) :
  (forall z, pd.count_eq z seen + pd.count_eq z l <= pd.count_eq z all) ->
  NoDup (pd.rank_first_from seen l all).
Proof.
  revert seen. induction l as [ | x l IH]; intros seen Hincl;
    cbn [pd.rank_first_from]; [constructor | ].
  assert (Hincl' : forall z, pd.count_eq z (x :: seen) + pd.count_eq z l
                             <= pd.count_eq z all).
  { intros z. specialize (Hincl z). rewrite count_eq_cons in *. lia. }
  constructor; [ | now apply IH].
  intros Hin.
  pose proof (rank_first_from_shape (x :: seen) l all Hincl') as Hshape.
  rewrite Forall_forall in Hshape.
  destruct (Hshape _ Hin) as [y [e [Hr He]]].
  rewrite count_eq_cons in He.
  specialize (Hincl x). rewrite count_eq_cons, Z.eqb_refl in Hincl.
  pose proof (count_eq_nonneg x l).
  pose proof (count_eq_nonneg x seen).
  pose proof (count_eq_nonneg y seen).
  destruct (Z.lt_trichotomy x y) as [Hlt | [Heq | Hgt]].
  - pose proof (count_lt_step x y all Hlt).
    destruct (x =? y); lia.
  - subst y. rewrite Z.eqb_refl in He. lia.
  - pose proof (count_lt_step y x all Hgt).
    destruct (x =? y); lia.
Qed.

Lemma ordinals_In (n : nat) (r : Z) :
  In r (ordinals n) <-> 1 <= r <= Z.of_nat n.
Proof.
  unfold ordinals. rewrite in_map_iff. split.
  - intros [k [<- Hk]]. apply in_seq in Hk. lia.
  - intros Hr. exists (Z.to_nat r). split; [lia | ]. apply in_seq. lia.
Qed.

Lemma ordinals_NoDup (n : nat) : NoDup (ordinals n).
Proof.
  unfold ordinals. apply Finite.Injective_map_NoDup; [ | apply seq_NoDup].
  intros a b. lia.
Qed.

Lemma ordinals_length (n : nat) : length (ordinals n) = n.
Proof. unfold ordinals. now rewrite length_map, length_seq. Qed.

(** [rank(method='first')] numbers the rows 1..n, whatever the ties. *)
Lemma rank_first_Permutation (l : list Z) :
  Permutation (pd.rank_first l) (ordinals (length l)).
Proof.
  assert (Hincl : forall z, pd.count_eq z [] + pd.count_eq z l
                            <= pd.count_eq z l)
    by (intros z; unfold pd.count_eq at 1; simpl; lia).
  assert (Hnd : NoDup (pd.rank_first l))
    by now apply rank_first_from_NoDup.
  assert (Hrange : incl (pd.rank_first l) (ordinals (length l))).
  { intros r Hr.
    pose proof (rank_first_from_shape [] l l Hincl) as Hshape.
    rewrite Forall_forall in Hshape.
    destruct (Hshape r Hr) as [y [e [-> He]]].
    apply ordinals_In.
    pose proof (count_lt_eq_length y l).
    pose proof (count_lt_nonneg y l).
    unfold pd.count_eq at 1 in He. simpl in He. lia. }
  apply NoDup_Permutation; [exact Hnd | apply ordinals_NoDup | ].
  intros r. split; [apply Hrange | ].
  apply NoDup_length_incl; [exact Hnd | | exact Hrange].
  rewrite ordinals_length, rank_first_length. lia.
Qed.

Lemma insert_sorted_map {A B : Type} (f : A -> B)
      (lebA : A -> A -> bool) (lebB : B -> B -> bool) (x : A) (l : list A) :
  (forall a b, lebB (f a) (f b) = lebA a b) ->
  pd.insert_sorted lebB (f x) (map f l) = map f (pd.insert_sorted lebA x l).
Proof.
  intros Hf. induction l as [ | y l IH]; simpl; [reflexivity | ].
  rewrite Hf. destruct (lebA x y); simpl; [reflexivity | now rewrite IH].
Qed.

Lemma sort_values_map {A B : Type} (f : A -> B)
      (lebA : A -> A -> bool) (lebB : B -> B -> bool) (l : list A) :
  (forall a b, lebB (f a) (f b) = lebA a b) ->
  pd.sort_values lebB (map f l) = map f (pd.sort_values lebA l).
Proof.
  intros Hf. induction l as [ | x l IH]; simpl; [reflexivity | ].
  rewrite IH. now apply insert_sorted_map.
Qed.

Lemma Qle_bool_inject_Z (a b : Z) :
  Qle_bool (inject_Z a) (inject_Z b) = (a <=? b).
Proof. unfold Qle_bool, inject_Z. simpl. now rewrite !Z.mul_1_r. Qed.

Lemma ordinals_from_StronglySorted (s n : nat) :
  StronglySorted (fun a b => (a <=? b) = true) (map Z.of_nat (seq s n)).
Proof.
  revert s. induction n as [ | n IH]; intros s; simpl; constructor.
  - apply IH.
  - apply Forall_forall. intros z Hz. apply in_map_iff in Hz.
    destruct Hz as [k [<- Hk]]. apply in_seq in Hk. apply Z.leb_le. lia.
Qed.

(** The sorted rank column is 1, 2, ..., n. *)
Lemma sorted_ranks (l : list Z) :
  pd.sort_values Qle_bool (map inject_Z (pd.rank_first l))
  = map inject_Z (ordinals (length l)).
Proof.
  rewrite (sort_values_map inject_Z Z.leb Qle_bool _ Qle_bool_inject_Z).
  f_equal.
  apply (StronglySorted_Permutation_eq Z.leb Zleb_antisym).
  - apply (sort_values_StronglySorted Z.leb Zleb_total Zleb_trans).
  - apply ordinals_from_StronglySorted.
  - rewrite sort_values_Permutation. apply rank_first_Permutation.
Qed.

Lemma nth_ordinals (n i : nat) :
  (i < n)%nat ->
  nth i (map inject_Z (ordinals n)) 0%Q = inject_Z (Z.of_nat i + 1).
Proof.
  intros Hi. unfold ordinals.
  rewrite map_map.
  rewrite (nth_indep _ 0%Q (inject_Z (Z.of_nat 0))) by
      (rewrite length_map, length_seq; exact Hi).
  rewrite (map_nth (fun k => inject_Z (Z.of_nat k)) (seq 1 n) 0%nat i).
  rewrite seq_nth by exact Hi. f_equal. lia.
Qed.

(** On the column 1..n the edge at [k/5] is [1 + (n - 1) * k / 5]. *)
Lemma quantile_ordinals (n : nat) (k : Z) :
  (1 <= n)%nat -> 0 <= k <= 5 ->
  (pd.quantile (map inject_Z (ordinals n)) (k # 5)
   == 1 + inject_Z (Z.of_nat n - 1) * (k # 5))%Q.
Proof.
  intros Hn Hk. unfold pd.quantile.
  rewrite length_map, ordinals_length.
  set (m := Z.of_nat n - 1).
  assert (Hm : 0 <= m) by lia.
  assert (Hlo : Qfloor (inject_Z m * (k # 5)) = m * k / 5) by reflexivity.
  rewrite Hlo.
  set (lo := m * k / 5).
  assert (Hlo0 : 0 <= lo) by (apply Z.div_pos; nia).
  assert (Hlom : lo <= m).
  { apply Z.div_le_upper_bound; nia. }
  rewrite (nth_ordinals n (Z.to_nat lo)) by lia.
  rewrite (nth_ordinals n (Z.to_nat (Z.min (lo + 1) m))) by lia.
  rewrite !Z2Nat.id by lia.
  destruct (Z.eq_dec lo m) as [Heq | Hne].
  - replace (Z.min (lo + 1) m) with lo by lia.
    assert (Hh : (inject_Z m * (k # 5) == inject_Z lo)%Q).
    { unfold Qeq, inject_Z. simpl.
      assert (5 * (m * k / 5) <= m * k) by (apply Z.mul_div_le; lia).
      fold lo in H. nia. }
    rewrite Hh, inject_Z_plus. change (inject_Z 1) with 1%Q. ring.
  - replace (Z.min (lo + 1) m) with (lo + 1) by lia.
    rewrite !inject_Z_plus. change (inject_Z 1) with 1%Q. ring.
Qed.

(** ** The Frequency cut *)

Ltac Q_to_Z :=
  unfold Qlt, Qle, Qeq, Qplus, Qmult, inject_Z in *;
  cbn [Qnum Qden] in *.


Section FrequencyCut.

Variable l : list Z.

Let n : nat := length l.
Let v : list Q := map inject_Z (ordinals n).
Let m : Z := Z.of_nat n - 1.

Lemma frequency_bins :
  pd.qcut_bins (map inject_Z (pd.rank_first l)) 5
  = [ pd.quantile v (0 # 5); pd.quantile v (1 # 5); pd.quantile v (2 # 5);
      pd.quantile v (3 # 5); pd.quantile v (4 # 5); pd.quantile v (5 # 5) ].
Proof. rewrite qcut_bins_5, sorted_ranks. reflexivity. Qed.

Hypothesis two_customers : (2 <= n)%nat.

Lemma edge_below_rank (k r : Z) :
  0 <= k <= 5 ->
  pd.Qlt_bool (pd.quantile v (k # 5)) (inject_Z r) = (m * k <? 5 * (r - 1)).
Proof.
  intros Hk. apply eq_true_iff_eq.
  rewrite Qlt_bool_iff, Z.ltb_lt.
  unfold v. rewrite (quantile_ordinals n k) by lia.
  fold m. Q_to_Z. lia.
Qed.

Lemma edge_equals_rank_0 (r : Z) :
  Qeq_bool (inject_Z r) (pd.quantile v (0 # 5)) = (r =? 1).
Proof.
  apply eq_true_iff_eq.
  rewrite Qeq_bool_iff, Z.eqb_eq.
  unfold v. rewrite (quantile_ordinals n 0) by lia.
  Q_to_Z. lia.
Qed.

Lemma edges_differ (k k' : Z) :
  0 <= k <= 5 -> 0 <= k' <= 5 -> k <> k' ->
  Qeq_bool (pd.quantile v (k # 5)) (pd.quantile v (k' # 5)) = false.
Proof.
  intros Hk Hk' Hne.
  destruct (Qeq_bool _ _) eqn:E; [ | reflexivity].
  apply Qeq_bool_iff in E. unfold v in E.
  rewrite (quantile_ordinals n k), (quantile_ordinals n k') in E by lia.
  fold m in E. Q_to_Z.
  assert (1 <= m) by (unfold m; lia). nia.
Qed.

Lemma frequency_bins_unique :
  pd.unique Qeq_bool (pd.qcut_bins (map inject_Z (pd.rank_first l)) 5)
  = pd.qcut_bins (map inject_Z (pd.rank_first l)) 5.
Proof.
  rewrite frequency_bins. apply unique_from_id.
  - repeat (constructor;
            [repeat (constructor; [apply edges_differ; lia | ]);
             constructor | ]).
    constructor.
  - repeat (constructor; [constructor | ]). constructor.
Qed.

(** With two customers or more the Frequency cut cannot fail. *)
Lemma frequency_cut_Ok :
  pd.qcut (map inject_Z (pd.rank_first l)) 5 FM_labels
  = Ok (map (fun xi =>
               pd.take_label FM_labels
                 (pd.bin_id
                    (pd.qcut_bins (map inject_Z (pd.rank_first l)) 5) xi))
            (map inject_Z (pd.rank_first l))).
Proof.
  unfold pd.qcut.
  destruct (map inject_Z (pd.rank_first l)) as [ | x0 x] eqn:E.
  - apply (f_equal (@length _)) in E.
    rewrite length_map, rank_first_length in E. simpl in E.
    fold n in E. lia.
  - rewrite <- E. rewrite frequency_bins_unique.
    rewrite Nat.ltb_irrefl. reflexivity.
Qed.

(** The bin of rank [r]: bin 1 holds the ranks up to the first inner
    edge, bin [j] those between edge [j - 1] and edge [j]. *)
Lemma frequency_bin_id (r : Z) :
  pd.bin_id (pd.qcut_bins (map inject_Z (pd.rank_first l)) 5) (inject_Z r)
  = let ids :=
      if m * 0 <? 5 * (r - 1) then
        S (if m * 1 <? 5 * (r - 1) then
             S (if m * 2 <? 5 * (r - 1) then
                  S (if m * 3 <? 5 * (r - 1) then
                       S (if m * 4 <? 5 * (r - 1) then
                            S (if m * 5 <? 5 * (r - 1) then 1 else 0)
                          else 0)
                     else 0)
                else 0)
           else 0)
      else 0%nat in
    let ids := if r =? 1 then 1%nat else ids in
    if (ids =? 6)%nat || (ids =? 0)%nat then None else Some ids.
Proof.
  rewrite frequency_bins. unfold pd.bin_id.
  rewrite edge_equals_rank_0. cbn [pd.searchsorted_left length].
  rewrite !edge_below_rank by lia. reflexivity.
Qed.

End FrequencyCut.

Ltac decide_edge_tests :=
  repeat match goal with
         | |- context [?a <? ?b] => destruct (Z.ltb_spec a b); try lia
         | |- context [?a =? 1] => destruct (Z.eqb_spec a 1); try lia
         end.

(** With five customers or more, each of the five Frequency bins
    receives a rank, however many customers share a Frequency value. *)
Lemma frequency_cut_fills_every_bin (l : list Z) (label : Z) :
  (5 <= length l)%nat ->
  In label FM_labels ->
  In (Some label)
     (map (fun xi =>
             pd.take_label FM_labels
               (pd.bin_id (pd.qcut_bins (map inject_Z (pd.rank_first l)) 5)
                          xi))
          (map inject_Z (pd.rank_first l))).
Proof.
  intros Hn Hlabel.
  set (m := Z.of_nat (length l) - 1).
  assert (Hm : 4 <= m) by (unfold m; lia).
  assert (Hrank : forall r, 1 <= r <= m + 1 ->
                            In (inject_Z r) (map inject_Z (pd.rank_first l))).
  { intros r Hr. apply in_map.
    apply (Permutation_in _ (Permutation_sym (rank_first_Permutation l))).
    apply ordinals_In. unfold m in Hr. lia. }
  assert (Hpick : exists r, 1 <= r <= m + 1
                            /\ pd.take_label FM_labels
                                 (pd.bin_id
                                    (pd.qcut_bins
                                       (map inject_Z (pd.rank_first l)) 5)
                                    (inject_Z r))
                               = Some label).
  { unfold FM_labels in Hlabel. simpl in Hlabel.
    destruct Hlabel as [<- | [<- | [<- | [<- | [<- | []]]]]].
    - exists 1. split; [lia | ].
      rewrite frequency_bin_id by lia. fold m. cbv zeta.
      decide_edge_tests; reflexivity.
    - pose proof (Z.mul_div_le (m * 2) 5 eq_refl).
      pose proof (Z.mul_succ_div_gt (m * 2) 5 eq_refl).
      exists (1 + m * 2 / 5). split; [lia | ].
      rewrite frequency_bin_id by lia. fold m. cbv zeta.
      decide_edge_tests; reflexivity.
    - pose proof (Z.mul_div_le (m * 3) 5 eq_refl).
      pose proof (Z.mul_succ_div_gt (m * 3) 5 eq_refl).
      exists (1 + m * 3 / 5). split; [lia | ].
      rewrite frequency_bin_id by lia. fold m. cbv zeta.
      decide_edge_tests; reflexivity.
    - pose proof (Z.mul_div_le (m * 4) 5 eq_refl).
      pose proof (Z.mul_succ_div_gt (m * 4) 5 eq_refl).
      exists (1 + m * 4 / 5). split; [lia | ].
      rewrite frequency_bin_id by lia. fold m. cbv zeta.
      decide_edge_tests; reflexivity.
    - exists (1 + m). split; [lia | ].
      rewrite frequency_bin_id by lia. fold m. cbv zeta.
      decide_edge_tests; reflexivity. }
  destruct Hpick as [r [Hr Hlab]].
  apply in_map_iff. exists (inject_Z r). split; [exact Hlab | now apply Hrank].
Qed.

(** ** Bin search *)

Lemma filter_none {A : Type} (f : A -> bool) (l : list A) :
  Forall (fun a => f a = false) l -> filter f l = [].
Proof.
  induction 1 as [ | a l Ha _ IH]; simpl; [reflexivity | ].
  now rewrite Ha.
Qed.

(** On ascending edges the insertion point counts all the edges below
    [x], not only a prefix of them. *)
Lemma searchsorted_left_count (bins : list Q) (x : Q) :
  StronglySorted Qle bins ->
  pd.searchsorted_left bins x
  = length (filter (fun b => pd.Qlt_bool b x) bins).
Proof.
  induction 1 as [ | b bins Hs IH Hb]; simpl; [reflexivity | ].
  destruct (pd.Qlt_bool b x) eqn:E; simpl; [now rewrite IH | ].
  apply Qlt_bool_false_iff in E.
  rewrite filter_none; [reflexivity | ].
  eapply Forall_impl; [ | exact Hb].
  intros b' Hb'. apply Qlt_bool_false_iff.
  now apply Qle_trans with b.
Qed.

(** ** Ascending edges *)

Lemma interpolation_between (a b g : Q) :
  (a <= b)%Q -> (0 <= g)%Q -> (g <= 1)%Q ->
  (a <= a + (b - a) * g)%Q /\ (a + (b - a) * g <= b)%Q.
Proof.
  intros Hab Hg0 Hg1.
  assert (H1 : (0 <= (b - a) * g)%Q) by (apply Qmult_le_0_compat; lra).
  assert (H2 : (0 <= (b - a) * (1 - g))%Q) by (apply Qmult_le_0_compat; lra).
  split; lra.
Qed.

Lemma quantile_monotone (v : list Q) (p p' : Q) :
  StronglySorted (fun a b => Qle_bool a b = true) v ->
  v <> [] ->
  (0 <= p)%Q -> (p <= p')%Q -> (p' <= 1)%Q ->
  (pd.quantile v p <= pd.quantile v p')%Q.
Proof.
  intros Hs Hne Hp0 Hpp Hp1. unfold pd.quantile.
  set (n := Z.of_nat (length v)).
  assert (Hn : 1 <= n)
    by (subst n; destruct v; [congruence | simpl length; lia]).
  set (h := (inject_Z (n - 1) * p)%Q).
  set (h' := (inject_Z (n - 1) * p')%Q).
  assert (Hm : (0 <= inject_Z (n - 1))%Q)
    by (rewrite <- (Zle_Qle 0); lia).
  assert (Hh0 : (0 <= h)%Q) by (apply Qmult_le_0_compat; assumption).
  assert (Hhh : (h <= h')%Q).
  { unfold h, h'. rewrite !(Qmult_comm (inject_Z (n - 1))).
    apply Qmult_le_compat_r; assumption. }
  assert (Hh1 : (h' <= inject_Z (n - 1))%Q).
  { unfold h'. rewrite <- (Qmult_1_r (inject_Z (n - 1))) at 2.
    rewrite !(Qmult_comm (inject_Z (n - 1))).
    apply Qmult_le_compat_r; assumption. }
  set (lo := Qfloor h). set (lo' := Qfloor h').
  assert (Hlo0 : 0 <= lo).
  { change 0 with (Qfloor 0). apply Qfloor_resp_le. exact Hh0. }
  assert (Hlolo : lo <= lo') by (apply Qfloor_resp_le; exact Hhh).
  assert (Hlo1 : lo' <= n - 1).
  { rewrite <- (Qfloor_Z (n - 1)). apply Qfloor_resp_le. exact Hh1. }
  pose proof (Qfloor_le h) as Hfl. pose proof (Qlt_floor h) as Hfu.
  pose proof (Qfloor_le h') as Hfl'. pose proof (Qlt_floor h') as Hfu'.
  fold lo in Hfl, Hfu. fold lo' in Hfl', Hfu'.
  rewrite inject_Z_plus in Hfu, Hfu'.
  change (inject_Z 1) with 1%Q in Hfu, Hfu'.
  set (a := nth (Z.to_nat lo) v 0%Q).
  set (b := nth (Z.to_nat (Z.min (lo + 1) (n - 1))) v 0%Q).
  set (a' := nth (Z.to_nat lo') v 0%Q).
  set (b' := nth (Z.to_nat (Z.min (lo' + 1) (n - 1))) v 0%Q).
  assert (Hab : (a <= b)%Q) by (apply StronglySorted_nth_le; [assumption | lia]).
  assert (Hab' : (a' <= b')%Q) by (apply StronglySorted_nth_le; [assumption | lia]).
  destruct (interpolation_between a b (h - inject_Z lo) Hab) as [_ Hub]; try lra.
  destruct (interpolation_between a' b' (h' - inject_Z lo') Hab') as [Hlb' _]; try lra.
  destruct (Z.eq_dec lo lo') as [Heq | Hneq].
  - assert (Ea : a' = a) by (unfold a, a'; now rewrite Heq).
    assert (Eb : b' = b) by (unfold b, b'; now rewrite Heq).
    rewrite Ea, Eb, <- Heq.
    assert (H : (0 <= (b - a) * (h' - h))%Q) by (apply Qmult_le_0_compat; lra).
    lra.
  - assert (Hba' : (b <= a')%Q) by (apply StronglySorted_nth_le; [assumption | lia]).
    lra.
Qed.

Lemma quantiles_ascending (v : list Q) (ps : list Q) :
  StronglySorted (fun a b => Qle_bool a b = true) v ->
  v <> [] ->
  StronglySorted Qle ps ->
  Forall (fun p => (0 <= p)%Q /\ (p <= 1)%Q) ps ->
  StronglySorted Qle (map (pd.quantile v) ps).
Proof.
  intros Hs Hne Hps. induction Hps as [ | p ps Hps IH Hp]; intros Hr;
    simpl; constructor.
  - apply IH. now inversion Hr.
  - inversion Hr as [ | ? ? [Hp0 Hp1] Hr']; subst.
    apply Forall_forall. intros e He. apply in_map_iff in He.
    destruct He as [p' [<- Hp']].
    rewrite Forall_forall in Hp, Hr'.
    apply quantile_monotone; try assumption.
    + now apply Hp.
    + now apply Hr'.
Qed.

Lemma linspace01_5_ascending :
  StronglySorted Qle (pd.linspace01 5)
  /\ Forall (fun p => (0 <= p)%Q /\ (p <= 1)%Q) (pd.linspace01 5).
Proof.
  rewrite linspace01_5.
  split; repeat constructor; unfold Qle; simpl; lia.
Qed.

Lemma qcut_bins_ascending (x : list Q) :
  x <> [] -> StronglySorted Qle (pd.qcut_bins x 5).
Proof.
  intros Hne. unfold pd.qcut_bins.
  destruct linspace01_5_ascending as [H1 H2].
  apply quantiles_ascending; try assumption.
  - apply (sort_values_StronglySorted Qle_bool Qle_bool_total Qle_bool_trans).
  - intros E. apply (f_equal (@length _)) in E.
    rewrite sort_values_length in E. destruct x; [congruence | discriminate].
Qed.

Lemma distinct_ascending_strict (l : list Q) :
  ForallOrdPairs (fun a b => ~ (a == b)%Q) l ->
  StronglySorted Qle l -> StronglySorted Qlt l.
Proof.
  induction 1 as [ | a l Ha Hp IH]; intros Hs; constructor;
    inversion Hs as [ | ? ? Hs' Hle]; subst.
  - now apply IH.
  - rewrite Forall_forall in *. intros b Hb.
    destruct (proj1 (Qle_lteq a b) (Hle b Hb)) as [Hlt | Heq];
      [exact Hlt | ].
    exfalso. exact (Ha b Hb Heq).
Qed.

(** ** The outcome of a cut *)

Lemma perform_rfm_analysis_outcome (df : list Transaction) :
  (exists rfm, perform_rfm_analysis df = Ok rfm)
  \/ perform_rfm_analysis df = Raise (ValueError pd.bin_edges_msg).
Proof.
  unfold perform_rfm_analysis, recency_scores, frequency_scores,
    monetary_scores.
  destruct (qcut_5_raises_or_labels
              (map (fun x => inject_Z (Recency x)) (rfm_agg df))
              R_labels eq_refl) as [-> | [R [-> _]]]; [now right | ].
  destruct (qcut_5_raises_or_labels
              (map inject_Z (pd.rank_first (map Frequency (rfm_agg df))))
              FM_labels eq_refl) as [-> | [F [-> _]]]; [now right | ].
  destruct (qcut_5_raises_or_labels
              (map Monetary (rfm_agg df))
              FM_labels eq_refl) as [-> | [M [-> _]]]; [now right | ].
  left. cbn [bind]. rewrite !astype_int_column_Some. cbn [bind]. eauto.
Qed.

Lemma main_outcome (fs : FileSystem) (df : list RawRecord) :
  fs FILE_NAME = Some df ->
  exit (main fs) = Completed
  \/ main fs = {| written := [];
                  exit := Uncaught (ValueError pd.bin_edges_msg) |}.
Proof.
  intros Hfs. unfold main, clean_and_prepare_data. rewrite Hfs. simpl.
  destruct (perform_rfm_analysis_outcome (clean_frame df)) as [[rfm ->] | ->];
    [now left | now right].
Qed.

Lemma frequency_scores_single (rfm : list RfmMetrics) :
  (length rfm <= 1)%nat ->
  frequency_scores rfm = Raise (ValueError pd.bin_edges_msg).
Proof.
  intros Hn. unfold frequency_scores.
  destruct rfm as [ | x [ | y rfm]]; [reflexivity | | simpl in Hn; lia].
  unfold pd.rank_first. cbn [map pd.rank_first_from].
  rewrite count_lt_cons, Z.ltb_irrefl.
  reflexivity.
Qed.

Lemma frequency_scores_fill_every_bin (rfm : list RfmMetrics) :
  (5 <= length rfm)%nat ->
  exists scores,
    frequency_scores rfm = Ok (map Some scores)
    /\ length scores = length rfm
    /\ (forall label, In label FM_labels -> In label scores).
Proof.
  intros Hn. unfold frequency_scores.
  assert (Hl : (5 <= length (map Frequency rfm))%nat)
    by now rewrite length_map.
  rewrite (frequency_cut_Ok (map Frequency rfm)) by lia.
  destruct (qcut_labels_every_value
              (map inject_Z (pd.rank_first (map Frequency rfm)))
              FM_labels eq_refl) as [scores [E [Hlen _]]].
  exists scores. split; [now rewrite E | ].
  split; [now rewrite Hlen, length_map, rank_first_length, length_map | ].
  intros label Hlabel.
  pose proof (frequency_cut_fills_every_bin (map Frequency rfm) label Hl Hlabel)
    as Hin.
  rewrite E in Hin. apply in_map_iff in Hin.
  destruct Hin as [s [Hs Hin]]. now injection Hs as <-.
Qed.

(** * Further properties of the program *)

(** ** The cleaning step, row by row *)

Lemma clean_frame_single (r : RawRecord) (c : Q) :
  raw_CustomerID r = Some c ->
  (0 < raw_Quantity r)%Q -> (0 < raw_UnitPrice r)%Q ->
  clean_frame [r] = [add_Sales (r, astype_int c)].
Proof.
  intros Hc Hq Hp. unfold clean_frame. simpl. rewrite Hc. simpl.
  unfold valid_entry. simpl.
  apply Qpositive_iff in Hq, Hp. rewrite Hq, Hp. reflexivity.
Qed.

Lemma clean_frame_single_length (r : RawRecord) :
  (discarded r /\ clean_frame [r] = [])
  \/ (~ discarded r /\ length (clean_frame [r]) = 1%nat).
Proof.
  destruct (raw_CustomerID r) as [c | ] eqn:Ec.
  - destruct (Qlt_le_dec 0 (raw_Quantity r)) as [Hq | Hq].
    + destruct (Qlt_le_dec 0 (raw_UnitPrice r)) as [Hp | Hp].
      * right. split.
        -- unfold discarded. rewrite Ec.
           intros [H | [H | H]]; [discriminate H | | ].
           ++ exact (Qlt_not_le _ _ Hq H).
           ++ exact (Qlt_not_le _ _ Hp H).
        -- now rewrite (clean_frame_single r c Ec Hq Hp).
      * left. assert (Hd : discarded r) by (right; now right).
        split; [exact Hd | now apply clean_frame_discarded].
    + left. assert (Hd : discarded r) by (right; now left).
      split; [exact Hd | now apply clean_frame_discarded].
  - left. assert (Hd : discarded r) by now left.
    split; [exact Hd | now apply clean_frame_discarded].
Qed.

(** X2.  Cleaning works row by row: the cleaned concatenation of two
    frames is the concatenation of the cleaned frames, no row is ever
    added, and the row count is kept exactly when no row of the input
    lacks a customer id or has a quantity or price that is not positive. *)
Theorem cleaning_is_rowwise (df1 df2 : list RawRecord) :
  clean_frame (df1 ++ df2) = clean_frame df1 ++ clean_frame df2
  /\ (length (clean_frame df1) <= length df1)%nat
  /\ (length (clean_frame df1) = length df1
      <-> Forall (fun r => ~ discarded r) df1).
Proof.
  split; [apply clean_frame_app | ].
  induction df1 as [ | r df1 [IHle IHeq]]; simpl.
  - split; [reflexivity | ]. split; [constructor | reflexivity].
  - change (r :: df1) with ([r] ++ df1).
    rewrite clean_frame_app, length_app.
    destruct (clean_frame_single_length r) as [[Hd ->] | [Hk ->]]; simpl.
    + split; [lia | ]. split; [lia | ].
      intros H. inversion H. contradiction.
    + split; [lia | ]. split.
      * intros H. constructor; [exact Hk | ]. apply IHeq. lia.
      * intros H. inversion H; subst. f_equal. now apply IHeq.
Qed.

(** ** The aggregated metrics *)

Lemma StronglySorted_leb_NoDup_lt (l : list Z) :
  StronglySorted (fun a b => (a <=? b) = true) l -> NoDup l ->
  StronglySorted Z.lt l.
Proof.
  induction 1 as [ | a l Hs IH Ha]; intros Hnd; constructor;
    inversion Hnd as [ | ? ? Hnotin Hnd']; subst.
  - now apply IH.
  - rewrite Forall_forall in *. intros b Hb.
    specialize (Ha b Hb). apply Z.leb_le in Ha.
    assert (a <> b) by (intros ->; contradiction). lia.
Qed.

Lemma group_keys_ascending (df : list Transaction) :
  StronglySorted Z.lt (group_keys df).
Proof.
  apply StronglySorted_leb_NoDup_lt; [ | apply group_keys_NoDup].
  apply (sort_values_StronglySorted Z.leb Zleb_total Zleb_trans).
Qed.

(** X3.  The RFM table lists the customers in strictly ascending order of
    customer id, before scoring and in the frame the engine returns. *)
Theorem rfm_rows_ascend_by_customer (df_cleaned : list Transaction) :
  StronglySorted Z.lt (map rfm_CustomerID (rfm_agg df_cleaned))
  /\ (forall rfm,
         perform_rfm_analysis df_cleaned = Ok rfm ->
         StronglySorted Z.lt
           (map (fun row => rfm_CustomerID (metrics row)) rfm)).
Proof.
  assert (H : StronglySorted Z.lt (map rfm_CustomerID (rfm_agg df_cleaned)))
    by (rewrite rfm_agg_CustomerID; apply group_keys_ascending).
  split; [exact H | ].
  intros rfm Hrun.
  rewrite <- (map_map metrics rfm_CustomerID).
  now rewrite (perform_rfm_analysis_metrics df_cleaned rfm Hrun).
Qed.

Lemma fold_left_Qplus_acc (l : list Q) (a : Q) :
  (fold_left Qplus l a == a + fold_left Qplus l 0)%Q.
Proof.
  revert a. induction l as [ | x l IH]; intros a; simpl.
  - ring.
  - rewrite (IH (a + x)%Q), (IH (0 + x)%Q). ring.
Qed.

Lemma series_sum_cons (x : Q) (l : list Q) :
  (pd.series_sum (x :: l) == x + pd.series_sum l)%Q.
Proof.
  unfold pd.series_sum. simpl.
  rewrite fold_left_Qplus_acc. ring.
Qed.

Lemma series_sum_nonneg (l : list Q) :
  Forall (fun x => (0 < x)%Q) l -> (0 <= pd.series_sum l)%Q.
Proof.
  induction 1 as [ | x l Hx _ IH]; [unfold pd.series_sum; simpl; lra | ].
  rewrite series_sum_cons. lra.
Qed.

Lemma series_sum_positive (l : list Q) :
  l <> [] -> Forall (fun x => (0 < x)%Q) l -> (0 < pd.series_sum l)%Q.
Proof.
  intros Hne Hall. destruct l as [ | x l]; [congruence | ].
  inversion Hall as [ | ? ? Hx Hl]; subst.
  rewrite series_sum_cons.
  pose proof (series_sum_nonneg l Hl). lra.
Qed.

Lemma clean_frame_Sales_positive (input : list RawRecord) (t : Transaction) :
  In t (clean_frame input) -> (0 < Sales t)%Q.
Proof.
  intros Ht. apply clean_frame_In in Ht.
  destruct Ht as [r [c [_ [_ [Hv ->]]]]].
  unfold valid_entry in Hv. simpl in Hv.
  apply andb_true_iff in Hv. destruct Hv as [Hq Hp].
  apply Qpositive_iff in Hq, Hp. simpl.
  now apply Qmult_lt_0_compat.
Qed.

Lemma nunique_bounds (l : list string) :
  l <> [] -> 1 <= pd.nunique l <= Z.of_nat (length l).
Proof.
  intros Hne. unfold pd.nunique. split.
  - destruct l as [ | x l]; [congruence | ].
    unfold pd.unique. simpl. lia.
  - apply inj_le. apply unique_from_length_le.
Qed.

(** X4.  Every row of the RFM table computed from a cleaned file has a
    Frequency of at least 1, at most the number of the customer's
    transaction lines, and a strictly positive Monetary. *)
Theorem rfm_metrics_are_positive (input : list RawRecord) (x : RfmMetrics) :
  In x (rfm_agg (clean_frame input)) ->
  1 <= Frequency x
       <= Z.of_nat (length (group_of (clean_frame input) (rfm_CustomerID x)))
  /\ (0 < Monetary x)%Q.
Proof.
  unfold rfm_agg. rewrite in_map_iff. intros [c [<- Hc]]. simpl.
  pose proof (group_of_nonempty _ c Hc) as Hne.
  split.
  - rewrite <- (length_map InvoiceNo). apply nunique_bounds.
    destruct (group_of (clean_frame input) c); [congruence | discriminate].
  - apply series_sum_positive.
    + destruct (group_of (clean_frame input) c); [congruence | discriminate].
    + apply Forall_forall. intros s Hs. apply in_map_iff in Hs.
      destruct Hs as [t [<- Ht]]. apply group_of_In in Ht.
      now apply (clean_frame_Sales_positive input).
Qed.

Lemma rfm_metrics_are_positive_witness :
  In (nth 0 (rfm_agg (clean_frame sample_file)) (mkMetrics 0 0 0 0))
     (rfm_agg (clean_frame sample_file))
  /\ (0 < Monetary (nth 0 (rfm_agg (clean_frame sample_file))
                        (mkMetrics 0 0 0 0)))%Q.
Proof.
  assert (H : In (nth 0 (rfm_agg (clean_frame sample_file))
                      (mkMetrics 0 0 0 0))
                 (rfm_agg (clean_frame sample_file)))
    by (left; reflexivity).
  split; [exact H | ].
  exact (proj2 (rfm_metrics_are_positive sample_file _ H)).
Defined.

(** X5.  On a non-empty cleaned frame the customer of a latest
    transaction has Recency exactly 1: whichever transaction carries the
    greatest timestamp, the RFM row of its customer exists, has Recency
    1, and no row of the table has a smaller Recency. *)
Theorem latest_customer_has_Recency_1
        (df_cleaned : list Transaction) (t : Transaction) :
  In t df_cleaned ->
  (forall t', In t' df_cleaned -> InvoiceDate t' <= InvoiceDate t) ->
  (exists x, In x (rfm_agg df_cleaned)
             /\ rfm_CustomerID x = CustomerID t)
  /\ (forall x, In x (rfm_agg df_cleaned) ->
                rfm_CustomerID x = CustomerID t ->
                Recency x = 1
                /\ (forall y, In y (rfm_agg df_cleaned) ->
                              Recency x <= Recency y)).
Proof.
  intros Hint Hlatest.
  set (c := CustomerID t).
  assert (Hc : In c (map CustomerID df_cleaned)) by now apply in_map.
  split.
  - eexists. split; [exact (rfm_agg_row df_cleaned c Hc) | reflexivity].
  - intros x Hx Hxc. unfold rfm_agg in Hx. apply in_map_iff in Hx.
    destruct Hx as [c' [<- Hc']]. simpl in Hxc. subst c'. simpl.
    assert (Hd : map InvoiceDate df_cleaned <> [])
      by (destruct df_cleaned; [contradiction | discriminate]).
    destruct (series_max_nonempty _ Hd) as [latest E].
    pose proof (series_max_spec _ _ E) as [Hin Hall].
    rewrite Forall_forall in Hall.
    assert (Hlt : latest = InvoiceDate t).
    { apply in_map_iff in Hin. destruct Hin as [t' [<- Ht']].
      assert (InvoiceDate t' <= InvoiceDate t) by now apply Hlatest.
      assert (InvoiceDate t <= InvoiceDate t')
        by (apply Hall; now apply in_map).
      lia. }
    assert (Hrec : recency_lambda (snapshot_date df_cleaned)
                                  (map InvoiceDate (group_of df_cleaned c)) = 1).
    { assert (Hg : In t (group_of df_cleaned c))
        by (apply group_of_In; auto).
      destruct (series_max_nonempty (map InvoiceDate (group_of df_cleaned c)))
        as [m Em].
      { destruct (group_of df_cleaned c); [contradiction | discriminate]. }
      unfold recency_lambda, snapshot_date. rewrite E, Em. simpl.
      pose proof (series_max_spec _ _ Em) as [Hmin Hmall].
      rewrite Forall_forall in Hmall.
      assert (latest <= m)
        by (rewrite Hlt; apply Hmall; now apply in_map).
      assert (m <= latest).
      { apply Hall. apply in_map_iff in Hmin. destruct Hmin as [t' [<- Ht']].
        apply in_map. now apply group_of_In in Ht'. }
      replace m with latest by lia.
      replace (latest + pd.Timedelta_day - latest) with pd.Timedelta_day by lia.
      reflexivity. }
    split; [exact Hrec | ].
    intros y Hy. rewrite Hrec. now apply (Recency_lower_bound df_cleaned).
Qed.

Lemma latest_customer_has_Recency_1_witness :
  In (nth 4 sample_cleaned sample_transaction) sample_cleaned
  /\ (forall t', In t' sample_cleaned ->
                 InvoiceDate t'
                 <= InvoiceDate (nth 4 sample_cleaned sample_transaction))
  /\ (forall x, In x (rfm_agg sample_cleaned) ->
                rfm_CustomerID x = 17850 -> Recency x = 1).
Proof.
  assert (H1 : In (nth 4 sample_cleaned sample_transaction) sample_cleaned)
    by (do 4 right; left; reflexivity).
  assert (H2 : forall t', In t' sample_cleaned ->
                          InvoiceDate t'
                          <= InvoiceDate (nth 4 sample_cleaned
                                              sample_transaction)).
  { intros t' [<- | [<- | [<- | [<- | [<- | []]]]]]; vm_compute; discriminate. }
  split; [exact H1 | ]. split; [exact H2 | ].
  intros x Hx Hc.
  exact (proj1 (proj2 (latest_customer_has_Recency_1
                         sample_cleaned _ H1 H2) x Hx Hc)).
Defined.

(** ** Monthly sales *)

(** X7.  The monthly sales series is time-ordered: its months are
    strictly ascending, so each month appears once and earlier months
    come first. *)
Theorem monthly_sales_is_time_ordered (df_cleaned : list Transaction) :
  StronglySorted Z.lt (map fst (monthly_sales df_cleaned)).
Proof.
  unfold monthly_sales, groupby_Sales_sum. rewrite map_map. simpl.
  rewrite map_id.
  apply StronglySorted_leb_NoDup_lt.
  - apply (sort_values_StronglySorted Z.leb Zleb_total Zleb_trans).
  - apply (Permutation_NoDup
             (Permutation_sym (sort_values_Permutation Z.leb _))).
    apply (unique_NoDup Z.eqb Z.eqb_eq).
Qed.

(** ** The ten best-selling products *)

Lemma StronglySorted_app_inv {A : Type} (R : A -> A -> Prop)
      (l1 l2 : list A) (a b : A) :
  StronglySorted R (l1 ++ l2) -> In a l1 -> In b l2 -> R a b.
Proof.
  induction l1 as [ | x l1 IH]; simpl; intros Hs Ha Hb; [contradiction | ].
  inversion Hs as [ | ? ? Hs' Hx]; subst.
  destruct Ha as [-> | Ha].
  - rewrite Forall_forall in Hx. apply Hx. apply in_or_app. now right.
  - now apply IH.
Qed.

Lemma firstn_incl {A : Type} (n : nat) (l : list A) (a : A) :
  In a (firstn n l) -> In a l.
Proof.
  intros H. rewrite <- (firstn_skipn n l). apply in_or_app. now left.
Qed.

Lemma StronglySorted_firstn {A : Type} (R : A -> A -> Prop)
      (n : nat) (l : list A) :
  StronglySorted R l -> StronglySorted R (firstn n l).
Proof.
  intros Hs. revert n. induction Hs as [ | a l Hs IH Ha]; intros [ | n];
    simpl; try constructor.
  - apply IH.
  - rewrite Forall_forall in *. intros b Hb.
    apply Ha. revert Hb. apply firstn_incl.
Qed.

(** X8.  The bar chart shows at most ten products, all of them rows of
    the per-product sums, in descending order of sales, and no product
    left out sold more than a product shown. *)
Theorem top_10_products_are_the_best (df_cleaned : list Transaction) :
  length (top_10_products df_cleaned)
  = Nat.min 10 (length (product_sales df_cleaned))
  /\ incl (top_10_products df_cleaned) (product_sales df_cleaned)
  /\ StronglySorted (fun a b => (snd b <= snd a)%Q)
                    (top_10_products df_cleaned)
  /\ (forall shown other,
         In shown (top_10_products df_cleaned) ->
         In other (product_sales df_cleaned) ->
         ~ In other (top_10_products df_cleaned) ->
         (snd other <= snd shown)%Q).
Proof.
  unfold top_10_products.
  set (by_sales := fun a b : string * Q => Qle_bool (snd b) (snd a)).
  set (sorted := pd.sort_values by_sales (product_sales df_cleaned)).
  assert (Hp : Permutation sorted (product_sales df_cleaned))
    by apply sort_values_Permutation.
  assert (Hs : StronglySorted (fun a b => by_sales a b = true) sorted).
  { apply sort_values_StronglySorted.
    - intros a b. unfold by_sales. apply Qle_bool_total.
    - intros a b c. unfold by_sales. intros H1 H2.
      now apply (Qle_bool_trans _ (snd b)). }
  split; [ | split; [ | split]].
  - rewrite length_firstn. now rewrite (Permutation_length Hp).
  - intros a Ha. apply (Permutation_in _ Hp). now apply (firstn_incl 10 sorted).
  - apply StronglySorted_firstn.
    clear -Hs. induction Hs as [ | a l Hs IH Ha]; constructor; [exact IH | ].
    eapply Forall_impl; [ | exact Ha].
    intros b Hb. now apply Qle_bool_iff.
  - intros shown other Hshown Hother Hnot.
    apply (Permutation_in _ (Permutation_sym Hp)) in Hother.
    rewrite <- (firstn_skipn 10 sorted) in Hother, Hs.
    apply in_app_or in Hother. destruct Hother as [Hin | Hrest];
      [contradiction | ].
    apply Qle_bool_iff.
    exact (StronglySorted_app_inv _ _ _ shown other Hs Hshown Hrest).
Qed.

Lemma top_10_products_are_the_best_witness :
  In ("TEA SET"%string, 11 # 2) (top_10_products sample_cleaned)
  /\ length (top_10_products sample_cleaned) = 3%nat.
Proof.
  split; [vm_compute; tauto | ].
  rewrite (proj1 (top_10_products_are_the_best sample_cleaned)).
  reflexivity.
Defined.

(** ** Segment counts *)

Lemma Zsum_Permutation (l1 l2 : list Z) :
  Permutation l1 l2 -> Zsum l1 = Zsum l2.
Proof.
  unfold Zsum. induction 1; simpl; lia.
Qed.

Lemma Zsum_map_plus {K : Type} (f g : K -> Z) (keys : list K) :
  Zsum (map (fun k => f k + g k) keys)
  = Zsum (map f keys) + Zsum (map g keys).
Proof.
  unfold Zsum. induction keys as [ | k keys IH]; simpl; lia.
Qed.

Lemma Zsum_indicator (x : string) (keys : list string) :
  NoDup keys -> In x keys ->
  Zsum (map (fun s => if String.eqb s x then 1 else 0) keys) = 1.
Proof.
  unfold Zsum. induction 1 as [ | k keys Hnotin Hnd IH]; simpl;
    [contradiction | ].
  intros [-> | Hx].
  - rewrite String.eqb_refl.
    assert (Hzero : fold_right Z.add 0
                      (map (fun s => if String.eqb s x then 1 else 0) keys)
                    = 0).
    { clear -Hnotin. induction keys as [ | k keys IH]; simpl; [reflexivity | ].
      destruct (String.eqb k x) eqn:E.
      - apply String.eqb_eq in E. subst k. exfalso. apply Hnotin. now left.
      - rewrite IH; [reflexivity | ]. intros H. apply Hnotin. now right. }
    rewrite Hzero. reflexivity.
  - destruct (String.eqb k x) eqn:E.
    + apply String.eqb_eq in E. subst k. contradiction.
    + now rewrite IH.
Qed.

Lemma value_counts_total (keys col : list string) :
  NoDup keys ->
  (forall s, In s col -> In s keys) ->
  Zsum (map (fun s => Z.of_nat (length (filter (String.eqb s) col))) keys)
  = Z.of_nat (length col).
Proof.
  intros Hnd. induction col as [ | x col IH]; intros Hcover.
  - simpl. unfold Zsum. clear. induction keys; simpl; lia.
  - rewrite (map_ext _ (fun s => (if String.eqb s x then 1 else 0)
                                 + Z.of_nat (length (filter (String.eqb s) col)))).
    + rewrite Zsum_map_plus, IH by (intros s Hs; apply Hcover; now right).
      rewrite (Zsum_indicator x keys Hnd) by (apply Hcover; now left).
      simpl length. lia.
    + intros s. simpl. destruct (String.eqb s x); simpl length; lia.
Qed.

(** X9.  The pie chart accounts for every customer once: the segment
    counts add up to the number of rows of the RFM table, each segment
    appears once with the number of its customers (at least one), the
    largest segment comes first, and for a table returned by the engine
    only the four segment names occur. *)
Theorem segment_counts_cover_all_customers (rfm_data : list RfmRecord) :
  Zsum (map snd (segment_counts rfm_data)) = Z.of_nat (length rfm_data)
  /\ NoDup (map fst (segment_counts rfm_data))
  /\ (forall s n,
         In (s, n) (segment_counts rfm_data) ->
         1 <= n
         /\ n = Z.of_nat (length (filter (fun row => String.eqb s (Segment row))
                                         rfm_data)))
  /\ StronglySorted (fun a b => snd b <= snd a) (segment_counts rfm_data)
  /\ (forall df_cleaned,
         perform_rfm_analysis df_cleaned = Ok rfm_data ->
         incl (map fst (segment_counts rfm_data)) segment_labels
         /\ (length (segment_counts rfm_data) <= 4)%nat).
Proof.
  unfold segment_counts.
  set (col := map Segment rfm_data).
  set (count := fun s => (s, Z.of_nat (length (filter (String.eqb s) col)))).
  set (by_count := fun a b : string * Z => snd b <=? snd a).
  assert (Hp : Permutation
                 (pd.sort_values by_count (map count (pd.unique String.eqb col)))
                 (map count (pd.unique String.eqb col)))
    by apply sort_values_Permutation.
  assert (Hfst : Permutation
                   (map fst (pd.sort_values by_count
                                            (map count (pd.unique String.eqb col))))
                   (pd.unique String.eqb col)).
  { rewrite (Permutation_map fst Hp), map_map. simpl. now rewrite map_id. }
  assert (Hnd : NoDup (map fst (pd.sort_values by_count
                                  (map count (pd.unique String.eqb col))))).
  { apply (Permutation_NoDup (Permutation_sym Hfst)).
    apply (unique_NoDup String.eqb String.eqb_eq). }
  split; [ | split; [exact Hnd | split; [ | split]]].
  - rewrite (Zsum_Permutation _ _ (Permutation_map snd Hp)), map_map. simpl.
    rewrite value_counts_total.
    + unfold col. now rewrite length_map.
    + apply (unique_NoDup String.eqb String.eqb_eq).
    + intros s Hs. now apply (unique_In String.eqb String.eqb_eq).
  - intros s n Hin. apply (Permutation_in _ Hp) in Hin.
    apply in_map_iff in Hin. destruct Hin as [s' [Heq Hs']].
    unfold count in Heq. injection Heq as -> <-.
    apply (proj1 (unique_In String.eqb String.eqb_eq col s)) in Hs'.
    split.
    + destruct (filter (String.eqb s) col) eqn:E; [ | simpl length; lia].
      exfalso.
      assert (Hf : In s (filter (String.eqb s) col))
        by (apply filter_In; split; [exact Hs' | apply String.eqb_refl]).
      now rewrite E in Hf.
    + f_equal. unfold col. clear.
      induction rfm_data as [ | row l IH]; simpl; [reflexivity | ].
      destruct (String.eqb s (Segment row)); simpl; now rewrite IH.
  - assert (Hs : StronglySorted (fun a b => by_count a b = true)
                   (pd.sort_values by_count
                                   (map count (pd.unique String.eqb col)))).
    { apply sort_values_StronglySorted.
      - intros a b. unfold by_count. apply Zleb_total.
      - intros a b c. unfold by_count. intros H1 H2.
        now apply (Zleb_trans _ (snd b)). }
    clear -Hs. induction Hs as [ | a l Hs IH Ha]; constructor; [exact IH | ].
    eapply Forall_impl; [ | exact Ha].
    intros b Hb. now apply Z.leb_le.
  - intros df_cleaned Hrun.
    assert (Hincl : incl (map fst (pd.sort_values by_count
                                     (map count (pd.unique String.eqb col))))
                         segment_labels).
    { intros s Hs. apply (Permutation_in _ Hfst) in Hs.
      apply (proj1 (unique_In String.eqb String.eqb_eq col s)) in Hs.
      unfold col in Hs. apply in_map_iff in Hs. destruct Hs as [row [<- Hrow]].
      apply perform_rfm_analysis_Ok in Hrun.
      destruct Hrun as [R [F [M [_ [_ [_ ->]]]]]].
      pose proof (frame_rows_Forall (rfm_agg df_cleaned) R F M) as Hall.
      rewrite Forall_forall in Hall.
      destruct (Hall row Hrow) as [_ [_ [_ [_ [_ ->]]]]].
      apply segment_customer_label. }
    split; [exact Hincl | ].
    rewrite <- (length_map fst).
    change 4%nat with (length segment_labels).
    now apply NoDup_incl_length.
Qed.

(** ** Inputs on which the engine stops *)

Lemma sorted_column_ends_In (x : list Q) :
  x <> [] ->
  let v := pd.sort_values Qle_bool x in
  In (nth 0 v 0%Q) x /\ In (nth (length v - 1) v 0%Q) x.
Proof.
  intros Hne. cbv zeta.
  set (v := pd.sort_values Qle_bool x).
  assert (Hlen : length v = length x) by apply sort_values_length.
  assert (Hpos : (0 < length v)%nat)
    by (rewrite Hlen; destruct x; [congruence | simpl; lia]).
  split; apply (Permutation_in _ (sort_values_Permutation Qle_bool x));
    apply nth_In; fold v; lia.
Qed.

(** A column whose values are all equal has colliding edges. *)
Lemma qcut_constant_column (x : list Q) (labels : list Z) :
  (forall a b, In a x -> In b x -> (a == b)%Q) ->
  pd.qcut x 5 labels = Raise (ValueError pd.bin_edges_msg).
Proof.
  intros Hconst. unfold pd.qcut.
  destruct x as [ | x0 x]; [reflexivity | ].
  set (col := x0 :: x) in *.
  assert (Hlen : length (pd.qcut_bins col 5) = 6%nat) by reflexivity.
  assert (Hlt : (length (pd.unique Qeq_bool (pd.qcut_bins col 5)) < 6)%nat).
  { pose proof (unique_from_length_le Qeq_bool [] (pd.qcut_bins col 5)) as Hle.
    rewrite Hlen in Hle. unfold pd.unique.
    destruct (Nat.eq_dec
                (length (pd.unique_from Qeq_bool [] (pd.qcut_bins col 5))) 6)
      as [Heq | Hne]; [ | lia].
    exfalso. rewrite <- Hlen in Heq.
    apply unique_from_full in Heq. destruct Heq as [Hpairs _].
    rewrite qcut_bins_5 in Hpairs.
    inversion Hpairs as [ | ? ? H0 _]; subst.
    rewrite Forall_forall in H0.
    assert (H05 : Qeq_bool (pd.quantile (pd.sort_values Qle_bool col) (5 # 5))
                           (pd.quantile (pd.sort_values Qle_bool col) (0 # 5))
                  = false).
    { apply H0. simpl. tauto. }
    assert (Hne : pd.sort_values Qle_bool col <> []).
    { intros E. apply (f_equal (@length _)) in E.
      rewrite sort_values_length in E. discriminate E. }
    assert (Heq : Qeq_bool
                    (pd.quantile (pd.sort_values Qle_bool col) (5 # 5))
                    (pd.quantile (pd.sort_values Qle_bool col) (0 # 5))
                  = true).
    { apply Qeq_bool_iff. rewrite quantile_0, (quantile_1 _ Hne).
      destruct (sorted_column_ends_In col) as [H1 H2]; [discriminate | ].
      now apply Hconst. }
    congruence. }
  apply Nat.ltb_lt in Hlt. rewrite Hlen. rewrite Hlt. reflexivity.
Qed.

Lemma perform_rfm_analysis_not_Ok (df : list Transaction) :
  (forall rfm, perform_rfm_analysis df <> Ok rfm) ->
  perform_rfm_analysis df = Raise (ValueError pd.bin_edges_msg).
Proof.
  intros Hnot.
  destruct (perform_rfm_analysis_outcome df) as [[rfm H] | H];
    [now destruct (Hnot rfm) | exact H].
Qed.

(** X10.  When all customers have the same Recency (for instance all last
    bought on the same day) or all have the same Monetary, the quintile
    edges collide and the engine stops with the error of [pd.qcut]. *)
Theorem constant_column_stops_the_engine (df_cleaned : list Transaction) :
  (forall x y, In x (rfm_agg df_cleaned) -> In y (rfm_agg df_cleaned) ->
               Recency x = Recency y)
  \/ (forall x y, In x (rfm_agg df_cleaned) -> In y (rfm_agg df_cleaned) ->
                  (Monetary x == Monetary y)%Q) ->
  perform_rfm_analysis df_cleaned = Raise (ValueError pd.bin_edges_msg).
Proof.
  intros [Hrec | Hmon]; apply perform_rfm_analysis_not_Ok; intros rfm Hrun;
    apply perform_rfm_analysis_columns in Hrun;
    destruct Hrun as [_ [HR [_ HM]]].
  - unfold recency_scores in HR. rewrite qcut_constant_column in HR;
      [discriminate HR | ].
    intros a b Ha Hb. apply in_map_iff in Ha, Hb.
    destruct Ha as [x [<- Hx]], Hb as [y [<- Hy]].
    now rewrite (Hrec x y Hx Hy).
  - unfold monetary_scores in HM. rewrite qcut_constant_column in HM;
      [discriminate HM | ].
    intros a b Ha Hb. apply in_map_iff in Ha, Hb.
    destruct Ha as [x [<- Hx]], Hb as [y [<- Hy]].
    now apply Hmon.
Qed.

Lemma constant_column_stops_the_engine_witness :
  (forall x y, In x (rfm_agg same_day_cleaned) ->
               In y (rfm_agg same_day_cleaned) -> Recency x = Recency y)
  /\ perform_rfm_analysis same_day_cleaned
     = Raise (ValueError pd.bin_edges_msg).
Proof.
  assert (H : forall x y, In x (rfm_agg same_day_cleaned) ->
                          In y (rfm_agg same_day_cleaned) ->
                          Recency x = Recency y).
  { intros x y [<- | [<- | []]] [<- | [<- | []]]; reflexivity. }
  split; [exact H | ].
  exact (constant_column_stops_the_engine same_day_cleaned (or_introl H)).
Defined.

(** X11.  A file that exists always gives a frame, even when no row of it
    is valid; when the cleaned frame has fewer than two distinct
    customers the run is then stopped by the error of [pd.qcut] and
    writes nothing.  A completed run therefore had at least two
    customers. *)
Theorem fewer_than_two_customers_stop_the_run
        (fs : FileSystem) (input : list RawRecord) :
  fs FILE_NAME = Some input ->
  snd (clean_and_prepare_data fs FILE_NAME) = Some (clean_frame input)
  /\ ((length (group_keys (clean_frame input)) <= 1)%nat ->
      main fs = {| written := [];
                   exit := Uncaught (ValueError pd.bin_edges_msg) |})
  /\ (exit (main fs) = Completed ->
      (2 <= length (group_keys (clean_frame input)))%nat).
Proof.
  intros Hfs.
  assert (Hfew : (length (group_keys (clean_frame input)) <= 1)%nat ->
                 perform_rfm_analysis (clean_frame input)
                 = Raise (ValueError pd.bin_edges_msg)).
  { intros Hn. apply perform_rfm_analysis_not_Ok. intros rfm Hrun.
    apply perform_rfm_analysis_columns in Hrun.
    destruct Hrun as [_ [_ [HF _]]].
    rewrite frequency_scores_single in HF; [discriminate HF | ].
    unfold rfm_agg. now rewrite length_map. }
  unfold main, clean_and_prepare_data. rewrite Hfs. simpl.
  split; [reflexivity | ]. split.
  - intros Hn. now rewrite (Hfew Hn).
  - intros Hdone.
    destruct (le_lt_dec (length (group_keys (clean_frame input))) 1)
      as [Hn | Hn]; [ | lia].
    rewrite (Hfew Hn) in Hdone. discriminate Hdone.
Qed.

Lemma fewer_than_two_customers_stop_the_run_witness :
  (fun _ : string => Some invalid_file) FILE_NAME = Some invalid_file
  /\ (length (group_keys (clean_frame invalid_file)) <= 1)%nat
  /\ main (fun _ => Some invalid_file)
     = {| written := [];
          exit := Uncaught (ValueError pd.bin_edges_msg) |}.
Proof.
  assert (H1 : (fun _ : string => Some invalid_file) FILE_NAME
               = Some invalid_file) by reflexivity.
  assert (H2 : (length (group_keys (clean_frame invalid_file)) <= 1)%nat)
    by (vm_compute; lia).
  split; [exact H1 | ]. split; [exact H2 | ].
  exact (proj1 (proj2 (fewer_than_two_customers_stop_the_run
                         (fun _ => Some invalid_file) invalid_file H1)) H2).
Defined.

(** ** How the scores follow the metrics *)

Lemma searchsorted_left_monotone (bins : list Q) (x y : Q) :
  (x <= y)%Q ->
  (pd.searchsorted_left bins x <= pd.searchsorted_left bins y)%nat.
Proof.
  intros Hxy. induction bins as [ | b bins IH]; simpl; [lia | ].
  destruct (pd.Qlt_bool b x) eqn:Ex; [ | lia].
  apply Qlt_bool_iff in Ex.
  assert (Ey : pd.Qlt_bool b y = true)
    by (apply Qlt_bool_iff; now apply Qlt_le_trans with x).
  rewrite Ey. lia.
Qed.

Lemma searchsorted_left_le_length (bins : list Q) (x : Q) :
  (pd.searchsorted_left bins x <= length bins)%nat.
Proof.
  induction bins as [ | b bins IH]; simpl; [lia | ].
  destruct (pd.Qlt_bool b x); lia.
Qed.

Lemma bin_id_Some_range (bins : list Q) (x : Q) (i : nat) :
  pd.bin_id bins x = Some i -> (1 <= i < length bins)%nat.
Proof.
  unfold pd.bin_id.
  pose proof (searchsorted_left_le_length bins x) as Hle.
  destruct bins as [ | b0 bins].
  - simpl. discriminate.
  - destruct (Qeq_bool x b0).
    + destruct (_ || _) eqn:E; [discriminate | ].
      intros H. injection H as <-.
      apply orb_false_iff in E. destruct E as [E1 E2].
      apply Nat.eqb_neq in E1. simpl length in *. lia.
    + destruct (_ || _) eqn:E; [discriminate | ].
      intros H. injection H as <-.
      apply orb_false_iff in E. destruct E as [E1 E2].
      apply Nat.eqb_neq in E1, E2. simpl in *.
      destruct (pd.Qlt_bool b0 x); lia.
Qed.

Lemma bin_id_monotone (bins : list Q) (x y : Q) (i j : nat) :
  pd.bin_id bins x = Some i -> pd.bin_id bins y = Some j ->
  (x <= y)%Q -> (i <= j)%nat.
Proof.
  intros Hx Hy Hxy.
  pose proof (bin_id_Some_range _ _ _ Hx) as Hi.
  pose proof (bin_id_Some_range _ _ _ Hy) as Hj.
  pose proof (searchsorted_left_monotone bins x y Hxy) as Hmono.
  unfold pd.bin_id in Hx, Hy.
  destruct bins as [ | b0 bins]; [simpl in Hi; lia | ].
  destruct (Qeq_bool x b0) eqn:Ex.
  - destruct (_ || _) in Hx; [discriminate | ]. injection Hx as <-. lia.
  - destruct (Qeq_bool y b0) eqn:Ey.
    + exfalso. apply Qeq_bool_iff in Ey.
      assert (Hlt : (x < b0)%Q).
      { apply Qle_lteq in Hxy. destruct Hxy as [Hlt | Heq].
        - now rewrite <- Ey.
        - rewrite Heq in Ex. apply Qeq_bool_iff in Ey. congruence. }
      simpl in Hx.
      assert (E0 : pd.Qlt_bool b0 x = false)
        by (apply Qlt_bool_false_iff; now apply Qlt_le_weak).
      rewrite E0 in Hx. simpl in Hx. discriminate Hx.
    + destruct (_ || _) in Hx; [discriminate | ].
      destruct (_ || _) in Hy; [discriminate | ].
      injection Hx as <-. injection Hy as <-. exact Hmono.
Qed.

Lemma take_label_FM (i : nat) (s : Z) :
  (1 <= i)%nat ->
  pd.take_label FM_labels (Some i) = Some s -> s = Z.of_nat i.
Proof.
  intros Hi. simpl.
  do 6 (destruct i as [ | i]; [try lia; simpl; intros H; now injection H as <- | ]).
  simpl. destruct i; discriminate.
Qed.

Lemma take_label_R (i : nat) (s : Z) :
  (1 <= i)%nat ->
  pd.take_label R_labels (Some i) = Some s -> s = 6 - Z.of_nat i.
Proof.
  intros Hi. simpl.
  do 6 (destruct i as [ | i]; [try lia; simpl; intros H; now injection H as <- | ]).
  simpl. destruct i; discriminate.
Qed.

Lemma take_label_Some (labels : list Z) (id : option nat) (s : Z) :
  pd.take_label labels id = Some s ->
  exists i, id = Some i /\ pd.take_label labels (Some i) = Some s.
Proof.
  destruct id as [i | ]; [ | discriminate]. intros H. eauto.
Qed.

(** The score of a row is the label of the bin of its own metric. *)
Lemma perform_rfm_analysis_row_scores (df : list Transaction)
      (table : list RfmRecord) (row : RfmRecord) :
  perform_rfm_analysis df = Ok table -> In row table ->
  pd.take_label R_labels
    (pd.bin_id (pd.qcut_bins (map (fun x => inject_Z (Recency x)) (rfm_agg df)) 5)
               (inject_Z (Recency (metrics row))))
  = Some (R_Score row)
  /\ pd.take_label FM_labels
       (pd.bin_id (pd.qcut_bins (map Monetary (rfm_agg df)) 5)
                  (Monetary (metrics row)))
     = Some (M_Score row).
Proof.
  intros Hrun Hrow.
  apply perform_rfm_analysis_columns in Hrun.
  destruct Hrun as [Hm [HR [_ HM]]].
  unfold recency_scores in HR. unfold monetary_scores in HM.
  apply qcut_Ok in HR, HM. destruct HR as [_ HR], HM as [_ HM].
  set (binsR := pd.qcut_bins (map (fun x => inject_Z (Recency x)) (rfm_agg df))
                             5) in *.
  set (binsM := pd.qcut_bins (map Monetary (rfm_agg df)) 5) in *.
  rewrite <- Hm in HR, HM.
  rewrite !map_map in HR, HM.
  split; symmetry.
  - exact (proj1 map_ext_in_iff HR row Hrow).
  - exact (proj1 map_ext_in_iff HM row Hrow).
Qed.

(** X13.  Within one returned table the R_Score never rises with the
    Recency and the M_Score never falls with the Monetary: a customer who
    bought more recently has an R_Score at least as high, a customer who
    spent more an M_Score at least as high, and equal metrics give equal
    scores. *)
Theorem scores_follow_the_metrics
        (df_cleaned : list Transaction) (rfm : list RfmRecord)
        (row1 row2 : RfmRecord) :
  perform_rfm_analysis df_cleaned = Ok rfm ->
  In row1 rfm -> In row2 rfm ->
  (Recency (metrics row1) <= Recency (metrics row2) ->
   R_Score row2 <= R_Score row1)
  /\ ((Monetary (metrics row1) <= Monetary (metrics row2))%Q ->
      M_Score row1 <= M_Score row2)
  /\ (Recency (metrics row1) = Recency (metrics row2) ->
      R_Score row1 = R_Score row2)
  /\ ((Monetary (metrics row1) == Monetary (metrics row2))%Q ->
      M_Score row1 = M_Score row2).
Proof.
  intros Hrun H1 H2.
  destruct (perform_rfm_analysis_row_scores _ _ _ Hrun H1) as [HR1 HM1].
  destruct (perform_rfm_analysis_row_scores _ _ _ Hrun H2) as [HR2 HM2].
  apply take_label_Some in HR1, HR2, HM1, HM2.
  destruct HR1 as [i1 [Ei1 Li1]], HR2 as [i2 [Ei2 Li2]].
  destruct HM1 as [j1 [Ej1 Lj1]], HM2 as [j2 [Ej2 Lj2]].
  pose proof (bin_id_Some_range _ _ _ Ei1) as Ri1.
  pose proof (bin_id_Some_range _ _ _ Ei2) as Ri2.
  pose proof (bin_id_Some_range _ _ _ Ej1) as Rj1.
  pose proof (bin_id_Some_range _ _ _ Ej2) as Rj2.
  apply take_label_R in Li1, Li2; try lia.
  apply take_label_FM in Lj1, Lj2; try lia.
  assert (HRle : forall a b ia ib,
             pd.bin_id (pd.qcut_bins
                          (map (fun x => inject_Z (Recency x))
                               (rfm_agg df_cleaned)) 5) (inject_Z a) = Some ia ->
             pd.bin_id (pd.qcut_bins
                          (map (fun x => inject_Z (Recency x))
                               (rfm_agg df_cleaned)) 5) (inject_Z b) = Some ib ->
             a <= b -> (ia <= ib)%nat).
  { intros a b ia ib Ha Hb Hab.
    apply (bin_id_monotone _ _ _ _ _ Ha Hb). now rewrite <- Zle_Qle. }
  assert (HMle : forall a b ja jb,
             pd.bin_id (pd.qcut_bins (map Monetary (rfm_agg df_cleaned)) 5) a
             = Some ja ->
             pd.bin_id (pd.qcut_bins (map Monetary (rfm_agg df_cleaned)) 5) b
             = Some jb ->
             (a <= b)%Q -> (ja <= jb)%nat).
  { intros a b ja jb Ha Hb Hab. exact (bin_id_monotone _ _ _ _ _ Ha Hb Hab). }
  split; [ | split; [ | split]].
  - intros Hle. pose proof (HRle _ _ _ _ Ei1 Ei2 Hle). lia.
  - intros Hle. pose proof (HMle _ _ _ _ Ej1 Ej2 Hle). lia.
  - intros Heq.
    assert (Recency (metrics row1) <= Recency (metrics row2)) by lia.
    assert (Recency (metrics row2) <= Recency (metrics row1)) by lia.
    pose proof (HRle _ _ _ _ Ei1 Ei2 H).
    pose proof (HRle _ _ _ _ Ei2 Ei1 H0). lia.
  - intros Heq.
    assert (Ha : (Monetary (metrics row1) <= Monetary (metrics row2))%Q)
      by (rewrite Heq; apply Qle_refl).
    assert (Hb : (Monetary (metrics row2) <= Monetary (metrics row1))%Q)
      by (rewrite Heq; apply Qle_refl).
    pose proof (HMle _ _ _ _ Ej1 Ej2 Ha).
    pose proof (HMle _ _ _ _ Ej2 Ej1 Hb). lia.
Qed.

Lemma scores_follow_the_metrics_witness :
  perform_rfm_analysis tied_cleaned = Ok tied_table
  /\ In (nth 0 tied_table sample_row) tied_table
  /\ In (nth 4 tied_table sample_row) tied_table
  /\ Recency (metrics (nth 0 tied_table sample_row))
     <= Recency (metrics (nth 4 tied_table sample_row))
  /\ R_Score (nth 4 tied_table sample_row)
     <= R_Score (nth 0 tied_table sample_row).
Proof.
  assert (H0 : perform_rfm_analysis tied_cleaned = Ok tied_table)
    by (vm_compute; reflexivity).
  assert (H1 : In (nth 0 tied_table sample_row) tied_table)
    by (left; reflexivity).
  assert (H2 : In (nth 4 tied_table sample_row) tied_table)
    by (do 4 right; left; reflexivity).
  assert (H3 : Recency (metrics (nth 0 tied_table sample_row))
               <= Recency (metrics (nth 4 tied_table sample_row)))
    by (simpl; lia).
  split; [exact H0 | ]. split; [exact H1 | ]. split; [exact H2 | ].
  split; [exact H3 | ].
  exact (proj1 (scores_follow_the_metrics tied_cleaned tied_table _ _
                                          H0 H1 H2) H3).
Defined.

Lemma qcut_Ok_bins (x : list Q) (labels : list Z) (col : list (option Z)) :
  length labels = 5%nat ->
  pd.qcut x 5 labels = Ok col ->
  StronglySorted Qlt (pd.qcut_bins x 5).
Proof.
  intros Hl Hok.
  destruct (qcut_5_raises_or_labels x labels Hl)
    as [Hr | [scores [_ [_ [_ [_ Hpairs]]]]]]; [congruence | ].
  apply distinct_ascending_strict; [exact Hpairs | ].
  apply qcut_bins_ascending. intros ->. discriminate Hok.
Qed.

(** The least value of a column falls in the first bin, the greatest in
    the fifth. *)
Lemma bin_id_of_extremes (x : list Q) (xi : Q) :
  StronglySorted Qlt (pd.qcut_bins x 5) ->
  In xi x ->
  ((forall y, In y x -> (xi <= y)%Q) ->
   pd.bin_id (pd.qcut_bins x 5) xi = Some 1%nat)
  /\ ((forall y, In y x -> (y <= xi)%Q) ->
      pd.bin_id (pd.qcut_bins x 5) xi = Some 5%nat).
Proof.
  intros Hs Hin.
  assert (Hne : x <> []) by (intros ->; contradiction).
  assert (Hvne : pd.sort_values Qle_bool x <> []).
  { intros E. apply (f_equal (@length _)) in E.
    rewrite sort_values_length in E. destruct x; [congruence | discriminate]. }
  destruct (sorted_column_bounds x xi Hin) as [Hlo Hhi].
  destruct (sorted_column_ends_In x Hne) as [Hin0 Hin5].
  rewrite qcut_bins_5 in *.
  set (v := pd.sort_values Qle_bool x) in *.
  split.
  - intros Hmin. unfold pd.bin_id.
    assert (E0 : Qeq_bool xi (pd.quantile v (0 # 5)) = true).
    { apply Qeq_bool_iff. rewrite quantile_0.
      apply Qle_antisym; [now apply Hmin | exact Hlo]. }
    rewrite E0. reflexivity.
  - intros Hmax.
    assert (E5 : (xi == pd.quantile v (5 # 5))%Q).
    { rewrite (quantile_1 v Hvne).
      apply Qle_antisym; [exact Hhi | now apply Hmax]. }
    inversion Hs as [ | ? ? Hs1 H0]; subst.
    inversion Hs1 as [ | ? ? Hs2 H1]; subst.
    inversion Hs2 as [ | ? ? Hs3 H2]; subst.
    inversion Hs3 as [ | ? ? Hs4 H3]; subst.
    inversion Hs4 as [ | ? ? _ H4]; subst.
    rewrite Forall_forall in H0, H1, H2, H3, H4.
    assert (L0 : (pd.quantile v (0 # 5) < xi)%Q)
      by (rewrite E5; apply H0; simpl; tauto).
    assert (L1 : (pd.quantile v (1 # 5) < xi)%Q)
      by (rewrite E5; apply H1; simpl; tauto).
    assert (L2 : (pd.quantile v (2 # 5) < xi)%Q)
      by (rewrite E5; apply H2; simpl; tauto).
    assert (L3 : (pd.quantile v (3 # 5) < xi)%Q)
      by (rewrite E5; apply H3; simpl; tauto).
    assert (L4 : (pd.quantile v (4 # 5) < xi)%Q)
      by (rewrite E5; apply H4; simpl; tauto).
    unfold pd.bin_id. cbn [pd.searchsorted_left length].
    assert (E0 : Qeq_bool xi (pd.quantile v (0 # 5)) = false).
    { destruct (Qeq_bool xi (pd.quantile v (0 # 5))) eqn:E; [ | reflexivity].
      apply Qeq_bool_iff in E. rewrite E in L0.
      exfalso. exact (Qlt_irrefl _ L0). }
    rewrite E0.
    apply Qlt_bool_iff in L0, L1, L2, L3, L4.
    rewrite L0, L1, L2, L3, L4.
    assert (F5 : pd.Qlt_bool (pd.quantile v (5 # 5)) xi = false).
    { apply Qlt_bool_false_iff. rewrite E5. apply Qle_refl. }
    rewrite F5. reflexivity.
Qed.

(** X14.  In every returned table the extreme scores are taken: a
    customer with the least Recency has R_Score 5 and one with the
    greatest Recency R_Score 1; a customer with the least Monetary has
    M_Score 1 and one with the greatest Monetary M_Score 5. *)
Theorem extreme_customers_get_extreme_scores
        (df_cleaned : list Transaction) (rfm : list RfmRecord)
        (row : RfmRecord) :
  perform_rfm_analysis df_cleaned = Ok rfm ->
  In row rfm ->
  ((forall other, In other rfm ->
                  Recency (metrics row) <= Recency (metrics other)) ->
   R_Score row = 5)
  /\ ((forall other, In other rfm ->
                     Recency (metrics other) <= Recency (metrics row)) ->
      R_Score row = 1)
  /\ ((forall other, In other rfm ->
                     (Monetary (metrics row) <= Monetary (metrics other))%Q) ->
      M_Score row = 1)
  /\ ((forall other, In other rfm ->
                     (Monetary (metrics other) <= Monetary (metrics row))%Q) ->
      M_Score row = 5).
Proof.
  intros Hrun Hrow.
  destruct (perform_rfm_analysis_row_scores _ _ _ Hrun Hrow) as [HR HM].
  pose proof (perform_rfm_analysis_columns _ _ Hrun) as [Hm [HRc [_ HMc]]].
  pose proof (qcut_Ok_bins _ R_labels _ eq_refl HRc) as HsR.
  pose proof (qcut_Ok_bins _ FM_labels _ eq_refl HMc) as HsM.
  assert (HinR : In (inject_Z (Recency (metrics row)))
                    (map (fun x => inject_Z (Recency x)) (rfm_agg df_cleaned))).
  { rewrite <- Hm, map_map.
    apply (in_map (fun r => inject_Z (Recency (metrics r)))). exact Hrow. }
  assert (HinM : In (Monetary (metrics row))
                    (map Monetary (rfm_agg df_cleaned))).
  { rewrite <- Hm, map_map.
    apply (in_map (fun r => Monetary (metrics r))). exact Hrow. }
  destruct (bin_id_of_extremes _ _ HsR HinR) as [HRmin HRmax].
  destruct (bin_id_of_extremes _ _ HsM HinM) as [HMmin HMmax].
  assert (HallR : forall y,
             In y (map (fun x => inject_Z (Recency x)) (rfm_agg df_cleaned)) ->
             exists other, In other rfm /\ y = inject_Z (Recency (metrics other))).
  { intros y Hy. rewrite <- Hm, map_map in Hy. apply in_map_iff in Hy.
    destruct Hy as [other [<- Ho]]. eauto. }
  assert (HallM : forall y,
             In y (map Monetary (rfm_agg df_cleaned)) ->
             exists other, In other rfm /\ y = Monetary (metrics other)).
  { intros y Hy. rewrite <- Hm, map_map in Hy. apply in_map_iff in Hy.
    destruct Hy as [other [<- Ho]]. eauto. }
  split; [ | split; [ | split]]; intros Hext.
  - rewrite HRmin in HR; [simpl in HR; congruence | ].
    intros y Hy. destruct (HallR y Hy) as [other [Ho ->]].
    rewrite <- Zle_Qle. now apply Hext.
  - rewrite HRmax in HR; [simpl in HR; congruence | ].
    intros y Hy. destruct (HallR y Hy) as [other [Ho ->]].
    rewrite <- Zle_Qle. now apply Hext.
  - rewrite HMmin in HM; [simpl in HM; congruence | ].
    intros y Hy. destruct (HallM y Hy) as [other [Ho ->]]. now apply Hext.
  - rewrite HMmax in HM; [simpl in HM; congruence | ].
    intros y Hy. destruct (HallM y Hy) as [other [Ho ->]]. now apply Hext.
Qed.

Lemma extreme_customers_get_extreme_scores_witness :
  perform_rfm_analysis sample_cleaned = Ok sample_table
  /\ In (nth 4 sample_table sample_row) sample_table
  /\ (forall other, In other sample_table ->
                    Recency (metrics (nth 4 sample_table sample_row))
                    <= Recency (metrics other))
  /\ R_Score (nth 4 sample_table sample_row) = 5.
Proof.
  assert (H0 : perform_rfm_analysis sample_cleaned = Ok sample_table)
    by (vm_compute; reflexivity).
  assert (H1 : In (nth 4 sample_table sample_row) sample_table)
    by (do 4 right; left; reflexivity).
  assert (H2 : forall other, In other sample_table ->
                             Recency (metrics (nth 4 sample_table sample_row))
                             <= Recency (metrics other)).
  { intros other [<- | [<- | [<- | [<- | [<- | []]]]]]; simpl; lia. }
  split; [exact H0 | ]. split; [exact H1 | ]. split; [exact H2 | ].
  exact (proj1 (extreme_customers_get_extreme_scores
                  sample_cleaned sample_table _ H0 H1) H2).
Defined.

(** ** Frequency scores and ranks *)

Lemma count_eq_nil (z : Z) : pd.count_eq z [] = 0.
Proof. reflexivity. Qed.

Lemma rank_first_from_nth (seen l all : list Z) (i : nat) (x : Z) :
  nth_error l i = Some x ->
  nth_error (pd.rank_first_from seen l all) i
  = Some (1 + pd.count_lt x all
          + (pd.count_eq x seen + pd.count_eq x (firstn i l))).
Proof.
  revert seen i. induction l as [ | a l IH]; intros seen i Hi.
  - destruct i; discriminate Hi.
  - destruct i as [ | i]; cbn [pd.rank_first_from nth_error firstn] in *.
    + injection Hi as ->. change (pd.count_eq x []) with 0.
      do 2 f_equal. lia.
    + rewrite (IH (a :: seen) i Hi). rewrite !count_eq_cons.
      do 2 f_equal. lia.
Qed.

Lemma count_eq_firstn_le (x : Z) (l : list Z) (j : nat) :
  pd.count_eq x (firstn j l) <= pd.count_eq x l.
Proof.
  revert j. induction l as [ | a l IH]; intros [ | j]; simpl firstn;
    rewrite ?count_eq_nil, ?count_eq_cons; try lia.
  - destruct (a =? x); pose proof (count_eq_nonneg x l); lia.
  - specialize (IH j). lia.
Qed.

Lemma count_eq_firstn_step (x : Z) (l : list Z) (i j : nat) :
  nth_error l i = Some x -> (i < j)%nat ->
  pd.count_eq x (firstn i l) + 1 <= pd.count_eq x (firstn j l).
Proof.
  revert i j. induction l as [ | a l IH]; intros i j Hi Hij.
  - destruct i; discriminate Hi.
  - destruct j as [ | j]; [lia | ].
    destruct i as [ | i]; simpl in Hi; simpl firstn.
    + injection Hi as ->. rewrite count_eq_nil, count_eq_cons, Z.eqb_refl.
      pose proof (count_eq_nonneg x (firstn j l)). lia.
    + rewrite !count_eq_cons. specialize (IH i j Hi). lia.
Qed.

(** A smaller value has a smaller rank, and among equal values the one
    met first has the smaller rank. *)
Lemma rank_first_order (l : list Z) (i j : nat) (x y ri rj : Z) :
  nth_error l i = Some x -> nth_error l j = Some y ->
  nth_error (pd.rank_first l) i = Some ri ->
  nth_error (pd.rank_first l) j = Some rj ->
  (x < y -> ri < rj) /\ (x = y -> (i < j)%nat -> ri < rj).
Proof.
  intros Hx Hy Hri Hrj. unfold pd.rank_first in *.
  rewrite (rank_first_from_nth [] l l i x Hx) in Hri.
  rewrite (rank_first_from_nth [] l l j y Hy) in Hrj.
  assert (Eri : ri = 1 + pd.count_lt x l
                     + (pd.count_eq x [] + pd.count_eq x (firstn i l)))
    by congruence.
  assert (Erj : rj = 1 + pd.count_lt y l
                     + (pd.count_eq y [] + pd.count_eq y (firstn j l)))
    by congruence.
  change (pd.count_eq x []) with 0 in Eri.
  change (pd.count_eq y []) with 0 in Erj.
  clear Hri Hrj. subst ri rj.
  pose proof (count_eq_firstn_step x l i (S i) Hx (Nat.lt_succ_diag_r i)).
  pose proof (count_eq_firstn_le x l (S i)).
  pose proof (count_eq_nonneg y (firstn j l)).
  split.
  - intros Hlt. pose proof (count_lt_step x y l Hlt). lia.
  - intros Heq Hij. subst y.
    pose proof (count_eq_firstn_step x l i j Hx Hij). lia.
Qed.

Lemma StronglySorted_lt_nth_error (l : list Z) (i j : nat) (a b : Z) :
  StronglySorted Z.lt l ->
  nth_error l i = Some a -> nth_error l j = Some b ->
  a <= b -> (i <= j)%nat.
Proof.
  intros Hs. revert i j. induction Hs as [ | c l Hs IH Hc]; intros i j Hi Hj Hab.
  - destruct i; discriminate Hi.
  - destruct i as [ | i], j as [ | j]; simpl in *; try lia.
    + injection Hj as ->. apply nth_error_In in Hi.
      rewrite Forall_forall in Hc. specialize (Hc _ Hi). lia.
    + apply le_n_S. now apply IH.
Qed.

(** The F_Score of the row at position [i] is the label of the bin of
    the [i]-th rank. *)
Lemma perform_rfm_analysis_F_Score_at
      (df : list Transaction) (table : list RfmRecord)
      (i : nat) (row : RfmRecord) :
  perform_rfm_analysis df = Ok table ->
  nth_error table i = Some row ->
  exists r,
    nth_error (pd.rank_first (map Frequency (rfm_agg df))) i = Some r
    /\ nth_error (map Frequency (rfm_agg df)) i
       = Some (Frequency (metrics row))
    /\ nth_error (map rfm_CustomerID (rfm_agg df)) i
       = Some (rfm_CustomerID (metrics row))
    /\ pd.take_label FM_labels
         (pd.bin_id
            (pd.qcut_bins
               (map inject_Z (pd.rank_first (map Frequency (rfm_agg df)))) 5)
            (inject_Z r))
       = Some (F_Score row).
Proof.
  intros Hrun Hi.
  apply perform_rfm_analysis_columns in Hrun.
  destruct Hrun as [Hm [_ [HF _]]].
  unfold frequency_scores in HF. apply qcut_Ok in HF. destruct HF as [_ HF].
  set (bins := pd.qcut_bins
                 (map inject_Z (pd.rank_first (map Frequency (rfm_agg df)))) 5)
    in *.
  rewrite map_map in HF.
  assert (Hlen : length (pd.rank_first (map Frequency (rfm_agg df)))
                 = length table).
  { rewrite rank_first_length, length_map, <- Hm. now rewrite length_map. }
  destruct (nth_error (pd.rank_first (map Frequency (rfm_agg df))) i)
    as [r | ] eqn:Er.
  - exists r. split; [reflexivity | ].
    rewrite <- Hm, !map_map.
    split; [now rewrite nth_error_map, Hi | ].
    split; [now rewrite nth_error_map, Hi | ].
    apply (f_equal (fun l => nth_error l i)) in HF.
    rewrite map_map, !nth_error_map, Hi, Er in HF. simpl in HF.
    now injection HF as <-.
  - apply nth_error_None in Er.
    assert (i < length table)%nat by (apply nth_error_Some; congruence).
    lia.
Qed.

(** X15.  Within one returned table the F_Score never falls with the
    Frequency, and among customers with the same Frequency the one with
    the smaller customer id never has the higher F_Score. *)
Theorem F_Score_follows_Frequency_then_customer_id
        (df_cleaned : list Transaction) (rfm : list RfmRecord)
        (row1 row2 : RfmRecord) :
  perform_rfm_analysis df_cleaned = Ok rfm ->
  In row1 rfm -> In row2 rfm ->
  (Frequency (metrics row1) < Frequency (metrics row2) ->
   F_Score row1 <= F_Score row2)
  /\ (Frequency (metrics row1) = Frequency (metrics row2) ->
      rfm_CustomerID (metrics row1) <= rfm_CustomerID (metrics row2) ->
      F_Score row1 <= F_Score row2).
Proof.
  intros Hrun H1 H2.
  apply In_nth_error in H1, H2.
  destruct H1 as [i Hi], H2 as [j Hj].
  destruct (perform_rfm_analysis_F_Score_at _ _ _ _ Hrun Hi)
    as [ri [Hri [Hfi [Hci Li]]]].
  destruct (perform_rfm_analysis_F_Score_at _ _ _ _ Hrun Hj)
    as [rj [Hrj [Hfj [Hcj Lj]]]].
  destruct (rank_first_order _ _ _ _ _ _ _ Hfi Hfj Hri Hrj) as [Hlt Htie].
  apply take_label_Some in Li, Lj.
  destruct Li as [bi [Ebi Li]], Lj as [bj [Ebj Lj]].
  pose proof (bin_id_Some_range _ _ _ Ebi) as Rbi.
  pose proof (bin_id_Some_range _ _ _ Ebj) as Rbj.
  apply take_label_FM in Li, Lj; try lia.
  assert (Hbins : ri <= rj -> (bi <= bj)%nat).
  { intros Hle. apply (bin_id_monotone _ _ _ _ _ Ebi Ebj).
    now rewrite <- Zle_Qle. }
  split.
  - intros Hf. specialize (Hlt Hf). assert (ri <= rj) by lia.
    specialize (Hbins H). lia.
  - intros Hf Hc.
    assert (Hij : (i <= j)%nat).
    { apply (StronglySorted_lt_nth_error
               (map rfm_CustomerID (rfm_agg df_cleaned)) i j
               (rfm_CustomerID (metrics row1))
               (rfm_CustomerID (metrics row2)));
        try assumption.
      rewrite rfm_agg_CustomerID. apply group_keys_ascending. }
    destruct (Nat.eq_dec i j) as [-> | Hne].
    + rewrite Hi in Hj. injection Hj as <-. lia.
    + assert (ri < rj) by (apply Htie; [exact Hf | lia]).
      assert (Hle : ri <= rj) by lia.
      specialize (Hbins Hle). lia.
Qed.

Lemma F_Score_follows_Frequency_then_customer_id_witness :
  perform_rfm_analysis tied_cleaned = Ok tied_table
  /\ In (nth 2 tied_table sample_row) tied_table
  /\ In (nth 3 tied_table sample_row) tied_table
  /\ Frequency (metrics (nth 2 tied_table sample_row))
     = Frequency (metrics (nth 3 tied_table sample_row))
  /\ rfm_CustomerID (metrics (nth 2 tied_table sample_row))
     <= rfm_CustomerID (metrics (nth 3 tied_table sample_row))
  /\ F_Score (nth 2 tied_table sample_row)
     <= F_Score (nth 3 tied_table sample_row).
Proof.
  assert (H0 : perform_rfm_analysis tied_cleaned = Ok tied_table)
    by (vm_compute; reflexivity).
  assert (H1 : In (nth 2 tied_table sample_row) tied_table)
    by (do 2 right; left; reflexivity).
  assert (H2 : In (nth 3 tied_table sample_row) tied_table)
    by (do 3 right; left; reflexivity).
  assert (H3 : Frequency (metrics (nth 2 tied_table sample_row))
               = Frequency (metrics (nth 3 tied_table sample_row)))
    by reflexivity.
  assert (H4 : rfm_CustomerID (metrics (nth 2 tied_table sample_row))
               <= rfm_CustomerID (metrics (nth 3 tied_table sample_row)))
    by (simpl; lia).
  split; [exact H0 | ]. split; [exact H1 | ]. split; [exact H2 | ].
  split; [exact H3 | ]. split; [exact H4 | ].
  exact (proj2 (F_Score_follows_Frequency_then_customer_id
                  tied_cleaned tied_table _ _ H0 H1 H2) H3 H4).
Defined.

(** X16.  [rank(method='first')] numbers the rows of a column: the ranks
    are the integers 1..n, each used once, whatever the ties; a smaller
    value has a smaller rank, and of two equal values the earlier row has
    the smaller rank. *)
Theorem rank_first_numbers_the_rows (l : list Z) :
  Permutation (pd.rank_first l) (ordinals (length l))
  /\ NoDup (pd.rank_first l)
  /\ (forall r, In r (pd.rank_first l) <-> 1 <= r <= Z.of_nat (length l))
  /\ (forall i j x y ri rj,
         nth_error l i = Some x -> nth_error l j = Some y ->
         nth_error (pd.rank_first l) i = Some ri ->
         nth_error (pd.rank_first l) j = Some rj ->
         (x < y -> ri < rj) /\ (x = y -> (i < j)%nat -> ri < rj)).
Proof.
  pose proof (rank_first_Permutation l) as Hp.
  split; [exact Hp | ]. split; [ | split].
  - apply (Permutation_NoDup (Permutation_sym Hp)). apply ordinals_NoDup.
  - intros r. rewrite <- ordinals_In.
    split; apply Permutation_in; [exact Hp | now apply Permutation_sym].
  - intros i j x y ri rj. apply rank_first_order.
Qed.

(** ** The order of the input rows, again *)

(** X17.  Reordering the rows of the cleaned frame changes neither the
    Recency of any customer nor the R_Score the engine gives. *)
Theorem row_order_leaves_Recency_and_R_Score
        (df1 df2 : list Transaction) :
  Permutation df1 df2 ->
  map rfm_CustomerID (rfm_agg df1) = map rfm_CustomerID (rfm_agg df2)
  /\ map Recency (rfm_agg df1) = map Recency (rfm_agg df2)
  /\ recency_scores (rfm_agg df1) = recency_scores (rfm_agg df2)
  /\ (forall rfm1 rfm2,
         perform_rfm_analysis df1 = Ok rfm1 ->
         perform_rfm_analysis df2 = Ok rfm2 ->
         map R_Score rfm1 = map R_Score rfm2).
Proof.
  intros Hp.
  destruct (rfm_agg_Permutation df1 df2 Hp) as [Hc [Hr _]].
  assert (Hs : recency_scores (rfm_agg df1) = recency_scores (rfm_agg df2)).
  { unfold recency_scores.
    rewrite <- !(map_map Recency inject_Z). now rewrite Hr. }
  split; [exact Hc | ]. split; [exact Hr | ]. split; [exact Hs | ].
  intros rfm1 rfm2 H1 H2.
  apply perform_rfm_analysis_columns in H1, H2.
  destruct H1 as [_ [H1 _]], H2 as [_ [H2 _]].
  rewrite Hs, H2 in H1. injection H1 as H1.
  symmetry. now apply map_Some_inj.
Qed.

Lemma row_order_leaves_Recency_and_R_Score_witness :
  Permutation sample_cleaned (rev sample_cleaned)
  /\ map Recency (rfm_agg sample_cleaned)
     = map Recency (rfm_agg (rev sample_cleaned)).
Proof.
  assert (Hp : Permutation sample_cleaned (rev sample_cleaned))
    by apply Permutation_rev.
  split; [exact Hp | ].
  exact (proj1 (proj2 (row_order_leaves_Recency_and_R_Score _ _ Hp))).
Defined.

(** ** Customer ids *)

Lemma astype_int_whole (c : Q) (z : Z) :
  (c == inject_Z z)%Q -> int64_min <= z <= int64_max -> astype_int c = z.
Proof.
  unfold Qeq, inject_Z, astype_int. cbn [Qnum Qden]. intros H Hz.
  rewrite Z.mul_1_r in H. rewrite H.
  rewrite Z.quot_mul by discriminate.
  destruct (Z.leb_spec int64_min z); [ | lia].
  destruct (Z.leb_spec z int64_max); [reflexivity | lia].
Qed.

(** X18.  A customer id that is a whole number within the int64 range,
    however the file writes it, is kept by the cast: a valid row whose
    raw id equals the integer [z] appears in the cleaned frame under the
    customer id [z], and that customer gets a row of the RFM table. *)
Theorem whole_customer_ids_are_kept
        (df : list RawRecord) (r : RawRecord) (c : Q) (z : Z) :
  In r df ->
  raw_CustomerID r = Some c ->
  (c == inject_Z z)%Q ->
  int64_min <= z <= int64_max ->
  (0 < raw_Quantity r)%Q -> (0 < raw_UnitPrice r)%Q ->
  In (add_Sales (r, z)) (clean_frame df)
  /\ In z (map rfm_CustomerID (rfm_agg (clean_frame df))).
Proof.
  intros Hin Hc Hz Hrange Hq Hp.
  assert (Ht : In (add_Sales (r, z)) (clean_frame df)).
  { rewrite <- (astype_int_whole c z Hz Hrange).
    apply in_split in Hin. destruct Hin as [l1 [l2 ->]].
    change (r :: l2) with ([r] ++ l2).
    rewrite !clean_frame_app, (clean_frame_single r c Hc Hq Hp).
    apply in_or_app. right. left. reflexivity. }
  split; [exact Ht | ].
  rewrite rfm_agg_CustomerID. apply group_keys_In.
  apply in_map_iff. exists (add_Sales (r, z)). split; [reflexivity | exact Ht].
Qed.

Lemma whole_customer_ids_are_kept_witness :
  In (mkRaw "536366" "HAND WARMER" 2 2 (at_day 14945) (Some 12347%Q))
     sample_file
  /\ int64_min <= 12347 <= int64_max
  /\ In 12347 (map rfm_CustomerID (rfm_agg (clean_frame sample_file))).
Proof.
  assert (H : In (mkRaw "536366" "HAND WARMER" 2 2 (at_day 14945)
                        (Some 12347%Q)) sample_file)
    by (right; left; reflexivity).
  assert (Hr : int64_min <= 12347 <= int64_max)
    by (unfold int64_min, int64_max; lia).
  split; [exact H | ]. split; [exact Hr | ].
  refine (proj2 (whole_customer_ids_are_kept
                   sample_file _ 12347%Q 12347 H eq_refl _ Hr _ _)).
  - reflexivity.
  - reflexivity.
  - reflexivity.
Defined.

(** ** Segments and single scores *)

(** X19.  In a returned table a 'Best Customers' row has no score below
    3 and a 'Lost Customers' row no score above 3; three scores of 5
    make a customer 'Best Customers', three scores of 1 'Lost
    Customers'. *)
Theorem segments_bound_the_scores
        (df_cleaned : list Transaction) (rfm : list RfmRecord)
        (row : RfmRecord) :
  perform_rfm_analysis df_cleaned = Ok rfm ->
  In row rfm ->
  (Segment row = "Best Customers"%string ->
   3 <= R_Score row /\ 3 <= F_Score row /\ 3 <= M_Score row)
  /\ (Segment row = "Lost Customers"%string ->
      R_Score row <= 3 /\ F_Score row <= 3 /\ M_Score row <= 3)
  /\ (R_Score row = 5 -> F_Score row = 5 -> M_Score row = 5 ->
      Segment row = "Best Customers"%string)
  /\ (R_Score row = 1 -> F_Score row = 1 -> M_Score row = 1 ->
      Segment row = "Lost Customers"%string).
Proof.
  intros Hrun Hrow.
  pose proof (perform_rfm_analysis_Ok _ _ Hrun) as [R [F [M [HR [HF [HM E]]]]]].
  pose proof (frame_rows_Forall (rfm_agg df_cleaned) R F M) as Hall.
  rewrite <- E, Forall_forall in Hall.
  destruct (Hall row Hrow) as [_ [Hr [Hf [Hm [Ht Hseg]]]]].
  apply qcut_Ok_labels in HR, HF, HM.
  destruct HR as [_ HR], HF as [_ HF], HM as [_ HM].
  rewrite Forall_forall in HR, HF, HM.
  specialize (HR _ Hr). specialize (HF _ Hf). specialize (HM _ Hm).
  assert (HRr : 1 <= R_Score row <= 5)
    by (unfold R_labels in HR; simpl in HR; lia).
  assert (HFr : 1 <= F_Score row <= 5)
    by (unfold FM_labels in HF; simpl in HF; lia).
  assert (HMr : 1 <= M_Score row <= 5)
    by (unfold FM_labels in HM; simpl in HM; lia).
  destruct (segment_customer_iff (RFM_Total_Score row)) as [H1 [_ [_ H4]]].
  rewrite <- Hseg in H1, H4.
  split; [ | split; [ | split]].
  - intros Hbest. apply H1 in Hbest. lia.
  - intros Hlost. apply H4 in Hlost. lia.
  - intros. apply H1. lia.
  - intros. apply H4. lia.
Qed.

Lemma segments_bound_the_scores_witness :
  perform_rfm_analysis sample_cleaned = Ok sample_table
  /\ In sample_row sample_table
  /\ Segment sample_row = "Lost Customers"%string
  /\ R_Score sample_row <= 3.
Proof.
  assert (H0 : perform_rfm_analysis sample_cleaned = Ok sample_table)
    by (vm_compute; reflexivity).
  assert (H1 : In sample_row sample_table) by (left; reflexivity).
  assert (H2 : Segment sample_row = "Lost Customers"%string) by reflexivity.
  split; [exact H0 | ]. split; [exact H1 | ]. split; [exact H2 | ].
  exact (proj1 (proj1 (proj2 (segments_bound_the_scores
                                sample_cleaned sample_table sample_row H0 H1))
                      H2)).
Defined.

Lemma rfm_rows_ascend_by_customer_witness :
  perform_rfm_analysis sample_cleaned = Ok sample_table
  /\ StronglySorted Z.lt
       (map (fun row => rfm_CustomerID (metrics row)) sample_table).
Proof.
  assert (H : perform_rfm_analysis sample_cleaned = Ok sample_table)
    by (vm_compute; reflexivity).
  split; [exact H | ].
  exact (proj2 (rfm_rows_ascend_by_customer sample_cleaned) sample_table H).
Defined.

Lemma segment_counts_cover_all_customers_witness :
  perform_rfm_analysis sample_cleaned = Ok sample_table
  /\ Zsum (map snd (segment_counts sample_table)) = 5
  /\ (length (segment_counts sample_table) <= 4)%nat.
Proof.
  assert (H : perform_rfm_analysis sample_cleaned = Ok sample_table)
    by (vm_compute; reflexivity).
  split; [exact H | ].
  destruct (segment_counts_cover_all_customers sample_table)
    as [Hsum [_ [_ [_ Hlabels]]]].
  split; [exact Hsum | ].
  exact (proj2 (Hlabels sample_cleaned H)).
Defined.

(** ** Cuts with given edges *)

Lemma qcut_bins_to_cuts (x : list Q) (q : nat) (labels : list Z) :
  x <> [] ->
  pd.qcut x q labels = pd.bins_to_cuts (pd.qcut_bins x q) x labels.
Proof. destruct x; [congruence | reflexivity]. Qed.

Lemma all_different_Qeq_bool (l : list Q) :
  all_different l <-> ForallOrdPairs (fun a b => Qeq_bool b a = false) l.
Proof.
  unfold all_different. split; induction 1 as [ | a l Ha Hp IH];
    constructor; try exact IH;
    (eapply Forall_impl; [ | exact Ha]); intros b Hb.
  - destruct (Qeq_bool b a) eqn:E; [ | reflexivity].
    apply Qeq_bool_iff in E. exfalso. apply Hb. now symmetry.
  - intros Heq. apply Qeq_sym, Qeq_bool_iff in Heq. congruence.
Qed.

(** Six edges that bracket the column: the cut raises exactly when two
    edges are equal, and otherwise gives every value one of the five
    labels. *)
Lemma bins_to_cuts_six (bins x : list Q) (labels : list Z) :
  length bins = 6%nat -> length labels = 5%nat ->
  (forall xi, In xi x -> (nth 0 bins 0 <= xi)%Q /\ (xi <= nth 5 bins 0)%Q) ->
  (all_different bins ->
   exists scores,
     pd.bins_to_cuts bins x labels = Ok (map Some scores)
     /\ length scores = length x
     /\ Forall (fun s => In s labels) scores)
  /\ (~ all_different bins ->
      pd.bins_to_cuts bins x labels = Raise (ValueError pd.bin_edges_msg)).
Proof.
  intros Hb Hl Hbracket. unfold pd.bins_to_cuts. rewrite Hb, Hl.
  split.
  - intros Hd. apply all_different_Qeq_bool in Hd.
    unfold pd.unique. rewrite unique_from_id;
      [ | exact Hd | apply Forall_forall; intros; constructor].
    rewrite Hb. simpl.
    assert (Hall : Forall (fun o => exists s, o = Some s /\ In s labels)
                          (map (fun xi => pd.take_label labels
                                            (pd.bin_id bins xi)) x)).
    { apply Forall_forall. intros o Ho. apply in_map_iff in Ho.
      destruct Ho as [xi [<- Hxi]].
      destruct (Hbracket xi Hxi) as [Hlo Hhi].
      destruct bins as [ | b0 [ | b1 [ | b2 [ | b3 [ | b4 [ | b5 [ | ? ?]]]]]]];
        try discriminate Hb.
      simpl in Hlo, Hhi.
      destruct (bin_id_in_range b0 b1 b2 b3 b4 b5 xi Hlo Hhi) as [i [-> Hi]].
      apply take_label_in_range. lia. }
    apply all_Some in Hall. destruct Hall as [scores [E Hs]].
    exists scores. rewrite E. split; [reflexivity | ]. split; [ | exact Hs].
    apply (f_equal (@length _)) in E. now rewrite !length_map in E.
  - intros Hnd.
    assert (Hlt : (length (pd.unique Qeq_bool bins) < 6)%nat).
    { pose proof (unique_from_length_le Qeq_bool [] bins) as Hle.
      rewrite Hb in Hle. unfold pd.unique.
      destruct (Nat.eq_dec (length (pd.unique_from Qeq_bool [] bins)) 6)
        as [Heq | Hne]; [ | lia].
      exfalso. apply Hnd. apply all_different_Qeq_bool.
      rewrite <- Hb in Heq. now apply unique_from_full in Heq. }
    apply Nat.ltb_lt in Hlt. rewrite Hlt. reflexivity.
Qed.

Lemma qcut_bins_bracket (x : list Q) (xi : Q) :
  In xi x ->
  (nth 0 (pd.qcut_bins x 5) 0 <= xi)%Q /\ (xi <= nth 5 (pd.qcut_bins x 5) 0)%Q.
Proof.
  intros Hin. rewrite qcut_bins_5. cbn [nth].
  assert (Hne : pd.sort_values Qle_bool x <> []).
  { intros E. apply (f_equal (@length _)) in E.
    rewrite sort_values_length in E. destruct x; [contradiction | discriminate]. }
  destruct (sorted_column_bounds x xi Hin) as [Hlo Hhi].
  rewrite quantile_0, (quantile_1 _ Hne). split; assumption.
Qed.

Lemma engine_cut_outcome (x : list Q) (labels : list Z) :
  length labels = 5%nat ->
  Forall (fun s => 1 <= s <= 5) labels ->
  (forall e, pd.qcut x 5 labels = Raise e -> e = ValueError pd.bin_edges_msg)
  /\ (forall col,
         pd.qcut x 5 labels = Ok col ->
         exists scores,
           col = map Some scores
           /\ length scores = length x
           /\ Forall (fun s => 1 <= s <= 5) scores).
Proof.
  intros Hl Hrange.
  destruct (qcut_5_raises_or_labels x labels Hl)
    as [H | [scores [H [H1 [H2 _]]]]]; rewrite H; split.
  - intros e He. now injection He as <-.
  - discriminate.
  - discriminate.
  - intros col Hc. injection Hc as <-. exists scores.
    split; [reflexivity | ]. split; [exact H1 | ].
    rewrite Forall_forall in *. intros s Hs. apply Hrange. now apply H2.
Qed.

Lemma some_label_unused (scores : list Z) :
  (length scores < 5)%nat ->
  exists label, In label FM_labels /\ ~ In label scores.
Proof.
  intros Hlen.
  destruct (in_dec Z.eq_dec 1 scores) as [H1 | H1];
    [ | exists 1; split; [simpl; tauto | exact H1]].
  destruct (in_dec Z.eq_dec 2 scores) as [H2 | H2];
    [ | exists 2; split; [simpl; tauto | exact H2]].
  destruct (in_dec Z.eq_dec 3 scores) as [H3 | H3];
    [ | exists 3; split; [simpl; tauto | exact H3]].
  destruct (in_dec Z.eq_dec 4 scores) as [H4 | H4];
    [ | exists 4; split; [simpl; tauto | exact H4]].
  destruct (in_dec Z.eq_dec 5 scores) as [H5 | H5];
    [ | exists 5; split; [simpl; tauto | exact H5]].
  exfalso.
  assert (Hincl : incl FM_labels scores).
  { intros l [<- | [<- | [<- | [<- | [<- | []]]]]]; assumption. }
  assert (Hnd : NoDup FM_labels).
  { unfold FM_labels. repeat constructor; simpl; lia. }
  pose proof (NoDup_incl_length Hnd Hincl) as Hle. simpl in Hle. lia.
Qed.

(** C5, as stated, does not hold: with two customers the Frequency cut
    succeeds, and the run completes, yet only two of the five bins
    receive a customer. *)
Lemma two_customers_leave_bins_empty :
  perform_rfm_analysis two_customers_cleaned = Ok two_customers_table
  /\ frequency_scores (rfm_agg two_customers_cleaned) = Ok [Some 1; Some 5]
  /\ map F_Score two_customers_table = [1; 5]
  /\ ~ (forall label,
           In label FM_labels -> In label (map F_Score two_customers_table)).
Proof.
  split; [vm_compute; reflexivity | ].
  split; [vm_compute; reflexivity | ].
  split; [reflexivity | ].
  intros H. specialize (H 3). simpl in H.
  destruct H as [H | [H | []]]; [tauto | discriminate H | discriminate H].
Qed.

(** C5, amended.  [pd.qcut] hands its edges to [_bins_to_cuts]; for any
    six edges of which the first is at most and the last at least every
    value of the column (the quantiles at 0 and 1 are its minimum and
    maximum) that step raises 'Bin edges must be unique' exactly when two
    edges are equal and otherwise gives every value one of the five
    labels.  So each of the three cuts of the engine either raises that
    error, and then the engine and the run stop with it and nothing is
    written, or gives every customer a score among 1..5; no other failure
    exists.  The Frequency cut is made on the ordinal ranks of the
    Frequency column, which are the integers 1..n, a smaller Frequency
    first and equal Frequencies in row order; its outcome therefore does
    not depend on the Frequency values: with five customers or more it
    succeeds and every one of the five bins receives a customer, with two
    to four customers it succeeds and leaves a bin empty, with fewer it
    raises. *)
Theorem quintile_cuts_label_or_fail (df_cleaned : list Transaction) :
  let rfm := rfm_agg df_cleaned in
  let ranks := pd.rank_first (map Frequency rfm) in
  (forall x q labels,
      x <> [] ->
      pd.qcut x q labels = pd.bins_to_cuts (pd.qcut_bins x q) x labels)
  /\ (forall x xi,
         In xi x ->
         (nth 0 (pd.qcut_bins x 5) 0 <= xi)%Q
         /\ (xi <= nth 5 (pd.qcut_bins x 5) 0)%Q)
  /\ (forall bins x labels,
         length bins = 6%nat -> length labels = 5%nat ->
         (forall xi, In xi x ->
                     (nth 0 bins 0 <= xi)%Q /\ (xi <= nth 5 bins 0)%Q) ->
         (all_different bins ->
          exists scores,
            pd.bins_to_cuts bins x labels = Ok (map Some scores)
            /\ length scores = length x
            /\ Forall (fun s => In s labels) scores)
         /\ (~ all_different bins ->
             pd.bins_to_cuts bins x labels
             = Raise (ValueError pd.bin_edges_msg)))
  /\ (forall cut,
         In cut [recency_scores rfm; frequency_scores rfm;
                 monetary_scores rfm] ->
         (forall e, cut = Raise e -> e = ValueError pd.bin_edges_msg)
         /\ (forall col,
                cut = Ok col ->
                exists scores,
                  col = map Some scores
                  /\ length scores = length rfm
                  /\ Forall (fun s => 1 <= s <= 5) scores))
  /\ ((exists table, perform_rfm_analysis df_cleaned = Ok table)
      \/ perform_rfm_analysis df_cleaned
         = Raise (ValueError pd.bin_edges_msg))
  /\ (forall fs input,
         fs FILE_NAME = Some input ->
         exit (main fs) = Completed
         \/ main fs = {| written := [];
                         exit := Uncaught (ValueError pd.bin_edges_msg) |})
  /\ frequency_scores rfm = pd.qcut (map inject_Z ranks) 5 FM_labels
  /\ (forall table,
         perform_rfm_analysis df_cleaned = Ok table ->
         frequency_scores rfm = Ok (map Some (map F_Score table)))
  /\ Permutation ranks (ordinals (length rfm))
  /\ (forall i j x y ri rj,
         nth_error (map Frequency rfm) i = Some x ->
         nth_error (map Frequency rfm) j = Some y ->
         nth_error ranks i = Some ri ->
         nth_error ranks j = Some rj ->
         (x < y -> ri < rj) /\ (x = y -> (i < j)%nat -> ri < rj))
  /\ ((5 <= length rfm)%nat ->
      exists scores,
        frequency_scores rfm = Ok (map Some scores)
        /\ length scores = length rfm
        /\ (forall label, In label FM_labels -> In label scores))
  /\ ((2 <= length rfm < 5)%nat ->
      exists scores,
        frequency_scores rfm = Ok (map Some scores)
        /\ length scores = length rfm
        /\ (exists label, In label FM_labels /\ ~ In label scores))
  /\ ((length rfm <= 1)%nat ->
      frequency_scores rfm = Raise (ValueError pd.bin_edges_msg)).
Proof.
  intros rfm ranks.
  assert (Hfm : Forall (fun s => 1 <= s <= 5) FM_labels)
    by (unfold FM_labels; repeat constructor; lia).
  assert (Hr : Forall (fun s => 1 <= s <= 5) R_labels)
    by (unfold R_labels; repeat constructor; lia).
  split; [apply qcut_bins_to_cuts | ].
  split; [apply qcut_bins_bracket | ].
  split; [apply bins_to_cuts_six | ].
  split.
  { intros cut [<- | [<- | [<- | []]]].
    - destruct (engine_cut_outcome
                  (map (fun x => inject_Z (Recency x)) rfm) R_labels
                  eq_refl Hr) as [H1 H2].
      split; [exact H1 | ].
      intros col Hc. destruct (H2 col Hc) as [scores [E [Hlen Hs]]].
      exists scores. rewrite length_map in Hlen. auto.
    - destruct (engine_cut_outcome (map inject_Z ranks) FM_labels
                                   eq_refl Hfm) as [H1 H2].
      split; [exact H1 | ].
      intros col Hc. destruct (H2 col Hc) as [scores [E [Hlen Hs]]].
      exists scores. unfold ranks in Hlen.
      rewrite length_map, rank_first_length, length_map in Hlen. auto.
    - destruct (engine_cut_outcome (map Monetary rfm) FM_labels
                                   eq_refl Hfm) as [H1 H2].
      split; [exact H1 | ].
      intros col Hc. destruct (H2 col Hc) as [scores [E [Hlen Hs]]].
      exists scores. rewrite length_map in Hlen. auto. }
  split; [apply perform_rfm_analysis_outcome | ].
  split; [intros fs input Hfs; now apply (main_outcome fs input) | ].
  split; [reflexivity | ].
  split; [intros table Hrun; now apply perform_rfm_analysis_columns in Hrun | ].
  split.
  { unfold ranks. rewrite <- (length_map Frequency rfm).
    apply rank_first_Permutation. }
  split; [intros i j x y ri rj; apply rank_first_order | ].
  split; [apply frequency_scores_fill_every_bin | ].
  split; [ | apply frequency_scores_single].
  intros [Hlo Hhi]. unfold frequency_scores.
  rewrite (frequency_cut_Ok (map Frequency rfm))
    by (rewrite length_map; exact Hlo).
  destruct (qcut_labels_every_value
              (map inject_Z (pd.rank_first (map Frequency rfm)))
              FM_labels eq_refl) as [scores [E [Hlen _]]].
  exists scores. split; [now rewrite E | ].
  rewrite length_map, rank_first_length, length_map in Hlen.
  split; [exact Hlen | ].
  apply some_label_unused. lia.
Qed.

Lemma quintile_cuts_label_or_fail_witness :
  (5 <= length (rfm_agg sample_cleaned))%nat
  /\ (2 <= length (rfm_agg two_customers_cleaned) < 5)%nat
  /\ (exists scores,
         frequency_scores (rfm_agg sample_cleaned) = Ok (map Some scores)
         /\ length scores = length (rfm_agg sample_cleaned)
         /\ (forall label, In label FM_labels -> In label scores))
  /\ (exists scores,
         frequency_scores (rfm_agg two_customers_cleaned)
         = Ok (map Some scores)
         /\ length scores = length (rfm_agg two_customers_cleaned)
         /\ (exists label, In label FM_labels /\ ~ In label scores)).
Proof.
  assert (H5 : (5 <= length (rfm_agg sample_cleaned))%nat)
    by (vm_compute; lia).
  assert (H2 : (2 <= length (rfm_agg two_customers_cleaned) < 5)%nat)
    by (vm_compute; lia).
  split; [exact H5 | ]. split; [exact H2 | ].
  split.
  - destruct (quintile_cuts_label_or_fail sample_cleaned)
      as [_ [_ [_ [_ [_ [_ [_ [_ [_ [_ [Hfill _]]]]]]]]]]].
    exact (Hfill H5).
  - destruct (quintile_cuts_label_or_fail two_customers_cleaned)
      as [_ [_ [_ [_ [_ [_ [_ [_ [_ [_ [_ [Hfew _]]]]]]]]]]]].
    exact (Hfew H2).
Defined.
